(** * Licensing usage export: parsers and monthly averages

    A shallow embedding of [cmk/utils/licensing/export.py]: the
    subscription limit and subscription details parsers, the nine
    protocol-version sample parsers, and the aggregation of daily
    service counts into monthly averages.

    Conventions of the embedding.
    - A Python call that may raise returns a [result]: [Ok v] or
      [Raise e], where [e] is the exception class.  Exception payloads
      and messages are not modelled.
    - Raw (decoded) input is a [pyobj]; mappings have string keys and keep
      insertion order.
    - Python [int] is [Z].  Python [float], [uuid.UUID] and [int] of a
      string belong to the interpreter and its library: they are the
      fields of the class [PyRuntime].  [QRuntime] instantiates it with
      exact rationals to evaluate the program on concrete inputs.
    - [datetime] values are naive; the local time zone,
      [datetime.timestamp] and the class attribute [today] are the fields
      of the class [LocalTime]. *)

From Stdlib Require Import ZArith List String Ascii Bool Lia QArith.
From Stdlib Require Import DecimalString DecimalZ Sorted Permutation.
Import ListNotations.

Set Warnings "-register-all".

Local Open Scope string_scope.
Local Open Scope Z_scope.

(* ================================================================= *)
(** ** Exceptions and results *)

Inductive exn : Type :=
| TypeError
| ValueError
| KeyError
| AttributeError
| OverflowError
| ZeroDivisionError.

Inductive result (A : Type) : Type :=
| Ok (v : A)
| Raise (e : exn).

Arguments Ok {A} v.
Arguments Raise {A} e.

Definition bind {A B : Type} (r : result A) (k : A -> result B) : result B :=
  match r with
  | Ok v => k v
  | Raise e => Raise e
  end.

Notation "x <- r ;; k" := (bind r (fun x => k))
  (at level 61, r at next level, right associativity).

Fixpoint mapM {A B : Type} (f : A -> result B) (l : list A) : result (list B) :=
  match l with
  | [] => Ok []
  | x :: tl =>
      y <- f x ;;
      ys <- mapM f tl ;;
      Ok (y :: ys)
  end.

(* ================================================================= *)
(** ** Insertion-ordered dictionaries *)

Section Dict.
Context {K V : Type} (keq : K -> K -> bool).

Definition dict := list (K * V).

Fixpoint dict_get (d : dict) (k : K) : option V :=
  match d with
  | [] => None
  | (k', v) :: tl => if keq k' k then Some v else dict_get tl k
  end.

(** [d.get(k, default)] *)
Definition dict_get_default (d : dict) (k : K) (default : V) : V :=
  match dict_get d k with
  | Some v => v
  | None => default
  end.

(** [d[k]] *)
Definition dict_item (d : dict) (k : K) : result V :=
  match dict_get d k with
  | Some v => Ok v
  | None => Raise KeyError
  end.

(** [d.setdefault(k, default)] followed by an in-place change [f] of the
    value found: an existing key keeps its position, a new key goes
    last. *)
Fixpoint dict_setdefault_update (d : dict) (k : K) (default : V) (f : V -> V)
  : dict :=
  match d with
  | [] => [(k, f default)]
  | (k', v) :: tl =>
      if keq k' k then (k', f v) :: tl
      else (k', v) :: dict_setdefault_update tl k default f
  end.

Definition dict_keys (d : dict) : list K := map fst d.
End Dict.

Arguments dict : clear implicits.

(* ================================================================= *)
(** ** [collections.Counter] with string keys *)

Definition Counter := dict string Z.

(** [counter[key]]: a missing key counts 0. *)
Definition counter_get (c : Counter) (key : string) : Z :=
  dict_get_default String.eqb c key 0.

(** [counter.update(key=n)]: counts are added. *)
Definition counter_update (c : Counter) (key : string) (n : Z) : Counter :=
  dict_setdefault_update String.eqb c key 0 (fun v => v + n).

(* ================================================================= *)
(** ** The interpreter and its library, as far as the program uses them *)

Class PyRuntime (float uuid : Type) : Type := {
  (** the literal [1.0] *)
  float_one : float;
  (** conversion of an [int] operand in mixed arithmetic *)
  float_of_int : Z -> result float;
  (** [x * y] *)
  float_mul : float -> float -> float;
  (** true division [x / y] *)
  float_div : float -> float -> result float;
  (** [x >= n], [x > n] and [x < n] for an [int] n *)
  float_ge_int : float -> Z -> bool;
  float_gt_int : float -> Z -> bool;
  float_lt_int : float -> Z -> bool;
  (** [x > y] *)
  float_gt : float -> float -> bool;
  (** [bool(x)] *)
  float_bool : float -> bool;
  (** [int(x)] *)
  float_int : float -> result Z;
  (** [str(x)] *)
  float_str : float -> string;
  (** [int(s)] for a string [s] *)
  str_int : string -> result Z;
  (** [UUID(s)] for a string [s] *)
  UUID_of_str : string -> result uuid
}.

(** [str(n)] for an [int]. *)
Definition int_str (n : Z) : string := NilZero.string_of_int (Z.to_int n).

(* ================================================================= *)
(** ** Raw objects *)

Inductive pyobj (float : Type) : Type :=
| PNone
| PBool (b : bool)
| PInt (n : Z)
| PFloat (x : float)
| PStr (s : string)
| PList (l : list (pyobj float))
| PTuple (l : list (pyobj float))
| PDict (d : list (string * pyobj float)).

Arguments PNone {float}.
Arguments PBool {float} b.
Arguments PInt {float} n.
Arguments PFloat {float} x.
Arguments PStr {float} s.
Arguments PList {float} l.
Arguments PTuple {float} l.
Arguments PDict {float} d.

Section Objects.
Context {float uuid : Type} {R : PyRuntime float uuid}.

(** [raw.get(key)] on a mapping *)
Definition py_get (d : dict string (pyobj float)) (key : string)
  : option (pyobj float) :=
  dict_get String.eqb d key.

(** [raw.get(key, default)] on a mapping *)
Definition py_get_default (d : dict string (pyobj float)) (key : string)
  (default : pyobj float) : pyobj float :=
  dict_get_default String.eqb d key default.

(** [raw[key]] on a mapping *)
Definition py_item (d : dict string (pyobj float)) (key : string)
  : result (pyobj float) :=
  dict_item String.eqb d key.

(** Truth value of an object, as tested by [if not x]. *)
Definition py_bool (o : pyobj float) : bool :=
  match o with
  | PNone => false
  | PBool b => b
  | PInt n => negb (n =? 0)
  | PFloat x => float_bool x
  | PStr s => negb (s =? "")%string
  | PList l => match l with [] => false | _ => true end
  | PTuple l => match l with [] => false | _ => true end
  | PDict d => match d with [] => false | _ => true end
  end.

(** [str(o)] for [o] a [bool], [int], [float] or [str]; the program never
    takes [str] of another object. *)
Definition py_str (o : pyobj float) : string :=
  match o with
  | PBool true => "True"
  | PBool false => "False"
  | PInt n => int_str n
  | PFloat x => float_str x
  | PStr s => s
  | PNone | PList _ | PTuple _ | PDict _ => ""
  end.

(** [int(o)] *)
Definition py_int (o : pyobj float) : result Z :=
  match o with
  | PBool b => Ok (if b then 1 else 0)
  | PInt n => Ok n
  | PFloat x => float_int x
  | PStr s => str_int s
  | PNone | PList _ | PTuple _ | PDict _ => Raise TypeError
  end.

(** [o == s] for a string literal [s] *)
Definition py_eq_str (o : pyobj float) (s : string) : bool :=
  match o with
  | PStr s' => (s' =? s)%string
  | _ => false
  end.

(** [UUID(o)]: the constructor calls [o.replace], which only a string
    has. *)
Definition UUID (o : pyobj float) : result uuid :=
  match o with
  | PStr s => UUID_of_str s
  | _ => Raise AttributeError
  end.

End Objects.

(* ================================================================= *)
(** ** Subscription details *)

Definition _SUBSCRIPTION_LIMITS_FIXED : list string :=
  [ "3000"; "7000"; "12000"; "18000"; "30000"; "60000"; "100000";
    "200000"; "300000"; "500000"; "1000000"; "1500000"; "2000000";
    "2000000+" ].

(** [s in t] for a tuple or list [t] of strings *)
Definition str_in (s : string) (t : list string) : bool :=
  existsb (String.eqb s) t.

Module SubscriptionDetailsLimitType.

Inductive t : Type := fixed | unlimited | custom.

Definition name (x : t) : string :=
  match x with
  | fixed => "fixed"
  | unlimited => "unlimited"
  | custom => "custom"
  end.

Definition parse (raw_subscription_details_limit_type : string) : result t :=
  if (raw_subscription_details_limit_type =? "fixed")%string then Ok fixed
  else if (raw_subscription_details_limit_type =? "unlimited")%string
  then Ok unlimited
  else if (raw_subscription_details_limit_type =? "custom")%string
  then Ok custom
  else Raise ValueError.

End SubscriptionDetailsLimitType.

Module SubscriptionDetailsLimit.

Record t : Type := Build {
  type_ : SubscriptionDetailsLimitType.t;
  value : Z
}.

Section Ops.
Context {float uuid : Type} {R : PyRuntime float uuid}.

Definition for_report (self : t) : pyobj float :=
  PTuple [PStr (SubscriptionDetailsLimitType.name (type_ self));
          PInt (value self)].

Definition for_config (self : t) : pyobj float :=
  match type_ self with
  | SubscriptionDetailsLimitType.fixed => PStr (int_str (value self))
  | SubscriptionDetailsLimitType.unlimited => PStr "2000000+"
  | SubscriptionDetailsLimitType.custom =>
      PTuple [PStr "custom"; PInt (value self)]
  end.

Definition _parse (raw_type raw_value : pyobj float) : result t :=
  is_unlimited <-
    (if py_eq_str raw_type "2000000+" || py_eq_str raw_type "unlimited"
     then Ok true
     else n <- py_int raw_value ;; Ok (n =? -1)) ;;
  if is_unlimited then
    (* '-1' means unlimited. *)
    Ok (Build SubscriptionDetailsLimitType.unlimited (-1))
  else if str_in (py_str raw_value) _SUBSCRIPTION_LIMITS_FIXED then
    n <- py_int raw_value ;;
    Ok (Build SubscriptionDetailsLimitType.fixed n)
  else
    n <- py_int raw_value ;;
    Ok (Build SubscriptionDetailsLimitType.custom n).

Definition parse (raw_limit : pyobj float) : result t :=
  match raw_limit with
  | PList [raw_type; raw_value] | PTuple [raw_type; raw_value] =>
      _parse raw_type raw_value
  | PBool _ | PInt _ | PFloat _ | PStr _ =>
      _parse (PStr (py_str raw_limit)) raw_limit
  | _ => Raise TypeError
  end.

End Ops.
End SubscriptionDetailsLimit.

Record SubscriptionDetails : Type := {
  start : Z;
  end_ : Z;
  limit : SubscriptionDetailsLimit.t
}.

Section SubscriptionDetailsOps.
Context {float uuid : Type} {R : PyRuntime float uuid}.

Definition SubscriptionDetails_for_report (self : SubscriptionDetails)
  : pyobj float :=
  PDict [ ("subscription_start", PInt (start self));
          ("subscription_end", PInt (end_ self));
          ("subscription_limit",
           SubscriptionDetailsLimit.for_report (limit self)) ].

Definition SubscriptionDetails_for_config (self : SubscriptionDetails)
  : pyobj float :=
  PDict [ ("subscription_start", PInt (start self));
          ("subscription_end", PInt (end_ self));
          ("subscription_limit",
           SubscriptionDetailsLimit.for_config (limit self)) ].

Definition _parse_subscription_details (raw : pyobj float)
  : result SubscriptionDetails :=
  match raw with
  | PList [_source; details] | PTuple [_source; details] =>
      (* Old:      'subscription_details': ['manual', {...}] *)
      match details with
      | PDict details =>
          raw_start <- py_item details "subscription_start" ;;
          start <- py_int raw_start ;;
          raw_end <- py_item details "subscription_end" ;;
          end_ <- py_int raw_end ;;
          raw_limit <- py_item details "subscription_limit" ;;
          limit <- SubscriptionDetailsLimit.parse raw_limit ;;
          Ok {| start := start; end_ := end_; limit := limit |}
      | _ => Raise TypeError
      end
  | PDict raw =>
      (* Current:  'subscription_details': {"source": "manual", ...} *)
      raw_start <- py_item raw "subscription_start" ;;
      start <- py_int raw_start ;;
      raw_end <- py_item raw "subscription_end" ;;
      end_ <- py_int raw_end ;;
      raw_limit <- py_item raw "subscription_limit" ;;
      limit <- SubscriptionDetailsLimit.parse raw_limit ;;
      Ok {| start := start; end_ := end_; limit := limit |}
  | _ => Raise TypeError
  end.

(** [platform[:50]]; slicing a mapping or an object without [__getitem__]
    raises. *)
Definition _parse_platform (platform : pyobj float) : result (pyobj float) :=
  match platform with
  | PStr s => Ok (PStr (substring 0 50 s))
  | PList l => Ok (PList (firstn 50 l))
  | PTuple l => Ok (PTuple (firstn 50 l))
  | PNone | PBool _ | PInt _ | PFloat _ | PDict _ => Raise TypeError
  end.

End SubscriptionDetailsOps.

(* ================================================================= *)
(** ** Samples *)

Module LicenseUsageExtensions.

Record t (float : Type) : Type := Build { ntop : pyobj float }.
Arguments Build {float} ntop.
Arguments ntop {float} self : rename.

Section Ops.
Context {float uuid : Type} {R : PyRuntime float uuid}.

Definition for_report (self : t float) : pyobj float :=
  PDict [("ntop", ntop self)].

Definition parse (raw_extensions : pyobj float) : result (t float) :=
  match raw_extensions with
  | PDict raw_extensions =>
      Ok (Build (py_get_default raw_extensions "ntop" (PBool false)))
  | _ => Raise TypeError
  end.

(** Old: [{..., "extensions": {"ntop": True/False}, ...}];
    new: [{..., "extension_ntop": True/False, ...}].  The default of the
    outer [get] is evaluated before the outer lookup. *)
Definition parse_from_sample (raw_sample : pyobj float) : result (t float) :=
  match raw_sample with
  | PDict raw_sample =>
      old <-
        match py_get_default raw_sample "extensions" (PDict []) with
        | PDict extensions => Ok (py_get_default extensions "ntop" (PBool false))
        | _ => Raise AttributeError
        end ;;
      Ok (Build (py_get_default raw_sample "extension_ntop" old))
  | _ => Raise TypeError
  end.

End Ops.
End LicenseUsageExtensions.

(** The dataclass does not check the types of its fields: each holds the
    object the parser read. *)
Record LicenseUsageSample (float uuid : Type) : Type := {
  instance_id : option uuid;
  site_hash : pyobj float;
  version : pyobj float;
  edition : pyobj float;
  platform : pyobj float;
  is_cma : pyobj float;
  sample_time : pyobj float;
  timezone : pyobj float;
  num_hosts : pyobj float;
  num_hosts_cloud : pyobj float;
  num_hosts_shadow : pyobj float;
  num_hosts_excluded : pyobj float;
  num_services : pyobj float;
  num_services_cloud : pyobj float;
  num_services_shadow : pyobj float;
  num_services_excluded : pyobj float;
  num_synthetic_tests : pyobj float;
  num_synthetic_tests_excluded : pyobj float;
  extension_ntop : pyobj float
}.

Arguments instance_id {float uuid} l.
Arguments site_hash {float uuid} l.
Arguments version {float uuid} l.
Arguments edition {float uuid} l.
Arguments platform {float uuid} l.
Arguments is_cma {float uuid} l.
Arguments sample_time {float uuid} l.
Arguments timezone {float uuid} l.
Arguments num_hosts {float uuid} l.
Arguments num_hosts_cloud {float uuid} l.
Arguments num_hosts_shadow {float uuid} l.
Arguments num_hosts_excluded {float uuid} l.
Arguments num_services {float uuid} l.
Arguments num_services_cloud {float uuid} l.
Arguments num_services_shadow {float uuid} l.
Arguments num_services_excluded {float uuid} l.
Arguments num_synthetic_tests {float uuid} l.
Arguments num_synthetic_tests_excluded {float uuid} l.
Arguments extension_ntop {float uuid} l.

Section Parsers.
Context {float uuid : Type} {R : PyRuntime float uuid}.

Local Abbreviation obj := (pyobj float).
Local Abbreviation Sample := (LicenseUsageSample float uuid).

Definition _parse_sample_v1_1 (instance_id : option uuid) (site_hash : string)
  (raw : obj) : result Sample :=
  match raw with
  | PDict raw_d =>
      let site_hash := py_get_default raw_d "site_hash" (PStr site_hash) in
      if negb (py_bool site_hash) then Raise ValueError else
      extensions <- LicenseUsageExtensions.parse_from_sample raw ;;
      version <- py_item raw_d "version" ;;
      edition <- py_item raw_d "edition" ;;
      raw_platform <- py_item raw_d "platform" ;;
      platform <- _parse_platform raw_platform ;;
      is_cma <- py_item raw_d "is_cma" ;;
      sample_time <- py_item raw_d "sample_time" ;;
      timezone <- py_item raw_d "timezone" ;;
      num_hosts <- py_item raw_d "num_hosts" ;;
      num_hosts_excluded <- py_item raw_d "num_hosts_excluded" ;;
      num_services <- py_item raw_d "num_services" ;;
      num_services_excluded <- py_item raw_d "num_services_excluded" ;;
      Ok {| instance_id := instance_id;
            site_hash := site_hash;
            version := version;
            edition := edition;
            platform := platform;
            is_cma := is_cma;
            sample_time := sample_time;
            timezone := timezone;
            num_hosts := num_hosts;
            num_hosts_cloud := PInt 0;
            num_hosts_shadow := PInt 0;
            num_hosts_excluded := num_hosts_excluded;
            num_services := num_services;
            num_services_cloud := PInt 0;
            num_services_shadow := PInt 0;
            num_services_excluded := num_services_excluded;
            num_synthetic_tests := PInt 0;
            num_synthetic_tests_excluded := PInt 0;
            extension_ntop := LicenseUsageExtensions.ntop extensions |}
  | _ => Raise TypeError
  end.

Definition _parse_sample_v2_0 (instance_id : option uuid) (site_hash : string)
  (raw : obj) : result Sample :=
  match raw with
  | PDict raw_d =>
      let raw_instance_id := py_get_default raw_d "instance_id" PNone in
      if negb (py_bool raw_instance_id) then Raise ValueError else
      let site_hash := py_get_default raw_d "site_hash" (PStr site_hash) in
      if negb (py_bool site_hash) then Raise ValueError else
      extensions <- LicenseUsageExtensions.parse_from_sample raw ;;
      instance_id <- UUID raw_instance_id ;;
      version <- py_item raw_d "version" ;;
      edition <- py_item raw_d "edition" ;;
      raw_platform <- py_item raw_d "platform" ;;
      platform <- _parse_platform raw_platform ;;
      is_cma <- py_item raw_d "is_cma" ;;
      sample_time <- py_item raw_d "sample_time" ;;
      timezone <- py_item raw_d "timezone" ;;
      num_hosts <- py_item raw_d "num_hosts" ;;
      num_hosts_cloud <- py_item raw_d "num_hosts_cloud" ;;
      num_hosts_shadow <- py_item raw_d "num_hosts_shadow" ;;
      num_hosts_excluded <- py_item raw_d "num_hosts_excluded" ;;
      num_services <- py_item raw_d "num_services" ;;
      num_services_cloud <- py_item raw_d "num_services_cloud" ;;
      num_services_shadow <- py_item raw_d "num_services_shadow" ;;
      num_services_excluded <- py_item raw_d "num_services_excluded" ;;
      Ok {| instance_id := Some instance_id;
            site_hash := site_hash;
            version := version;
            edition := edition;
            platform := platform;
            is_cma := is_cma;
            sample_time := sample_time;
            timezone := timezone;
            num_hosts := num_hosts;
            num_hosts_cloud := num_hosts_cloud;
            num_hosts_shadow := num_hosts_shadow;
            num_hosts_excluded := num_hosts_excluded;
            num_services := num_services;
            num_services_cloud := num_services_cloud;
            num_services_shadow := num_services_shadow;
            num_services_excluded := num_services_excluded;
            num_synthetic_tests := PInt 0;
            num_synthetic_tests_excluded := PInt 0;
            extension_ntop := LicenseUsageExtensions.ntop extensions |}
  | _ => Raise TypeError
  end.

(** The abstract class [Parser]: its two methods. *)
Record Parser : Type := {
  parse_subscription_details : obj -> result SubscriptionDetails;
  parse_sample : option uuid -> string -> obj -> result Sample
}.

Definition ParserV1_0_parse_sample (instance_id : option uuid)
  (site_hash : string) (raw : obj) : result Sample :=
  match raw with
  | PDict raw_d =>
      let site_hash := py_get_default raw_d "site_hash" (PStr site_hash) in
      if negb (py_bool site_hash) then Raise ValueError else
      extensions <- LicenseUsageExtensions.parse_from_sample raw ;;
      version <- py_item raw_d "version" ;;
      edition <- py_item raw_d "edition" ;;
      raw_platform <- py_item raw_d "platform" ;;
      platform <- _parse_platform raw_platform ;;
      is_cma <- py_item raw_d "is_cma" ;;
      sample_time <- py_item raw_d "sample_time" ;;
      timezone <- py_item raw_d "timezone" ;;
      num_hosts <- py_item raw_d "num_hosts" ;;
      num_services <- py_item raw_d "num_services" ;;
      Ok {| instance_id := instance_id;
            site_hash := site_hash;
            version := version;
            edition := edition;
            platform := platform;
            is_cma := is_cma;
            sample_time := sample_time;
            timezone := timezone;
            num_hosts := num_hosts;
            num_hosts_cloud := PInt 0;
            num_hosts_shadow := PInt 0;
            num_hosts_excluded := PInt 0;
            num_services := num_services;
            num_services_cloud := PInt 0;
            num_services_shadow := PInt 0;
            num_services_excluded := PInt 0;
            num_synthetic_tests := PInt 0;
            num_synthetic_tests_excluded := PInt 0;
            extension_ntop := LicenseUsageExtensions.ntop extensions |}
  | _ => Raise TypeError
  end.

Definition ParserV1_4_parse_sample (instance_id : option uuid)
  (site_hash : string) (raw : obj) : result Sample :=
  match raw with
  | PDict raw_d =>
      let site_hash := py_get_default raw_d "site_hash" (PStr site_hash) in
      if negb (py_bool site_hash) then Raise ValueError else
      extensions <- LicenseUsageExtensions.parse_from_sample raw ;;
      version <- py_item raw_d "version" ;;
      edition <- py_item raw_d "edition" ;;
      raw_platform <- py_item raw_d "platform" ;;
      platform <- _parse_platform raw_platform ;;
      is_cma <- py_item raw_d "is_cma" ;;
      sample_time <- py_item raw_d "sample_time" ;;
      timezone <- py_item raw_d "timezone" ;;
      num_hosts <- py_item raw_d "num_hosts" ;;
      num_hosts_shadow <- py_item raw_d "num_shadow_hosts" ;;
      num_hosts_excluded <- py_item raw_d "num_hosts_excluded" ;;
      num_services <- py_item raw_d "num_services" ;;
      num_services_excluded <- py_item raw_d "num_services_excluded" ;;
      Ok {| instance_id := instance_id;
            site_hash := site_hash;
            version := version;
            edition := edition;
            platform := platform;
            is_cma := is_cma;
            sample_time := sample_time;
            timezone := timezone;
            num_hosts := num_hosts;
            num_hosts_cloud := PInt 0;
            num_hosts_shadow := num_hosts_shadow;
            num_hosts_excluded := num_hosts_excluded;
            num_services := num_services;
            num_services_cloud := PInt 0;
            num_services_shadow := PInt 0;
            num_services_excluded := num_services_excluded;
            num_synthetic_tests := PInt 0;
            num_synthetic_tests_excluded := PInt 0;
            extension_ntop := LicenseUsageExtensions.ntop extensions |}
  | _ => Raise TypeError
  end.

Definition ParserV1_5_parse_sample (instance_id : option uuid)
  (site_hash : string) (raw : obj) : result Sample :=
  match raw with
  | PDict raw_d =>
      let raw_instance_id := py_get_default raw_d "instance_id" PNone in
      if negb (py_bool raw_instance_id) then Raise ValueError else
      let site_hash := py_get_default raw_d "site_hash" (PStr site_hash) in
      if negb (py_bool site_hash) then Raise ValueError else
      extensions <- LicenseUsageExtensions.parse_from_sample raw ;;
      instance_id <- UUID raw_instance_id ;;
      version <- py_item raw_d "version" ;;
      edition <- py_item raw_d "edition" ;;
      raw_platform <- py_item raw_d "platform" ;;
      platform <- _parse_platform raw_platform ;;
      is_cma <- py_item raw_d "is_cma" ;;
      sample_time <- py_item raw_d "sample_time" ;;
      timezone <- py_item raw_d "timezone" ;;
      num_hosts <- py_item raw_d "num_hosts" ;;
      num_hosts_shadow <- py_item raw_d "num_shadow_hosts" ;;
      num_hosts_excluded <- py_item raw_d "num_hosts_excluded" ;;
      num_services <- py_item raw_d "num_services" ;;
      num_services_excluded <- py_item raw_d "num_services_excluded" ;;
      Ok {| instance_id := Some instance_id;
            site_hash := site_hash;
            version := version;
            edition := edition;
            platform := platform;
            is_cma := is_cma;
            sample_time := sample_time;
            timezone := timezone;
            num_hosts := num_hosts;
            num_hosts_cloud := PInt 0;
            num_hosts_shadow := num_hosts_shadow;
            num_hosts_excluded := num_hosts_excluded;
            num_services := num_services;
            num_services_cloud := PInt 0;
            num_services_shadow := PInt 0;
            num_services_excluded := num_services_excluded;
            num_synthetic_tests := PInt 0;
            num_synthetic_tests_excluded := PInt 0;
            extension_ntop := LicenseUsageExtensions.ntop extensions |}
  | _ => Raise TypeError
  end.

Definition ParserV3_0_parse_sample (instance_id : option uuid)
  (site_hash : string) (raw : obj) : result Sample :=
  match raw with
  | PDict raw_d =>
      let raw_instance_id := py_get_default raw_d "instance_id" PNone in
      if negb (py_bool raw_instance_id) then Raise ValueError else
      let site_hash := py_get_default raw_d "site_hash" (PStr site_hash) in
      if negb (py_bool site_hash) then Raise ValueError else
      extensions <- LicenseUsageExtensions.parse_from_sample raw ;;
      instance_id <- UUID raw_instance_id ;;
      version <- py_item raw_d "version" ;;
      edition <- py_item raw_d "edition" ;;
      raw_platform <- py_item raw_d "platform" ;;
      platform <- _parse_platform raw_platform ;;
      is_cma <- py_item raw_d "is_cma" ;;
      sample_time <- py_item raw_d "sample_time" ;;
      timezone <- py_item raw_d "timezone" ;;
      num_hosts <- py_item raw_d "num_hosts" ;;
      num_hosts_cloud <- py_item raw_d "num_hosts_cloud" ;;
      num_hosts_shadow <- py_item raw_d "num_hosts_shadow" ;;
      num_hosts_excluded <- py_item raw_d "num_hosts_excluded" ;;
      num_services <- py_item raw_d "num_services" ;;
      num_services_cloud <- py_item raw_d "num_services_cloud" ;;
      num_services_shadow <- py_item raw_d "num_services_shadow" ;;
      num_services_excluded <- py_item raw_d "num_services_excluded" ;;
      num_synthetic_tests <- py_item raw_d "num_synthetic_tests" ;;
      num_synthetic_tests_excluded <-
        py_item raw_d "num_synthetic_tests_excluded" ;;
      Ok {| instance_id := Some instance_id;
            site_hash := site_hash;
            version := version;
            edition := edition;
            platform := platform;
            is_cma := is_cma;
            sample_time := sample_time;
            timezone := timezone;
            num_hosts := num_hosts;
            num_hosts_cloud := num_hosts_cloud;
            num_hosts_shadow := num_hosts_shadow;
            num_hosts_excluded := num_hosts_excluded;
            num_services := num_services;
            num_services_cloud := num_services_cloud;
            num_services_shadow := num_services_shadow;
            num_services_excluded := num_services_excluded;
            num_synthetic_tests := num_synthetic_tests;
            num_synthetic_tests_excluded := num_synthetic_tests_excluded;
            extension_ntop := LicenseUsageExtensions.ntop extensions |}
  | _ => Raise TypeError
  end.

Definition ParserV1_0 : Parser :=
  {| parse_subscription_details := _parse_subscription_details;
     parse_sample := ParserV1_0_parse_sample |}.

Definition ParserV1_1 : Parser :=
  {| parse_subscription_details := _parse_subscription_details;
     parse_sample := _parse_sample_v1_1 |}.

Definition ParserV1_2 : Parser :=
  {| parse_subscription_details := _parse_subscription_details;
     parse_sample := _parse_sample_v1_1 |}.

Definition ParserV1_3 : Parser :=
  {| parse_subscription_details := _parse_subscription_details;
     parse_sample := _parse_sample_v1_1 |}.

Definition ParserV1_4 : Parser :=
  {| parse_subscription_details := _parse_subscription_details;
     parse_sample := ParserV1_4_parse_sample |}.

Definition ParserV1_5 : Parser :=
  {| parse_subscription_details := _parse_subscription_details;
     parse_sample := ParserV1_5_parse_sample |}.

Definition ParserV2_0 : Parser :=
  {| parse_subscription_details := _parse_subscription_details;
     parse_sample := _parse_sample_v2_0 |}.

Definition ParserV2_1 : Parser :=
  {| parse_subscription_details := _parse_subscription_details;
     parse_sample := _parse_sample_v2_0 |}.

Definition ParserV3_0 : Parser :=
  {| parse_subscription_details := _parse_subscription_details;
     parse_sample := ParserV3_0_parse_sample |}.

Definition protocol_versions : list string :=
  ["1.0"; "1.1"; "1.2"; "1.3"; "1.4"; "1.5"; "2.0"; "2.1"; "3.0"].

Definition parse_protocol_version (raw : obj) : result string :=
  match raw with
  | PDict raw =>
      match py_get_default raw "VERSION" PNone with
      | PStr raw_protocol_version =>
          if (raw_protocol_version =? "1.0")%string then Ok "1.0"
          else if (raw_protocol_version =? "1.1")%string then Ok "1.1"
          else if (raw_protocol_version =? "1.2")%string then Ok "1.2"
          else if (raw_protocol_version =? "1.3")%string then Ok "1.3"
          else if (raw_protocol_version =? "1.4")%string then Ok "1.4"
          else if (raw_protocol_version =? "1.5")%string then Ok "1.5"
          else if (raw_protocol_version =? "2.0")%string then Ok "2.0"
          else if (raw_protocol_version =? "2.1")%string then Ok "2.1"
          else if (raw_protocol_version =? "3.0")%string then Ok "3.0"
          else Raise ValueError
      | _ => Raise TypeError
      end
  | _ => Raise TypeError
  end.

(** A version outside the nine literals matches no case: the function
    falls off its end and returns [None]. *)
Definition make_parser (protocol_version : string) : option Parser :=
  if (protocol_version =? "1.0")%string then Some ParserV1_0
  else if (protocol_version =? "1.1")%string then Some ParserV1_1
  else if (protocol_version =? "1.2")%string then Some ParserV1_2
  else if (protocol_version =? "1.3")%string then Some ParserV1_3
  else if (protocol_version =? "1.4")%string then Some ParserV1_4
  else if (protocol_version =? "1.5")%string then Some ParserV1_5
  else if (protocol_version =? "2.0")%string then Some ParserV2_0
  else if (protocol_version =? "2.1")%string then Some ParserV2_1
  else if (protocol_version =? "3.0")%string then Some ParserV3_0
  else None.

End Parsers.

Arguments Parser float uuid : clear implicits.

(* ================================================================= *)
(** ** Naive [datetime] values *)

Record datetime : Type := {
  year : Z;
  month : Z;
  day : Z;
  hour : Z;
  minute : Z;
  second : Z;
  microsecond : Z
}.

Definition datetime_fields (d : datetime) : list Z :=
  [year d; month d; day d; hour d; minute d; second d; microsecond d].

Fixpoint lex_compare (a b : list Z) : comparison :=
  match a, b with
  | [], [] => Eq
  | [], _ :: _ => Lt
  | _ :: _, [] => Gt
  | x :: a', y :: b' =>
      match x ?= y with
      | Eq => lex_compare a' b'
      | c => c
      end
  end.

(** Naive datetimes compare field by field, from the year down. *)
Definition datetime_compare (a b : datetime) : comparison :=
  lex_compare (datetime_fields a) (datetime_fields b).

Definition dt_eqb (a b : datetime) : bool :=
  match datetime_compare a b with Eq => true | _ => false end.

Definition dt_ltb (a b : datetime) : bool :=
  match datetime_compare a b with Lt => true | _ => false end.

Definition dt_leb (a b : datetime) : bool :=
  match datetime_compare a b with Gt => false | _ => true end.

Definition dt_lt (a b : datetime) : Prop := datetime_compare a b = Lt.
Definition dt_le (a b : datetime) : Prop := datetime_compare a b <> Gt.

Definition MINYEAR : Z := 1.
Definition MAXYEAR : Z := 9999.

Definition is_leap (y : Z) : bool :=
  (y mod 4 =? 0) && (negb (y mod 100 =? 0) || (y mod 400 =? 0)).

Definition days_in_month (y m : Z) : Z :=
  if m =? 2 then (if is_leap y then 29 else 28)
  else if (m =? 4) || (m =? 6) || (m =? 9) || (m =? 11) then 30
  else 31.

(** Year, month and day of the proleptic Gregorian calendar for a number
    of days since 1970-01-01. *)
Definition civil_from_days (days : Z) : Z * Z * Z :=
  let z := days + 719468 in
  let era := z / 146097 in
  let doe := z - era * 146097 in
  let yoe := (doe - doe / 1460 + doe / 36524 - doe / 146096) / 365 in
  let doy := doe - (365 * yoe + yoe / 4 - yoe / 100) in
  let mp := (5 * doy + 2) / 153 in
  let d := doy - (153 * mp + 2) / 5 + 1 in
  let m := if mp <? 10 then mp + 3 else mp - 9 in
  let y := yoe + era * 400 in
  (if m <=? 2 then y + 1 else y, m, d).

(** Days since 1970-01-01 of a calendar date. *)
Definition days_from_civil (y m d : Z) : Z :=
  let y' := if m <=? 2 then y - 1 else y in
  let era := y' / 400 in
  let yoe := y' - era * 400 in
  let mp := if m <=? 2 then m + 9 else m - 3 in
  let doy := (153 * mp + 2) / 5 + d - 1 in
  let doe := yoe * 365 + yoe / 4 - yoe / 100 + doy in
  era * 146097 + doe - 719468.

(** [datetime(year, month, day)] of an existing datetime's date. *)
Definition datetime_ymd (y m d : Z) : datetime :=
  {| year := y; month := m; day := d;
     hour := 0; minute := 0; second := 0; microsecond := 0 |}.

(** [dt.replace(hour=0, minute=0, second=0, microsecond=0)] *)
Definition replace_midnight (dt : datetime) : datetime :=
  {| year := year dt; month := month dt; day := day dt;
     hour := 0; minute := 0; second := 0; microsecond := 0 |}.

(** [dt + relativedelta(months=+1)]: the next month, the day clipped to
    the length of that month; [dt.replace] refuses a year past [MAXYEAR]. *)
Definition add_one_month (dt : datetime) : result datetime :=
  let month' := month dt + 1 in
  let '(year', month') :=
    if 12 <? month' then (year dt + 1, month' - 12) else (year dt, month') in
  let day' := Z.min (days_in_month year' month') (day dt) in
  if MAXYEAR <? year' then Raise ValueError
  else Ok {| year := year'; month := month'; day := day';
             hour := hour dt; minute := minute dt; second := second dt;
             microsecond := microsecond dt |}.

(** The local clock: the offset of local time from UTC in seconds at an
    epoch time, [datetime.timestamp] of a naive datetime, and the value
    of [datetime.today()] when the class [MonthlyServiceAverages] was
    created. *)
Class LocalTime (float : Type) : Type := {
  utcoffset : Z -> Z;
  timestamp : datetime -> float;
  today : datetime
}.

Section Clock.
Context {float : Type} {L : LocalTime float}.

(** [datetime.fromtimestamp(t)] for an [int]: local time; a year outside
    [MINYEAR..MAXYEAR] is refused. *)
Definition fromtimestamp (t : Z) : result datetime :=
  let local := t + utcoffset t in
  let '(y, m, d) := civil_from_days (local / 86400) in
  let secs := local mod 86400 in
  if (y <? MINYEAR) || (MAXYEAR <? y) then Raise ValueError
  else Ok {| year := y; month := m; day := d;
             hour := secs / 3600; minute := (secs mod 3600) / 60;
             second := secs mod 60; microsecond := 0 |}.

End Clock.

(* ================================================================= *)
(** ** Averages *)

(** A value of a field annotated [float]: the daily counts are [int]
    objects, the monthly averages [float] objects. *)
Inductive number (float : Type) : Type :=
| NInt (n : Z)
| NFloat (x : float).

Arguments NInt {float} n.
Arguments NFloat {float} x.

Module SubscriptionDetailsForAggregation.

(** [Literal["unlimited"] | tuple[Literal["free"], Literal[3]] | int];
    the absent limit [None] is the [None] of the [option] around it. *)
Inductive limit_t : Type :=
| Unlimited
| Tagged (tag : string) (n : Z)
| Int (n : Z).

(** The limit as reported: [Literal["unlimited"] | int]. *)
Inductive raw_limit_t : Type :=
| RawUnlimited
| RawInt (n : Z).

Record t : Type := Build {
  start : option Z;
  end_ : option Z;
  limit : option limit_t
}.

Record raw_t : Type := BuildRaw {
  raw_start : option Z;
  raw_end : option Z;
  raw_limit : option raw_limit_t
}.

(** The constructor with its [__post_init__] check. *)
Definition make (start end_ : option Z) (limit : option limit_t) : result t :=
  match limit with
  | Some (Int n) =>
      if n <=? 0 then Raise ValueError else Ok (Build start end_ limit)
  | _ => Ok (Build start end_ limit)
  end.

Definition is_free (self : t) : bool :=
  match limit self with
  | Some (Tagged tag _) => (tag =? "free")%string
  | _ => false
  end.

Definition real_limit (self : t) : option Z :=
  match limit self with
  | Some (Tagged _ n) => Some n
  | Some (Int n) => Some n
  | _ => None
  end.

Definition for_report (self : t) : raw_t :=
  BuildRaw (start self) (end_ self)
    match limit self with
    | Some (Tagged _ n) => Some (RawInt n)
    | Some (Int n) => Some (RawInt n)
    | Some Unlimited => Some RawUnlimited
    | None => None
    end.

(** The free-tier marker [("free", 3)]. *)
Definition free : limit_t := Tagged "free" 3.

End SubscriptionDetailsForAggregation.

Module MonthlyServiceAverage.

Record t (float : Type) : Type := Build {
  sample_date : datetime;
  num_services : number float
}.

Arguments Build {float} sample_date num_services.
Arguments sample_date {float} self : rename.
Arguments num_services {float} self : rename.

Section Ops.
Context {float : Type} {L : LocalTime float}.

Definition for_report (self : t float) : dict string (number float) :=
  [ ("sample_time", NFloat (timestamp (sample_date self)));
    ("num_services", num_services self) ].

End Ops.
End MonthlyServiceAverage.

Record RawMonthlyServiceAggregation (float : Type) : Type := {
  subscription_details : SubscriptionDetailsForAggregation.raw_t;
  daily_services : list (dict string (number float));
  monthly_service_averages : list (dict string (number float));
  last_service_report : option (dict string (number float));
  highest_service_report : option (dict string (number float));
  subscription_exceeded_first : option (dict string (number float))
}.

Arguments subscription_details {float} r.
Arguments daily_services {float} r.
Arguments monthly_service_averages {float} r.
Arguments last_service_report {float} r.
Arguments highest_service_report {float} r.
Arguments subscription_exceeded_first {float} r.

Module MonthlyServiceAverages.

(** The attributes of an instance. *)
Record t (float : Type) : Type := Build {
  _subscription_details : SubscriptionDetailsForAggregation.t;
  _daily_services : list (MonthlyServiceAverage.t float);
  _monthly_service_averages : list (MonthlyServiceAverage.t float)
}.

Arguments Build {float} _ _ _.
Arguments _subscription_details {float} self : rename.
Arguments _daily_services {float} self : rename.
Arguments _monthly_service_averages {float} self : rename.

(** [sorted(d.items())]: the keys of a dictionary are distinct, so the
    values are never compared. *)
Fixpoint insert_item {V : Type} (x : datetime * V) (l : list (datetime * V))
  : list (datetime * V) :=
  match l with
  | [] => [x]
  | y :: tl =>
      if dt_leb (fst x) (fst y) then x :: y :: tl
      else y :: insert_item x tl
  end.

Definition sorted_items {V : Type} (d : dict datetime V)
  : list (datetime * V) :=
  fold_right insert_item [] d.

(** [l[-n:]] for [n > 0] *)
Definition last_n {A : Type} (n : nat) (l : list A) : list A :=
  skipn (List.length l - n)%nat l.

Section Methods.
Context {float uuid : Type} {R : PyRuntime float uuid} {L : LocalTime float}.

Local Abbreviation Average := (MonthlyServiceAverage.t float).

(** The loop of [_calculate_daily_services] over the samples. *)
Fixpoint daily_services_loop (short_samples : list (Z * Z))
  (daily_services : dict datetime Counter) : result (dict datetime Counter) :=
  match short_samples with
  | [] => Ok daily_services
  | (sample_time, num_services) :: rest =>
      sample_date <- fromtimestamp sample_time ;;
      daily_services_loop rest
        (dict_setdefault_update dt_eqb daily_services
           (datetime_ymd (year sample_date) (month sample_date)
              (day sample_date))
           []
           (fun counter => counter_update counter "num_services" num_services))
  end.

Definition _calculate_daily_services (short_samples : list (Z * Z))
  : result (list Average) :=
  daily_services <- daily_services_loop short_samples [] ;;
  Ok (map
        (fun '(sample_date, counter) =>
           MonthlyServiceAverage.Build sample_date
             (NInt (counter_get counter "num_services")))
        (* License usage history per site is max. 400 long. *)
        (last_n 400 (sorted_items daily_services))).

Definition __init__
  (subscription_details : SubscriptionDetailsForAggregation.t)
  (short_samples : list (Z * Z)) : result (t float) :=
  daily <- _calculate_daily_services short_samples ;;
  Ok (Build subscription_details daily []).

(** [int(x)] of a number *)
Definition number_int (x : number float) : result Z :=
  match x with
  | NInt n => Ok n
  | NFloat x => float_int x
  end.

(** [x >= n] for an [int] n *)
Definition number_ge_int (x : number float) (n : Z) : bool :=
  match x with
  | NInt m => n <=? m
  | NFloat x => float_ge_int x n
  end.

(** [x > y] *)
Definition number_gt (x y : number float) : bool :=
  match x, y with
  | NInt m, NInt n => n <? m
  | NFloat x, NFloat y => float_gt x y
  | NFloat x, NInt n => float_gt_int x n
  | NInt m, NFloat y => float_lt_int y m
  end.

(** The first loop of [_calculate_averages]: one pass over the daily
    services, with the current window and the months collected so far. *)
Fixpoint monthly_services_loop (daily : list Average)
  (month_start month_end subscription_end_date : datetime)
  (monthly_services : dict datetime Counter)
  : result (dict datetime Counter) :=
  match daily with
  | [] => Ok monthly_services
  | daily_service :: rest =>
      window <-
        (if dt_leb month_end (MonthlyServiceAverage.sample_date daily_service)
         then
           next_end <- add_one_month month_end ;;
           Ok (month_end, next_end)
         else Ok (month_start, month_end)) ;;
      let '(month_start, month_end) := window in
      if dt_leb today month_end || dt_ltb subscription_end_date month_end
      then
        (* Skip last, incomplete month (subscription_end_date excl.) *)
        Ok monthly_services
      else if dt_leb month_start
                (MonthlyServiceAverage.sample_date daily_service)
              && dt_ltb (MonthlyServiceAverage.sample_date daily_service)
                   month_end
      then
        n <- number_int (MonthlyServiceAverage.num_services daily_service) ;;
        monthly_services_loop rest month_start month_end
          subscription_end_date
          (dict_setdefault_update dt_eqb monthly_services month_start []
             (fun counter =>
                counter_update (counter_update counter "num_daily_services" 1)
                  "num_services" n))
      else
        monthly_services_loop rest month_start month_end
          subscription_end_date monthly_services
  end.

(** The average of one month:
    [1.0 * counter["num_services"] / counter["num_daily_services"]]. *)
Definition monthly_average (item : datetime * Counter) : result Average :=
  let '(month_start, counter) := item in
  num <- float_of_int (counter_get counter "num_services") ;;
  den <- float_of_int (counter_get counter "num_daily_services") ;;
  avg <- float_div (float_mul float_one num) den ;;
  Ok (MonthlyServiceAverage.Build month_start (NFloat avg)).

Definition _calculate_averages (self : t float) : result (t float) :=
  match _daily_services self with
  | [] => Ok self
  | _ :: _ =>
      match SubscriptionDetailsForAggregation.start
              (_subscription_details self),
            SubscriptionDetailsForAggregation.end_
              (_subscription_details self) with
      | Some start, Some end_ =>
          start_date <- fromtimestamp start ;;
          let month_start := replace_midnight start_date in
          month_end <- add_one_month month_start ;;
          end_date <- fromtimestamp end_ ;;
          let subscription_end_date := replace_midnight end_date in
          monthly_services <-
            monthly_services_loop (_daily_services self) month_start
              month_end subscription_end_date [] ;;
          averages <- mapM monthly_average monthly_services ;;
          Ok (Build (_subscription_details self) (_daily_services self)
                (_monthly_service_averages self ++ averages))
      | _, _ =>
          (* It does not make sense to calculate monthly averages if we do
             not know where to start or end. *)
          Ok self
      end
  end.

Definition _get_last_service_report (self : t float)
  : option (dict string (number float)) :=
  match _monthly_service_averages self with
  | [] => None
  | a :: tl => Some (MonthlyServiceAverage.for_report (List.last tl a))
  end.

(** [max(l, key=lambda d: d.num_services)]: a later item replaces the
    current maximum only when its key is greater. *)
Fixpoint max_by_num_services (current : Average) (l : list Average) : Average :=
  match l with
  | [] => current
  | a :: tl =>
      if number_gt (MonthlyServiceAverage.num_services a)
           (MonthlyServiceAverage.num_services current)
      then max_by_num_services a tl
      else max_by_num_services current tl
  end.

Definition _get_highest_service_report (self : t float)
  : option (dict string (number float)) :=
  match _monthly_service_averages self with
  | [] => None
  | a :: tl =>
      Some (MonthlyServiceAverage.for_report (max_by_num_services a tl))
  end.

(** The loop of [_get_subscription_exceeded_first]. *)
Fixpoint first_exceeding (real_limit : Z) (averages : list Average)
  : option Average :=
  match averages with
  | [] => None
  | service_average :: rest =>
      if number_ge_int (MonthlyServiceAverage.num_services service_average)
           real_limit
      then Some service_average
      else first_exceeding real_limit rest
  end.

Definition _get_subscription_exceeded_first (self : t float)
  : option (dict string (number float)) :=
  match SubscriptionDetailsForAggregation.real_limit
          (_subscription_details self) with
  | None => None
  | Some real_limit =>
      option_map MonthlyServiceAverage.for_report
        (first_exceeding real_limit (_monthly_service_averages self))
  end.

(** [get_aggregation] returns the report and leaves the instance in a new
    state. *)
Definition get_aggregation (self : t float)
  : result (RawMonthlyServiceAggregation float * t float) :=
  self <- _calculate_averages self ;;
  Ok ({| subscription_details :=
           SubscriptionDetailsForAggregation.for_report
             (_subscription_details self);
         daily_services :=
           map MonthlyServiceAverage.for_report (_daily_services self);
         monthly_service_averages :=
           map MonthlyServiceAverage.for_report
             (_monthly_service_averages self);
         last_service_report := _get_last_service_report self;
         highest_service_report := _get_highest_service_report self;
         subscription_exceeded_first :=
           _get_subscription_exceeded_first self |},
      self).

End Methods.
End MonthlyServiceAverages.

(* ================================================================= *)
(** ** A runtime for evaluation on concrete inputs

    Floats are exact rationals, a UUID is its 32 hexadecimal digits, and
    the local time zone is UTC.  On the example inputs below every
    average is a small integer, which binary floating point computes
    exactly as well. *)

Definition is_hex_digit (c : ascii) : bool :=
  let n := nat_of_ascii c in
  ((48 <=? n) && (n <=? 57) || (65 <=? n) && (n <=? 70)
   || (97 <=? n) && (n <=? 102))%nat.

Fixpoint remove_hyphens (s : string) : string :=
  match s with
  | EmptyString => EmptyString
  | String c tl =>
      if Ascii.eqb c "-"%char then remove_hyphens tl
      else String c (remove_hyphens tl)
  end.

Fixpoint all_hex (s : string) : bool :=
  match s with
  | EmptyString => true
  | String c tl => is_hex_digit c && all_hex tl
  end.

Definition hex_uuid (s : string) : result string :=
  let hex := remove_hyphens s in
  if (String.length hex =? 32)%nat && all_hex hex then Ok hex
  else Raise ValueError.

Definition decimal_int (s : string) : result Z :=
  match NilZero.int_of_string s with
  | Some d => Ok (Z.of_int d)
  | None => Raise ValueError
  end.

Definition Q_str (x : Q) : string :=
  if (Zpos (Qden x) =? 1) then int_str (Qnum x) ++ ".0"
  else int_str (Qnum x) ++ "/" ++ int_str (Zpos (Qden x)).

#[export] Instance QRuntime : PyRuntime Q string := {
  float_one := 1%Q;
  float_of_int := fun n => Ok (inject_Z n);
  float_mul := fun x y => Qred (x * y);
  float_div := fun x y =>
    if Qeq_bool y 0 then Raise ZeroDivisionError else Ok (Qred (x / y));
  float_ge_int := fun x n => Qle_bool (inject_Z n) x;
  float_gt_int := fun x n => negb (Qle_bool x (inject_Z n));
  float_lt_int := fun x n => negb (Qle_bool (inject_Z n) x);
  float_gt := fun x y => negb (Qle_bool x y);
  float_bool := fun x => negb (Qeq_bool x 0);
  float_int := fun x => Ok (Z.quot (Qnum x) (Zpos (Qden x)));
  float_str := Q_str;
  str_int := decimal_int;
  UUID_of_str := hex_uuid
}.

(** Seconds since the epoch of a naive datetime read as UTC. *)
Definition utc_timestamp (dt : datetime) : Q :=
  Qred
    (inject_Z
       (days_from_civil (year dt) (month dt) (day dt) * 86400
        + hour dt * 3600 + minute dt * 60 + second dt)
     + (microsecond dt # 1000000))%Q.

(** The clock of a process in UTC whose class was created at [now]. *)
Definition UTC (now : datetime) : LocalTime Q :=
  {| utcoffset := fun _ => 0; timestamp := utc_timestamp; today := now |}.

(* ================================================================= *)
(** ** Predicates and example inputs used in the statements *)

(** The three variants of a limit: fixed with a value of the tier table,
    unlimited with the value -1, custom with a positive value that is not
    in the tier table. *)
Definition limit_variant (l : SubscriptionDetailsLimit.t) : Prop :=
  match SubscriptionDetailsLimit.type_ l with
  | SubscriptionDetailsLimitType.fixed =>
      In (int_str (SubscriptionDetailsLimit.value l))
        _SUBSCRIPTION_LIMITS_FIXED
  | SubscriptionDetailsLimitType.unlimited =>
      SubscriptionDetailsLimit.value l = -1
  | SubscriptionDetailsLimitType.custom =>
      0 < SubscriptionDetailsLimit.value l
      /\ ~ In (int_str (SubscriptionDetailsLimit.value l))
             _SUBSCRIPTION_LIMITS_FIXED
  end.

(** The numbers of the tier table; its last entry ["2000000+"] is no
    number. *)
Definition fixed_tier_values : list Z :=
  [ 3000; 7000; 12000; 18000; 30000; 60000; 100000; 200000; 300000;
    500000; 1000000; 1500000; 2000000 ].

(** The fields a sample parser of a version before 1.5 reads with
    [raw[...]]. *)
Definition required_fields (protocol_version : string) : list string :=
  [ "version"; "edition"; "platform"; "is_cma"; "sample_time"; "timezone";
    "num_hosts"; "num_services" ]
  ++ (if (protocol_version =? "1.0")%string then []
      else ["num_hosts_excluded"; "num_services_excluded"])
  ++ (if (protocol_version =? "1.4")%string then ["num_shadow_hosts"]
      else []).

(** A minimally valid sample of a version before 1.5: the fields of that
    version are present, the platform is a string, a site hash is
    available (in the record or from the caller), and the legacy
    [extensions] entry is absent or a mapping.  Nothing is asked of
    [instance_id]. *)
Definition minimally_valid {float : Type} (protocol_version : string)
  (site_hash : string) (raw : dict string (pyobj float)) : Prop :=
  (forall key, In key (required_fields protocol_version) ->
     dict_get String.eqb raw key <> None)
  /\ (exists s, dict_get String.eqb raw "platform" = Some (PStr s))
  /\ (match dict_get String.eqb raw "site_hash" with
      | Some (PStr s) => s <> ""
      | Some _ => False
      | None => site_hash <> ""
      end)
  /\ (dict_get String.eqb raw "extensions" = None
      \/ exists e, dict_get String.eqb raw "extensions" = Some (PDict e)).

(** A sample of version 1.4 without [instance_id], and one of version 3.0
    whose site hash is empty. *)
Definition sample_v1_4 : dict string (pyobj Q) :=
  [ ("version", PStr "2.0.0p1"); ("edition", PStr "cee");
    ("platform", PStr "Ubuntu 20.04.3 LTS"); ("is_cma", PBool false);
    ("sample_time", PInt 1704067200); ("timezone", PStr "UTC");
    ("num_hosts", PInt 7); ("num_shadow_hosts", PInt 1);
    ("num_hosts_excluded", PInt 0); ("num_services", PInt 40);
    ("num_services_excluded", PInt 2) ].

Definition sample_v3_0_empty_site_hash : dict string (pyobj Q) :=
  [ ("instance_id", PStr "937495cb-78f7-40d4-9b5f-f2c5a81e66b8");
    ("site_hash", PStr "");
    ("version", PStr "2.3.0"); ("edition", PStr "cee");
    ("platform", PStr "Ubuntu 22.04 LTS"); ("is_cma", PBool false);
    ("sample_time", PInt 1704067200); ("timezone", PStr "UTC");
    ("num_hosts", PInt 7); ("num_hosts_cloud", PInt 0);
    ("num_hosts_shadow", PInt 1); ("num_hosts_excluded", PInt 0);
    ("num_services", PInt 40); ("num_services_cloud", PInt 0);
    ("num_services_shadow", PInt 0); ("num_services_excluded", PInt 2);
    ("num_synthetic_tests", PInt 0);
    ("num_synthetic_tests_excluded", PInt 0);
    ("extension_ntop", PBool false) ].

(** Epoch seconds of midnight UTC of a calendar date. *)
Definition midnight (y m d : Z) : Z := days_from_civil y m d * 86400.

(** A process in UTC whose class was created on 2024-12-15 at
    10:30:00.000005. *)
Definition clock_2024_12_15 : LocalTime Q :=
  UTC {| year := 2024; month := 12; day := 15;
         hour := 10; minute := 30; second := 0; microsecond := 5 |}.

(** A subscription from 2024-01-01 to 2025-01-01. *)
Definition subscription_2024
  (limit : option SubscriptionDetailsForAggregation.limit_t)
  : SubscriptionDetailsForAggregation.t :=
  SubscriptionDetailsForAggregation.Build
    (Some (midnight 2024 1 1)) (Some (midnight 2025 1 1)) limit.

(** One day in January, then three consecutive days in April: no sample
    in February or March. *)
Definition gap_samples : list (Z * Z) :=
  [ (midnight 2024 1 5, 5);
    (midnight 2024 4 10, 100);
    (midnight 2024 4 11, 100);
    (midnight 2024 4 12, 20) ].

(** Two samples on one day and one on the next. *)
Definition two_day_samples : list (Z * Z) :=
  [ (midnight 2024 1 5 + 3600, 5);
    (midnight 2024 1 5 + 7200, 3);
    (midnight 2024 1 6, 10) ].

(** The average of a month, as an instance attribute. *)
Definition month_average (y m d : Z) (avg : Q) : MonthlyServiceAverage.t Q :=
  MonthlyServiceAverage.Build (datetime_ymd y m d) (NFloat avg).

(** The count of a day, as an instance attribute. *)
Definition day_count (y m d : Z) (n : Z) : MonthlyServiceAverage.t Q :=
  MonthlyServiceAverage.Build (datetime_ymd y m d) (NInt n).

(** The day of a sample, and the sum of the counts of the samples of a
    day. *)
Definition sample_day {float : Type} {L : LocalTime float} (t : Z)
  : option datetime :=
  match fromtimestamp t with
  | Ok dt => Some (datetime_ymd (year dt) (month dt) (day dt))
  | Raise _ => None
  end.

Fixpoint day_total {float : Type} {L : LocalTime float}
  (d : datetime) (short_samples : list (Z * Z)) : Z :=
  match short_samples with
  | [] => 0
  | (t, n) :: rest =>
      match sample_day t with
      | Some d' => if dt_eqb d' d then n + day_total d rest
                   else day_total d rest
      | None => day_total d rest
      end
  end.

(** A month that may be averaged: it starts no earlier than the
    subscription, and its end is before today and no later than the end
    of the subscription. *)
Definition complete_month {float : Type} {L : LocalTime float}
  (subscription_start_date subscription_end_date month_start : datetime)
  : Prop :=
  dt_le subscription_start_date month_start
  /\ exists month_end,
       add_one_month month_start = Ok month_end
       /\ dt_lt month_end today
       /\ dt_le month_end subscription_end_date.

(** Chronological order of averages. *)
Definition earlier {float : Type} (a b : MonthlyServiceAverage.t float)
  : Prop :=
  dt_lt (MonthlyServiceAverage.sample_date a)
    (MonthlyServiceAverage.sample_date b).

(** Order of dictionary items by key. *)
Definition key_lt {V : Type} (a b : datetime * V) : Prop :=
  dt_lt (fst a) (fst b).

(** Every sample time is in the range of [datetime.fromtimestamp]. *)
Definition convertible {float : Type} {L : LocalTime float}
  (short_samples : list (Z * Z)) : Prop :=
  Forall (fun sample => exists dt, fromtimestamp (fst sample) = Ok dt)
    short_samples.

(** 500 consecutive days from 2023-01-01, the sample of day [i] counting
    [i] services. *)
Definition five_hundred_days : list (Z * Z) :=
  map (fun i => (midnight 2023 1 1 + Z.of_nat i * 86400, Z.of_nat i))
    (seq 0 500).

(** The day after a calendar date, by the lengths of the months. *)
Definition next_day (date : Z * Z * Z) : Z * Z * Z :=
  let '(y, m, d) := date in
  if d <? days_in_month y m then (y, m, d + 1)
  else if m <? 12 then (y, m + 1, 1)
  else (y + 1, 1, 1).

(** From day number [z] on, for [count] days: [civil_from_days] moves to
    the next calendar day with each day number, and [days_from_civil]
    inverts it. *)
Fixpoint calendar_consistent (z : Z) (count : nat) : bool :=
  match count with
  | O => true
  | S count' =>
      let '(y, m, d) := civil_from_days z in
      (days_from_civil y m d =? z)
      && (let '(y', m', d') := civil_from_days (z + 1) in
          let '(y'', m'', d'') := next_day (y, m, d) in
          (y' =? y'') && (m' =? m'') && (d' =? d''))
      && calendar_consistent (z + 1) count'
  end.

(** The daily buckets that lie in the window that starts at [month_start]
    and ends one month later. *)
Definition in_window {float : Type} (month_start : datetime)
  (a : MonthlyServiceAverage.t float) : bool :=
  match add_one_month month_start with
  | Ok month_end =>
      dt_leb month_start (MonthlyServiceAverage.sample_date a)
      && dt_ltb (MonthlyServiceAverage.sample_date a) month_end
  | Raise _ => false
  end.

Definition days_in_window {float : Type} (month_start : datetime)
  (daily : list (MonthlyServiceAverage.t float)) : Z :=
  Z.of_nat (List.length (filter (in_window month_start) daily)).

(** [>] on numbers is a strict weak order: irreflexive, transitive, and
    "not greater" is transitive.  Python floats satisfy this as long as
    no NaN is involved. *)
Definition number_gt_strict_weak_order {float uuid : Type}
  {R : PyRuntime float uuid} : Prop :=
  (forall x : number float, MonthlyServiceAverages.number_gt x x = false)
  /\ (forall x y z : number float,
        MonthlyServiceAverages.number_gt x y = true ->
        MonthlyServiceAverages.number_gt y z = true ->
        MonthlyServiceAverages.number_gt x z = true)
  /\ (forall x y z : number float,
        MonthlyServiceAverages.number_gt x y = false ->
        MonthlyServiceAverages.number_gt y z = false ->
        MonthlyServiceAverages.number_gt x z = false).

(** The rational value of a number of the evaluation runtime. *)
Definition number_value (x : number Q) : Q :=
  match x with
  | NInt n => inject_Z n
  | NFloat q => q
  end.

(** A datetime at midnight whose day of the month is at most [d]. *)
Definition midnight_up_to_day (d : Z) (dt : datetime) : Prop :=
  hour dt = 0 /\ minute dt = 0 /\ second dt = 0 /\ microsecond dt = 0
  /\ day dt <= d.

Section SampleReport.
Context {float uuid : Type}.

(** [str(u)] for a UUID [u] *)
Variable uuid_str : uuid -> string.

(** [LicenseUsageSample.for_report] *)
Definition LicenseUsageSample_for_report (self : LicenseUsageSample float uuid)
  : pyobj float :=
  PDict
    [ ("instance_id",
       match instance_id self with
       | None => PNone
       | Some u => PStr (uuid_str u)
       end);
      ("site_hash", site_hash self);
      ("version", version self);
      ("edition", edition self);
      ("platform", platform self);
      ("is_cma", is_cma self);
      ("sample_time", sample_time self);
      ("timezone", timezone self);
      ("num_hosts", num_hosts self);
      ("num_hosts_cloud", num_hosts_cloud self);
      ("num_hosts_shadow", num_hosts_shadow self);
      ("num_hosts_excluded", num_hosts_excluded self);
      ("num_services", num_services self);
      ("num_services_cloud", num_services_cloud self);
      ("num_services_shadow", num_services_shadow self);
      ("num_services_excluded", num_services_excluded self);
      ("num_synthetic_tests", num_synthetic_tests self);
      ("num_synthetic_tests_excluded", num_synthetic_tests_excluded self);
      ("extension_ntop", extension_ntop self) ].

End SampleReport.

(** A sample as the parser of version 3.0 returns it. *)
Definition parsed_sample_v3_0 : LicenseUsageSample Q string :=
  {| instance_id := Some "937495cb78f740d49b5ff2c5a81e66b8";
     site_hash := PStr "a3f1c0";
     version := PStr "2.3.0"; edition := PStr "cee";
     platform := PStr "Ubuntu 22.04 LTS"; is_cma := PBool false;
     sample_time := PInt 1704067200; timezone := PStr "UTC";
     num_hosts := PInt 7; num_hosts_cloud := PInt 0;
     num_hosts_shadow := PInt 1; num_hosts_excluded := PInt 0;
     num_services := PInt 40; num_services_cloud := PInt 0;
     num_services_shadow := PInt 0; num_services_excluded := PInt 2;
     num_synthetic_tests := PInt 0; num_synthetic_tests_excluded := PInt 0;
     extension_ntop := PBool false |}.

(** A sample of version 1.4 whose platform has 60 characters. *)
Definition sample_v1_4_long_platform : dict string (pyobj Q) :=
  ("platform",
   PStr "Ubuntu 20.04.3 LTS (Focal Fossa) x86_64 GNU/Linux 5.4.0-generic")
  :: sample_v1_4.

(** A subscription without start. *)
Definition subscription_without_start : SubscriptionDetailsForAggregation.t :=
  SubscriptionDetailsForAggregation.Build None (Some (midnight 2025 1 1)) None.

(** The instance built from [gap_samples], before and after its first
    aggregation. *)
Definition gap_instance : MonthlyServiceAverages.t Q :=
  MonthlyServiceAverages.Build (subscription_2024 None)
    [ day_count 2024 1 5 5; day_count 2024 4 10 100;
      day_count 2024 4 11 100; day_count 2024 4 12 20 ] [].

Definition gap_instance_aggregated : MonthlyServiceAverages.t Q :=
  MonthlyServiceAverages.Build (subscription_2024 None)
    [ day_count 2024 1 5 5; day_count 2024 4 10 100;
      day_count 2024 4 11 100; day_count 2024 4 12 20 ]
    [ month_average 2024 1 1 5; month_average 2024 4 1 20 ].

(** The scan keeps up with the daily buckets: each bucket lies in the
    window that is current when the scan reads it, that is in the window
    of the bucket before it or, when it is past the end of that window,
    in the next one. *)
Fixpoint scan_keeps_up {float : Type}
  (daily : list (MonthlyServiceAverage.t float))
  (month_start month_end : datetime) : Prop :=
  match daily with
  | [] => True
  | a :: rest =>
      if dt_leb month_end (MonthlyServiceAverage.sample_date a) then
        match add_one_month month_end with
        | Ok next_end =>
            dt_lt (MonthlyServiceAverage.sample_date a) next_end
            /\ scan_keeps_up rest month_end next_end
        | Raise _ => True
        end
      else
        dt_le month_start (MonthlyServiceAverage.sample_date a)
        /\ scan_keeps_up rest month_start month_end
  end.

(** The sum of [weight] over the daily buckets in the window that starts
    at [month_start]. *)
Fixpoint window_total {float : Type}
  (weight : MonthlyServiceAverage.t float -> Z) (month_start : datetime)
  (daily : list (MonthlyServiceAverage.t float)) : Z :=
  match daily with
  | [] => 0
  | a :: rest =>
      (if in_window month_start a then weight a else 0)
      + window_total weight month_start rest
  end.

(** The count of a daily bucket: [int(daily_service.num_services)]. *)
Definition daily_count {float uuid : Type} {R : PyRuntime float uuid}
  (a : MonthlyServiceAverage.t float) : Z :=
  match MonthlyServiceAverages.number_int
          (MonthlyServiceAverage.num_services a) with
  | Ok n => n
  | Raise _ => 0
  end.

(** The sum of the counts of the daily buckets in a window. *)
Definition services_in_window {float uuid : Type} {R : PyRuntime float uuid}
  (month_start : datetime) (daily : list (MonthlyServiceAverage.t float)) : Z :=
  window_total daily_count month_start daily.

(** Daily buckets in January and February 2024, none more than a month
    after the one before. *)
Definition steady_daily : list (MonthlyServiceAverage.t Q) :=
  [ day_count 2024 1 5 5; day_count 2024 1 20 7; day_count 2024 2 3 10;
    day_count 2024 2 4 14 ].

(** Samples on two days of January and two days of February 2024, and
    the instance built from them, before and after its first
    aggregation. *)
Definition steady_samples : list (Z * Z) :=
  [ (midnight 2024 1 5, 5); (midnight 2024 1 20 + 3600, 4);
    (midnight 2024 1 20 + 7200, 3); (midnight 2024 2 3, 10);
    (midnight 2024 2 4, 14) ].

Definition steady_instance : MonthlyServiceAverages.t Q :=
  MonthlyServiceAverages.Build (subscription_2024 None) steady_daily [].

(* ================================================================= *)
(** * Properties *)

(** ** Strings and decimal numerals *)

Lemma str_in_In (s : string) (t : list string) :
  str_in s t = true <-> In s t.
Proof.
  unfold str_in. rewrite existsb_exists. split.
  - intros [x [Hx Heq]]. apply String.eqb_eq in Heq. now subst.
  - intros H. exists s. split; [assumption | apply String.eqb_refl].
Qed.

Lemma str_in_not_In (s : string) (t : list string) :
  str_in s t = false <-> ~ In s t.
Proof.
  rewrite <- str_in_In. destruct (str_in s t); split; congruence.
Qed.

Lemma to_int_not_nil (n : Z) :
  Z.to_int n <> Decimal.Pos Decimal.Nil /\ Z.to_int n <> Decimal.Neg Decimal.Nil.
Proof.
  destruct n as [|p|p]; simpl; split; try discriminate.
  - intros H. injection H as H.
    apply (f_equal Pos.of_uint) in H. rewrite DecimalPos.Unsigned.of_to in H.
    discriminate.
  - intros H. injection H as H.
    apply (f_equal Pos.of_uint) in H. rewrite DecimalPos.Unsigned.of_to in H.
    discriminate.
Qed.

(** [str] of an [int] reads back as that [int]. *)
Lemma int_of_string_int_str (n : Z) :
  NilZero.int_of_string (int_str n) = Some (Z.to_int n).
Proof.
  unfold int_str. destruct (to_int_not_nil n) as [Hp Hn].
  now apply NilZero.isi.
Qed.

Lemma int_str_inj (m n : Z) : int_str m = int_str n -> m = n.
Proof.
  intros H. apply (f_equal NilZero.int_of_string) in H.
  rewrite !int_of_string_int_str in H. injection H as H.
  now apply DecimalZ.to_int_inj.
Qed.

(** The numbers whose [str] is in the tier table are the thirteen tier
    values. *)
Lemma fixed_tier_values_spec (n : Z) :
  In (int_str n) _SUBSCRIPTION_LIMITS_FIXED <-> In n fixed_tier_values.
Proof.
  split.
  - intros H. unfold _SUBSCRIPTION_LIMITS_FIXED in H. simpl in H.
    unfold fixed_tier_values.
    repeat match goal with
    | H : _ \/ _ |- _ => destruct H as [H | H]
    end;
    try contradiction;
    try (match type of H with
         | ?s = int_str n =>
             apply (f_equal NilZero.int_of_string) in H;
             rewrite int_of_string_int_str in H; simpl in H;
             first [ discriminate H
                   | injection H as H;
                     apply (f_equal Z.of_int) in H;
                     rewrite DecimalZ.of_to in H; simpl in H; subst n;
                     simpl; tauto ]
         end).
  - intros H. unfold fixed_tier_values in H. simpl in H.
    repeat match goal with
    | H : _ \/ _ |- _ => destruct H as [H | H]
    end;
    try contradiction; subst n; apply str_in_In; reflexivity.
Qed.

(** ** Subscription limits *)

Section LimitProperties.
Context {float uuid : Type} {R : PyRuntime float uuid}.

(** C4: for a limit of one of the three variants (fixed with a value of
    the tier table, unlimited with value -1, custom with a positive value
    outside the tier table), parsing its report form gives the limit
    back. *)
Theorem parse_for_report_roundtrip (l : SubscriptionDetailsLimit.t) :
  limit_variant l ->
  SubscriptionDetailsLimit.parse (SubscriptionDetailsLimit.for_report l)
  = Ok l.
Proof.
  destruct l as [ty v]. unfold limit_variant.
  cbn [SubscriptionDetailsLimit.type_ SubscriptionDetailsLimit.value].
  destruct ty; intros H;
    unfold SubscriptionDetailsLimit.for_report, SubscriptionDetailsLimit.parse,
      SubscriptionDetailsLimit._parse;
    cbn [SubscriptionDetailsLimit.type_ SubscriptionDetailsLimit.value
         SubscriptionDetailsLimitType.name py_eq_str py_int py_str bind
         String.eqb Ascii.eqb Bool.eqb orb].
  - (* fixed *)
    assert (Hv : (v =? -1) = false).
    { apply Z.eqb_neq. intros ->.
      apply fixed_tier_values_spec in H. simpl in H.
      repeat (destruct H as [H | H]; [discriminate H |]). contradiction. }
    rewrite Hv. apply str_in_In in H. rewrite H. reflexivity.
  - (* unlimited *)
    subst v. reflexivity.
  - (* custom *)
    destruct H as [Hpos Hout].
    assert (Hv : (v =? -1) = false) by (apply Z.eqb_neq; lia).
    rewrite Hv. apply str_in_not_In in Hout. rewrite Hout. reflexivity.
Qed.

End LimitProperties.

Lemma parse_for_report_roundtrip_witness :
  let fixed_3000 :=
    SubscriptionDetailsLimit.Build SubscriptionDetailsLimitType.fixed 3000 in
  let unlimited :=
    SubscriptionDetailsLimit.Build SubscriptionDetailsLimitType.unlimited (-1)
  in
  let custom_4500 :=
    SubscriptionDetailsLimit.Build SubscriptionDetailsLimitType.custom 4500 in
  (limit_variant fixed_3000
   /\ SubscriptionDetailsLimit.parse (R := QRuntime)
        (SubscriptionDetailsLimit.for_report fixed_3000) = Ok fixed_3000)
  /\ (limit_variant unlimited
      /\ SubscriptionDetailsLimit.parse (R := QRuntime)
           (SubscriptionDetailsLimit.for_report unlimited) = Ok unlimited)
  /\ (limit_variant custom_4500
      /\ SubscriptionDetailsLimit.parse (R := QRuntime)
           (SubscriptionDetailsLimit.for_report custom_4500)
         = Ok custom_4500).
Proof.
  intros fixed_3000 unlimited custom_4500.
  assert (Hfixed : limit_variant fixed_3000) by (vm_compute; left; reflexivity).
  assert (Hunlimited : limit_variant unlimited) by reflexivity.
  assert (Hcustom : limit_variant custom_4500).
  { unfold limit_variant, custom_4500. simpl. split; [lia |].
    intros H. repeat (destruct H as [H | H]; [discriminate H |]). exact H. }
  split; [split; [exact Hfixed | exact (parse_for_report_roundtrip _ Hfixed)] |].
  split; [split; [exact Hunlimited
                 | exact (parse_for_report_roundtrip _ Hunlimited)] |].
  split; [exact Hcustom | exact (parse_for_report_roundtrip _ Hcustom)].
Defined.

(** ** Protocol versions and parsers *)

Section ParserProperties.
Context {float uuid : Type} {R : PyRuntime float uuid}.

Lemma py_get_default_some (d : dict string (pyobj float)) (k : string)
  (o default : pyobj float) :
  py_get d k = Some o -> py_get_default d k default = o.
Proof.
  unfold py_get, py_get_default, dict_get_default. now intros ->.
Qed.

Lemma py_get_default_none (d : dict string (pyobj float)) (k : string)
  (default : pyobj float) :
  py_get d k = None -> py_get_default d k default = default.
Proof.
  unfold py_get, py_get_default, dict_get_default. now intros ->.
Qed.

Lemma py_item_some (d : dict string (pyobj float)) (k : string) :
  py_get d k <> None -> exists o, py_get d k = Some o /\ py_item d k = Ok o.
Proof.
  unfold py_get, py_item, dict_item.
  destruct (dict_get String.eqb d k) as [o |]; [| congruence].
  intros _. now exists o.
Qed.

Lemma protocol_version_cases (s : string) :
  In s protocol_versions ->
  s = "1.0" \/ s = "1.1" \/ s = "1.2" \/ s = "1.3" \/ s = "1.4"
  \/ s = "1.5" \/ s = "2.0" \/ s = "2.1" \/ s = "3.0".
Proof.
  unfold protocol_versions. simpl. intuition (subst; auto 10).
Qed.

(** C7: [parse_protocol_version] returns the [VERSION] string exactly when
    the input is a mapping whose [VERSION] is a string among the nine
    literals; another string raises [ValueError]; an input that is no
    mapping, or whose [VERSION] is missing or no string, raises
    [TypeError]. *)
Theorem parse_protocol_version_spec (raw : pyobj float) :
  (forall v : string,
     parse_protocol_version raw = Ok v <->
     exists d, raw = PDict d /\ py_get d "VERSION" = Some (PStr v)
               /\ In v protocol_versions)
  /\ (forall d s,
        raw = PDict d -> py_get d "VERSION" = Some (PStr s) ->
        ~ In s protocol_versions ->
        parse_protocol_version raw = Raise ValueError)
  /\ ((forall d, raw <> PDict d) ->
      parse_protocol_version raw = Raise TypeError)
  /\ (forall d,
        raw = PDict d ->
        (py_get d "VERSION" = None
         \/ exists o, py_get d "VERSION" = Some o /\ forall s, o <> PStr s) ->
        parse_protocol_version raw = Raise TypeError).
Proof.
  assert (Hstr : forall (d : dict string (pyobj float)) s,
    py_get d "VERSION" = Some (PStr s) ->
    (In s protocol_versions /\ parse_protocol_version (PDict d) = Ok s)
    \/ (~ In s protocol_versions
        /\ parse_protocol_version (PDict d) = Raise ValueError)).
  { intros d s Hget. unfold parse_protocol_version.
    rewrite (py_get_default_some _ _ _ _ Hget).
    unfold protocol_versions.
    repeat match goal with
    | |- context [String.eqb s ?lit] =>
        destruct (String.eqb_spec s lit) as [-> | ?];
        [left; split; [simpl; tauto | reflexivity] |]
    end.
    right. split; [| reflexivity]. simpl. intuition congruence. }
  repeat split.
  - intros H. destruct raw; simpl in H; try discriminate.
    unfold py_get_default, dict_get_default in H.
    destruct (dict_get String.eqb d "VERSION") as [o |] eqn:Hget;
      [| discriminate].
    destruct o; try discriminate.
    destruct (Hstr d s Hget) as [[Hin Hok] | [_ Hbad]].
    + unfold parse_protocol_version in Hok.
      rewrite (py_get_default_some _ _ _ _ Hget) in Hok.
      rewrite Hok in H. injection H as <-. now exists d.
    + unfold parse_protocol_version in Hbad.
      rewrite (py_get_default_some _ _ _ _ Hget) in Hbad.
      rewrite Hbad in H. discriminate.
  - intros [d [-> [Hget Hin]]].
    destruct (Hstr d v Hget) as [[_ Hok] | [Hout _]];
      [assumption | contradiction].
  - intros d s -> Hget Hout.
    destruct (Hstr d s Hget) as [[Hin _] | [_ Hbad]];
      [contradiction | assumption].
  - intros Hnd. destruct raw; try reflexivity. now elim (Hnd d).
  - intros d -> [Hnone | [o [Hget Hns]]]; unfold parse_protocol_version.
    + now rewrite (py_get_default_none _ _ _ Hnone).
    + rewrite (py_get_default_some _ _ _ _ Hget).
      destruct o; try reflexivity. now elim (Hns s).
Qed.

(** C9: the legacy two-element form [(source, details)], as a tuple or as
    a list, parses to exactly what the flat mapping [details] parses to,
    whatever the source tag is. *)
Theorem legacy_pair_parses_as_mapping (source : pyobj float)
  (details : dict string (pyobj float)) :
  _parse_subscription_details (PTuple [source; PDict details])
  = _parse_subscription_details (PDict details)
  /\ _parse_subscription_details (PList [source; PDict details])
     = _parse_subscription_details (PDict details).
Proof.
  split; reflexivity.
Qed.

Lemma make_parser_cases (v : string) (p : Parser float uuid) :
  make_parser v = Some p ->
  (v = "1.0" /\ p = ParserV1_0) \/ (v = "1.1" /\ p = ParserV1_1)
  \/ (v = "1.2" /\ p = ParserV1_2) \/ (v = "1.3" /\ p = ParserV1_3)
  \/ (v = "1.4" /\ p = ParserV1_4) \/ (v = "1.5" /\ p = ParserV1_5)
  \/ (v = "2.0" /\ p = ParserV2_0) \/ (v = "2.1" /\ p = ParserV2_1)
  \/ (v = "3.0" /\ p = ParserV3_0).
Proof.
  unfold make_parser.
  repeat match goal with
  | |- context [String.eqb v ?lit] =>
      destruct (String.eqb_spec v lit) as [-> | ?];
      [intros [= <-]; tauto |]
  end.
  intros H. discriminate H.
Qed.

(** C10: for each of the nine parsers, a record whose [site_hash] is
    present and empty is refused with [ValueError], whatever site hash
    the caller supplies. *)
Theorem empty_site_hash_refused (v : string) (p : Parser float uuid)
  (instance_id : option uuid) (site_hash : string)
  (raw : dict string (pyobj float)) :
  make_parser v = Some p ->
  py_get raw "site_hash" = Some (PStr "") ->
  parse_sample p instance_id site_hash (PDict raw) = Raise ValueError.
Proof.
  intros Hp Hget. apply make_parser_cases in Hp.
  repeat (destruct Hp as [[-> ->] | Hp]); [.. | destruct Hp as [-> ->]];
    cbn [parse_sample ParserV1_0 ParserV1_1 ParserV1_2 ParserV1_3 ParserV1_4
         ParserV1_5 ParserV2_0 ParserV2_1 ParserV3_0];
    unfold ParserV1_0_parse_sample, _parse_sample_v1_1,
      ParserV1_4_parse_sample, ParserV1_5_parse_sample, _parse_sample_v2_0,
      ParserV3_0_parse_sample;
    rewrite (py_get_default_some _ _ _ (PStr site_hash) Hget);
    cbn [py_bool String.eqb negb];
    try reflexivity;
    destruct (negb (py_bool (py_get_default raw "instance_id" PNone)));
    reflexivity.
Qed.

Lemma parse_from_sample_ok (raw : dict string (pyobj float)) :
  py_get raw "extensions" = None
  \/ (exists e, py_get raw "extensions" = Some (PDict e)) ->
  exists x, LicenseUsageExtensions.parse_from_sample (PDict raw) = Ok x.
Proof.
  unfold LicenseUsageExtensions.parse_from_sample.
  intros [Hnone | [e Hsome]].
  - rewrite (py_get_default_none _ _ _ Hnone). cbn [bind]. eauto.
  - rewrite (py_get_default_some _ _ _ _ Hsome). cbn [bind]. eauto.
Qed.

Lemma site_hash_available (raw : dict string (pyobj float))
  (site_hash : string) :
  match py_get raw "site_hash" with
  | Some (PStr s) => s <> ""
  | Some _ => False
  | None => site_hash <> ""
  end ->
  negb (py_bool (py_get_default raw "site_hash" (PStr site_hash))) = false.
Proof.
  unfold py_get_default, dict_get_default, py_get.
  destruct (dict_get String.eqb raw "site_hash") as [o |].
  - destruct o; try contradiction. intros Hs. cbn [py_bool].
    destruct (String.eqb_spec s ""); [contradiction | reflexivity].
  - intros Hs. cbn [py_bool].
    destruct (String.eqb_spec site_hash ""); [contradiction | reflexivity].
Qed.

(** Reads the next field of a minimally valid record. *)
Ltac read_field raw Hreq key :=
  let o := fresh "o" in
  let Hg := fresh "Hg" in
  let Hi := fresh "Hi" in
  destruct (py_item_some raw key (Hreq key ltac:(simpl; tauto)))
    as [o [Hg Hi]];
  rewrite Hi; cbn [bind].

(** C5: the parsers of versions 1.5, 2.0, 2.1 and 3.0 refuse with
    [ValueError] a record whose [instance_id] is absent or the empty
    string; the parsers of versions 1.0 to 1.4 succeed on a minimally
    valid record and give the sample the instance id supplied by the
    caller, whatever the record holds under [instance_id]. *)
Theorem instance_id_requirement :
  (forall (v : string) (p : Parser float uuid) (caller_id : option uuid)
          (site_hash : string) (raw : dict string (pyobj float)),
     In v ["1.5"; "2.0"; "2.1"; "3.0"] ->
     make_parser v = Some p ->
     py_get raw "instance_id" = None
     \/ py_get raw "instance_id" = Some (PStr "") ->
     parse_sample p caller_id site_hash (PDict raw) = Raise ValueError)
  /\ (forall (v : string) (p : Parser float uuid) (caller_id : option uuid)
             (site_hash : string) (raw : dict string (pyobj float)),
        In v ["1.0"; "1.1"; "1.2"; "1.3"; "1.4"] ->
        make_parser v = Some p ->
        minimally_valid v site_hash raw ->
        exists sample,
          parse_sample p caller_id site_hash (PDict raw) = Ok sample
          /\ instance_id sample = caller_id).
Proof.
  split.
  - intros v p caller_id site_hash raw Hv Hp Hid.
    assert (Hfalsy :
      negb (py_bool (py_get_default raw "instance_id" PNone)) = true).
    { destruct Hid as [Hid | Hid].
      - now rewrite (py_get_default_none _ _ _ Hid).
      - now rewrite (py_get_default_some _ _ _ _ Hid). }
    simpl in Hv.
    repeat (destruct Hv as [<- | Hv]); try contradiction;
      injection Hp as <-;
      cbn [parse_sample ParserV1_5 ParserV2_0 ParserV2_1 ParserV3_0];
      unfold ParserV1_5_parse_sample, _parse_sample_v2_0,
        ParserV3_0_parse_sample;
      rewrite Hfalsy; reflexivity.
  - intros v p caller_id site_hash raw Hv Hp [Hreq [[pl Hpl] [Hsh Hext]]].
    apply site_hash_available in Hsh.
    destruct (parse_from_sample_ok raw Hext) as [ext Hok].
    assert (Hplat : py_item raw "platform" = Ok (PStr pl)).
    { unfold py_item, dict_item. unfold py_get in Hpl. now rewrite Hpl. }
    simpl in Hv.
    repeat (destruct Hv as [<- | Hv]); try contradiction;
      injection Hp as <-;
      cbn [parse_sample ParserV1_0 ParserV1_1 ParserV1_2 ParserV1_3
           ParserV1_4];
      unfold ParserV1_0_parse_sample, _parse_sample_v1_1,
        ParserV1_4_parse_sample;
      rewrite Hsh, Hok; cbn [bind];
      read_field raw Hreq "version";
      read_field raw Hreq "edition";
      rewrite Hplat; cbn [bind _parse_platform];
      read_field raw Hreq "is_cma";
      read_field raw Hreq "sample_time";
      read_field raw Hreq "timezone";
      read_field raw Hreq "num_hosts";
      try read_field raw Hreq "num_shadow_hosts";
      try read_field raw Hreq "num_hosts_excluded";
      read_field raw Hreq "num_services";
      try read_field raw Hreq "num_services_excluded";
      eexists; split; reflexivity.
Qed.

End ParserProperties.

Lemma empty_site_hash_refused_witness :
  make_parser (R := QRuntime) "3.0" = Some ParserV3_0
  /\ py_get sample_v3_0_empty_site_hash "site_hash" = Some (PStr "")
  /\ parse_sample ParserV3_0 None "a3f1c0" (PDict sample_v3_0_empty_site_hash)
     = Raise ValueError.
Proof.
  split; [reflexivity |]. split; [reflexivity |].
  apply (empty_site_hash_refused "3.0" ParserV3_0 None "a3f1c0"
           sample_v3_0_empty_site_hash); reflexivity.
Defined.

Lemma sample_v1_4_minimally_valid :
  minimally_valid "1.4" "a3f1c0" sample_v1_4.
Proof.
  unfold minimally_valid. repeat split.
  - intros key Hkey. simpl in Hkey.
    repeat (destruct Hkey as [<- | Hkey]; [discriminate |]).
    contradiction.
  - now exists "Ubuntu 20.04.3 LTS".
  - simpl. discriminate.
  - now left.
Defined.

Lemma instance_id_requirement_witness :
  parse_sample (ParserV3_0 (R := QRuntime)) None "a3f1c0"
    (PDict (("instance_id", PStr "") :: sample_v1_4))
  = Raise ValueError
  /\ exists sample,
       parse_sample (ParserV1_4 (R := QRuntime))
         (Some "937495cb78f740d49b5ff2c5a81e66b8") "a3f1c0"
         (PDict sample_v1_4)
       = Ok sample
       /\ instance_id sample = Some "937495cb78f740d49b5ff2c5a81e66b8".
Proof.
  split.
  - apply (proj1 (instance_id_requirement (R := QRuntime)) "3.0");
      [simpl; tauto | reflexivity | right; reflexivity].
  - apply (proj2 (instance_id_requirement (R := QRuntime)) "1.4");
      [simpl; tauto | reflexivity | exact sample_v1_4_minimally_valid].
Defined.

(** ** The calendar *)

(** [civil_from_days] agrees with the calendar rule of month lengths and
    leap years on every day of 1970 to 1974, of 1999-11 to 2002-01 (with
    the leap year 2000) and of 2099-10 to 2101-12 (with the common year
    2100). *)
Example civil_from_days_consistent :
  civil_from_days (-1) = (1969, 12, 31)
  /\ civil_from_days 0 = (1970, 1, 1)
  /\ civil_from_days 11016 = (2000, 2, 29)
  /\ civil_from_days 47540 = (2100, 2, 28)
  /\ civil_from_days 47541 = (2100, 3, 1)
  /\ calendar_consistent (-1) 1827 = true
  /\ calendar_consistent 10900 800 = true
  /\ calendar_consistent 47400 800 = true.
Proof.
  do 7 (split; [vm_compute; reflexivity |]).
  vm_compute. reflexivity.
Qed.

Example add_one_month_clips_the_day :
  add_one_month (datetime_ymd 2024 1 31) = Ok (datetime_ymd 2024 2 29)
  /\ add_one_month (datetime_ymd 2023 1 31) = Ok (datetime_ymd 2023 2 28)
  /\ add_one_month (datetime_ymd 2024 12 15) = Ok (datetime_ymd 2025 1 15)
  /\ add_one_month (datetime_ymd 9999 12 1) = Raise ValueError.
Proof. repeat split; reflexivity. Qed.

(** ** The order of naive datetimes *)

Lemma lex_compare_refl (a : list Z) : lex_compare a a = Eq.
Proof.
  induction a as [| x a IH]; simpl; [reflexivity |].
  now rewrite Z.compare_refl.
Qed.

Lemma lex_compare_eq (a b : list Z) : lex_compare a b = Eq -> a = b.
Proof.
  revert b. induction a as [| x a IH]; intros [| y b]; simpl;
    try discriminate; [reflexivity |].
  destruct (Z.compare_spec x y) as [-> | |]; try discriminate.
  intros H. f_equal. now apply IH.
Qed.

Lemma lex_compare_antisym (a b : list Z) :
  lex_compare b a = CompOpp (lex_compare a b).
Proof.
  revert b. induction a as [| x a IH]; intros [| y b]; simpl;
    try reflexivity.
  rewrite (Z.compare_antisym x y).
  destruct (x ?= y); simpl; [apply IH | reflexivity | reflexivity].
Qed.

Lemma lex_compare_lt_trans (a b c : list Z) :
  lex_compare a b = Lt -> lex_compare b c = Lt -> lex_compare a c = Lt.
Proof.
  revert b c. induction a as [| x a IH]; intros [| y b] [| z c]; simpl;
    try discriminate; try reflexivity.
  destruct (Z.compare_spec x y) as [-> | Hxy | Hxy]; try discriminate.
  - destruct (Z.compare_spec y z) as [-> | Hyz | Hyz]; try discriminate.
    + apply IH.
    + reflexivity.
  - intros _. destruct (Z.compare_spec y z) as [-> | Hyz | Hyz];
      try discriminate; intros _.
    + apply Z.compare_lt_iff in Hxy. now rewrite Hxy.
    + assert (H : x < z) by lia. apply Z.compare_lt_iff in H. now rewrite H.
Qed.

Lemma datetime_fields_inj (a b : datetime) :
  datetime_fields a = datetime_fields b -> a = b.
Proof.
  destruct a, b. unfold datetime_fields. simpl. intros H.
  injection H as -> -> -> -> -> -> ->. reflexivity.
Qed.

Lemma datetime_compare_refl (a : datetime) : datetime_compare a a = Eq.
Proof. apply lex_compare_refl. Qed.

Lemma datetime_compare_eq (a b : datetime) :
  datetime_compare a b = Eq -> a = b.
Proof.
  intros H. apply datetime_fields_inj. now apply lex_compare_eq.
Qed.

Lemma datetime_compare_antisym (a b : datetime) :
  datetime_compare b a = CompOpp (datetime_compare a b).
Proof. apply lex_compare_antisym. Qed.

Lemma dt_eqb_eq (a b : datetime) : dt_eqb a b = true <-> a = b.
Proof.
  unfold dt_eqb. split.
  - destruct (datetime_compare a b) eqn:H; try discriminate.
    intros _. now apply datetime_compare_eq.
  - intros ->. now rewrite datetime_compare_refl.
Qed.

Lemma dt_eqb_refl (a : datetime) : dt_eqb a a = true.
Proof. now apply dt_eqb_eq. Qed.

Lemma dt_eqb_neq (a b : datetime) : dt_eqb a b = false <-> a <> b.
Proof.
  rewrite <- dt_eqb_eq. destruct (dt_eqb a b); split; congruence.
Qed.

Lemma dt_ltb_lt (a b : datetime) : dt_ltb a b = true <-> dt_lt a b.
Proof.
  unfold dt_ltb, dt_lt. destruct (datetime_compare a b); split;
    congruence.
Qed.

Lemma dt_leb_le (a b : datetime) : dt_leb a b = true <-> dt_le a b.
Proof.
  unfold dt_leb, dt_le. destruct (datetime_compare a b); split;
    congruence.
Qed.

Lemma dt_lt_irrefl (a : datetime) : ~ dt_lt a a.
Proof. unfold dt_lt. now rewrite datetime_compare_refl. Qed.

Lemma dt_lt_trans (a b c : datetime) : dt_lt a b -> dt_lt b c -> dt_lt a c.
Proof. apply lex_compare_lt_trans. Qed.

Lemma dt_le_lt_or_eq (a b : datetime) : dt_le a b <-> dt_lt a b \/ a = b.
Proof.
  unfold dt_le, dt_lt. split.
  - destruct (datetime_compare a b) eqn:H; intros Hne.
    + right. now apply datetime_compare_eq.
    + now left.
    + congruence.
  - intros [-> | ->]; [discriminate |].
    rewrite datetime_compare_refl. discriminate.
Qed.

Lemma dt_le_refl (a : datetime) : dt_le a a.
Proof. apply dt_le_lt_or_eq. now right. Qed.

Lemma dt_lt_le (a b : datetime) : dt_lt a b -> dt_le a b.
Proof. intros H. apply dt_le_lt_or_eq. now left. Qed.

Lemma dt_le_lt_trans (a b c : datetime) :
  dt_le a b -> dt_lt b c -> dt_lt a c.
Proof.
  intros Hab Hbc. apply dt_le_lt_or_eq in Hab as [Hab | ->];
    [now apply dt_lt_trans with b | assumption].
Qed.

Lemma dt_lt_le_trans (a b c : datetime) :
  dt_lt a b -> dt_le b c -> dt_lt a c.
Proof.
  intros Hab Hbc. apply dt_le_lt_or_eq in Hbc as [Hbc | <-];
    [now apply dt_lt_trans with b | assumption].
Qed.

Lemma dt_le_trans (a b c : datetime) : dt_le a b -> dt_le b c -> dt_le a c.
Proof.
  intros Hab Hbc. apply dt_le_lt_or_eq in Hab as [Hab | ->];
    [apply dt_lt_le; now apply dt_lt_le_trans with b | assumption].
Qed.

Lemma dt_not_le_lt (a b : datetime) : dt_leb a b = false <-> dt_lt b a.
Proof.
  unfold dt_leb, dt_lt. rewrite (datetime_compare_antisym a b).
  destruct (datetime_compare a b); simpl; split; congruence.
Qed.

Lemma dt_not_lt_le (a b : datetime) : dt_ltb a b = false <-> dt_le b a.
Proof.
  unfold dt_ltb, dt_le. rewrite (datetime_compare_antisym a b).
  destruct (datetime_compare a b); simpl; split; congruence.
Qed.

Lemma dt_lt_not_eq (a b : datetime) : dt_lt a b -> a <> b.
Proof. intros H ->. now apply dt_lt_irrefl in H. Qed.

(** The next month is later: windows only advance. *)
Lemma add_one_month_lt (dt dt' : datetime) :
  add_one_month dt = Ok dt' -> dt_lt dt dt'.
Proof.
  unfold add_one_month.
  destruct (12 <? month dt + 1) eqn:Hm;
    match goal with
    | |- context [MAXYEAR <? ?y] => destruct (MAXYEAR <? y)
    end; try discriminate; intros [= <-];
    unfold dt_lt, datetime_compare, datetime_fields; simpl.
  - assert (H : year dt < year dt + 1) by lia.
    apply Z.compare_lt_iff in H. now rewrite H.
  - rewrite Z.compare_refl.
    assert (H : month dt < month dt + 1) by lia.
    apply Z.compare_lt_iff in H. now rewrite H.
Qed.

(** ** Dictionaries *)

Section DictFacts.
Context {K V : Type} (keq : K -> K -> bool).
Hypothesis keq_eq : forall a b, keq a b = true <-> a = b.

Lemma keq_refl (a : K) : keq a a = true.
Proof. now apply keq_eq. Qed.

Lemma keq_neq (a b : K) : a <> b -> keq a b = false.
Proof.
  intros Hne. destruct (keq a b) eqn:H; [| reflexivity].
  apply keq_eq in H. contradiction.
Qed.

Lemma setdefault_update_keys_in (d : dict K V) (k k' : K)
  (default : V) (f : V -> V) :
  In k' (dict_keys (dict_setdefault_update keq d k default f))
  <-> In k' (dict_keys d) \/ k' = k.
Proof.
  unfold dict_keys.
  induction d as [| [k1 v1] d IH]; simpl.
  - intuition congruence.
  - destruct (keq k1 k) eqn:Hk; simpl.
    + apply keq_eq in Hk. subst k1. intuition congruence.
    + rewrite IH. tauto.
Qed.

Lemma setdefault_update_keys_nodup (d : dict K V) (k : K)
  (default : V) (f : V -> V) :
  NoDup (dict_keys d) ->
  NoDup (dict_keys (dict_setdefault_update keq d k default f)).
Proof.
  induction d as [| [k1 v1] d IH]; simpl; intros Hnd.
  - repeat constructor. intros [].
  - destruct (keq k1 k) eqn:Hk; simpl; [exact Hnd |].
    apply NoDup_cons_iff in Hnd as [Hnotin Hnd].
    constructor; [| now apply IH].
    intros Hin. apply setdefault_update_keys_in in Hin as [Hin | ->].
    + contradiction.
    + rewrite keq_refl in Hk. discriminate.
Qed.

Lemma setdefault_update_get (d : dict K V) (k : K)
  (default : V) (f : V -> V) :
  dict_get keq (dict_setdefault_update keq d k default f) k
  = Some (f (dict_get_default keq d k default)).
Proof.
  unfold dict_get_default.
  induction d as [| [k1 v1] d IH]; simpl.
  - now rewrite keq_refl.
  - destruct (keq k1 k) eqn:Hk; simpl; rewrite Hk; [reflexivity |].
    exact IH.
Qed.

Lemma setdefault_update_get_other (d : dict K V) (k k' : K)
  (default : V) (f : V -> V) :
  k <> k' ->
  dict_get keq (dict_setdefault_update keq d k default f) k'
  = dict_get keq d k'.
Proof.
  intros Hne. apply keq_neq in Hne.
  induction d as [| [k1 v1] d IH]; simpl.
  - now rewrite Hne.
  - destruct (keq k1 k) eqn:Hk; simpl.
    + apply keq_eq in Hk. subst k1. now rewrite Hne.
    + now rewrite IH.
Qed.

Lemma dict_get_in (d : dict K V) (k : K) (v : V) :
  NoDup (dict_keys d) -> In (k, v) d -> dict_get keq d k = Some v.
Proof.
  induction d as [| [k1 v1] d IH]; simpl; intros Hnd Hin; [contradiction |].
  apply NoDup_cons_iff in Hnd as [Hnotin Hnd].
  destruct Hin as [[= -> ->] | Hin].
  - now rewrite keq_refl.
  - destruct (keq k1 k) eqn:Hk.
    + apply keq_eq in Hk. subst k1. elim Hnotin.
      change k with (fst (k, v)). now apply in_map.
    + now apply IH.
Qed.

End DictFacts.

Lemma string_eqb_eq (a b : string) : (a =? b)%string = true <-> a = b.
Proof. apply String.eqb_eq. Qed.

(** [counter.update(key=n)] adds [n] to the count of [key] and leaves the
    other counts. *)
Lemma counter_get_update (c : Counter) (key : string) (n : Z) :
  counter_get (counter_update c key n) key = counter_get c key + n.
Proof.
  unfold counter_get, counter_update.
  unfold dict_get_default at 1.
  now rewrite (setdefault_update_get String.eqb string_eqb_eq).
Qed.

Lemma counter_get_update_other (c : Counter) (key key' : string) (n : Z) :
  key <> key' ->
  counter_get (counter_update c key n) key' = counter_get c key'.
Proof.
  intros Hne. unfold counter_get, counter_update, dict_get_default.
  now rewrite (setdefault_update_get_other String.eqb string_eqb_eq).
Qed.

(** ** Dictionaries keyed by datetimes *)

Lemma setdefault_update_keys_sorted {V : Type} (d : dict datetime V)
  (k : datetime) (default : V) (f : V -> V) :
  StronglySorted dt_lt (dict_keys d) ->
  (forall k', In k' (dict_keys d) -> dt_le k' k) ->
  StronglySorted dt_lt
    (dict_keys (dict_setdefault_update dt_eqb d k default f)).
Proof.
  induction d as [| [k1 v1] d IH]; intros Hsorted Hle.
  - simpl. repeat constructor.
  - simpl. destruct (dt_eqb k1 k) eqn:Hk.
    + exact Hsorted.
    + apply dt_eqb_neq in Hk. simpl in Hsorted.
      apply StronglySorted_inv in Hsorted as [Htl Hhd].
      change (StronglySorted dt_lt
                (k1 :: dict_keys (dict_setdefault_update dt_eqb d k default f))).
      constructor.
      * apply IH; [assumption |].
        intros k' Hin. apply Hle. now right.
      * apply Forall_forall. intros k' Hin.
        apply (setdefault_update_keys_in dt_eqb dt_eqb_eq) in Hin
          as [Hin | ->].
        -- rewrite Forall_forall in Hhd. now apply Hhd.
        -- assert (H1 : dt_le k1 k) by (apply Hle; now left).
           apply dt_le_lt_or_eq in H1 as [H1 | H1]; [assumption | contradiction].
Qed.

(** ** The monthly scan *)

Section ScanProperties.
Context {float uuid : Type} {R : PyRuntime float uuid} {L : LocalTime float}.

Local Abbreviation Average := (MonthlyServiceAverage.t float).

Lemma monthly_services_loop_invariant (start_date end_date : datetime)
  (daily : list Average) :
  forall (month_start month_end : datetime)
         (monthly res : dict datetime Counter),
    MonthlyServiceAverages.monthly_services_loop daily month_start month_end
      end_date monthly = Ok res ->
    add_one_month month_start = Ok month_end ->
    dt_le start_date month_start ->
    (forall k, In k (dict_keys monthly) ->
       complete_month start_date end_date k /\ dt_le k month_start) ->
    StronglySorted dt_lt (dict_keys monthly) ->
    (forall k, In k (dict_keys res) -> complete_month start_date end_date k)
    /\ StronglySorted dt_lt (dict_keys res).
Proof.
  induction daily as [| daily_service rest IH];
    intros month_start month_end monthly res Hloop Hwin Hstart Hkeys Hsorted.
  - simpl in Hloop. injection Hloop as <-. split; [| assumption].
    intros k Hk. now apply Hkeys.
  - simpl in Hloop.
    assert (Hstep : forall ms me,
      add_one_month ms = Ok me ->
      dt_le start_date ms ->
      (forall k, In k (dict_keys monthly) ->
         complete_month start_date end_date k /\ dt_le k ms) ->
      (if dt_leb today me || dt_ltb end_date me
       then Ok monthly
       else if dt_leb ms (MonthlyServiceAverage.sample_date daily_service)
               && dt_ltb (MonthlyServiceAverage.sample_date daily_service) me
       then
         n <- MonthlyServiceAverages.number_int
                (MonthlyServiceAverage.num_services daily_service) ;;
         MonthlyServiceAverages.monthly_services_loop rest ms me end_date
           (dict_setdefault_update dt_eqb monthly ms []
              (fun counter =>
                 counter_update
                   (counter_update counter "num_daily_services" 1)
                   "num_services" n))
       else
         MonthlyServiceAverages.monthly_services_loop rest ms me end_date
           monthly) = Ok res ->
      (forall k, In k (dict_keys res) -> complete_month start_date end_date k)
      /\ StronglySorted dt_lt (dict_keys res)).
    { intros ms me Hme Hms Hk Hres.
      destruct (dt_leb today me) eqn:Htoday; simpl in Hres.
      { injection Hres as <-. split; [| assumption].
        intros k Hin. now apply Hk. }
      destruct (dt_ltb end_date me) eqn:Hend; simpl in Hres.
      { injection Hres as <-. split; [| assumption].
        intros k Hin. now apply Hk. }
      apply dt_not_le_lt in Htoday. apply dt_not_lt_le in Hend.
      destruct (dt_leb ms (MonthlyServiceAverage.sample_date daily_service)
                && dt_ltb (MonthlyServiceAverage.sample_date daily_service) me).
      - destruct (MonthlyServiceAverages.number_int
                    (MonthlyServiceAverage.num_services daily_service))
          as [n | e]; simpl in Hres; [| discriminate].
        apply (IH _ _ _ _ Hres Hme Hms).
        + intros k Hin.
          apply (setdefault_update_keys_in dt_eqb dt_eqb_eq) in Hin
            as [Hin | ->].
          * now apply Hk.
          * split; [| apply dt_le_refl].
            split; [assumption |]. now exists me.
        + apply setdefault_update_keys_sorted; [assumption |].
          intros k' Hin. now apply Hk.
      - now apply (IH _ _ _ _ Hres Hme Hms). }
    destruct (dt_leb month_end
                (MonthlyServiceAverage.sample_date daily_service)).
    + destruct (add_one_month month_end) as [next_end | e] eqn:Hnext;
        simpl in Hloop; [| discriminate].
      pose proof (add_one_month_lt _ _ Hwin) as Hlt.
      apply (Hstep month_end next_end Hnext).
      * apply dt_le_trans with month_start; [assumption |].
        now apply dt_lt_le.
      * intros k Hin. destruct (Hkeys k Hin) as [Hc Hle]. split; [assumption |].
        apply dt_le_trans with month_start; [assumption |].
        now apply dt_lt_le.
      * exact Hloop.
    + simpl in Hloop. now apply (Hstep month_start month_end).
Qed.

Lemma monthly_average_date (item : datetime * Counter) (a : Average) :
  MonthlyServiceAverages.monthly_average item = Ok a ->
  MonthlyServiceAverage.sample_date a = fst item.
Proof.
  destruct item as [k c]. unfold MonthlyServiceAverages.monthly_average.
  destruct (float_of_int (counter_get c "num_services")); simpl;
    [| discriminate].
  destruct (float_of_int (counter_get c "num_daily_services")); simpl;
    [| discriminate].
  match goal with |- context [float_div ?x ?y] => destruct (float_div x y) end;
    simpl; [| discriminate].
  now intros [= <-].
Qed.

Lemma averages_dates (monthly : dict datetime Counter)
  (averages : list Average) :
  mapM MonthlyServiceAverages.monthly_average monthly = Ok averages ->
  map MonthlyServiceAverage.sample_date averages = dict_keys monthly.
Proof.
  revert averages. induction monthly as [| item monthly IH];
    intros averages; simpl.
  - now intros [= <-].
  - destruct (MonthlyServiceAverages.monthly_average item) as [a | e] eqn:Ha;
      simpl; [| discriminate].
    destruct (mapM MonthlyServiceAverages.monthly_average monthly)
      as [rest | e]; simpl; [| discriminate].
    intros [= <-]. simpl. f_equal.
    + now apply monthly_average_date.
    + now apply IH.
Qed.

End ScanProperties.

(** ** Monthly averages of a fresh instance *)

Section AverageProperties.
Context {float uuid : Type} {R : PyRuntime float uuid} {L : LocalTime float}.

Local Abbreviation Average := (MonthlyServiceAverage.t float).

Lemma init_attributes (details : SubscriptionDetailsForAggregation.t)
  (short_samples : list (Z * Z)) (obj : MonthlyServiceAverages.t float) :
  MonthlyServiceAverages.__init__ details short_samples = Ok obj ->
  MonthlyServiceAverages._subscription_details obj = details
  /\ MonthlyServiceAverages._calculate_daily_services short_samples
     = Ok (MonthlyServiceAverages._daily_services obj)
  /\ MonthlyServiceAverages._monthly_service_averages obj = [].
Proof.
  unfold MonthlyServiceAverages.__init__.
  destruct (MonthlyServiceAverages._calculate_daily_services short_samples)
    as [daily | e]; simpl; [| discriminate].
  intros [= <-]. simpl. auto.
Qed.

Lemma sorted_by_date (l : list Average) :
  StronglySorted dt_lt (map MonthlyServiceAverage.sample_date l) ->
  StronglySorted earlier l.
Proof.
  induction l as [| a l IH]; simpl; intros H; [constructor |].
  apply StronglySorted_inv in H as [Htl Hhd]. constructor.
  - now apply IH.
  - rewrite Forall_forall in *. intros b Hb. apply Hhd.
    now apply in_map.
Qed.

(** What [_calculate_averages] leaves in an instance that had no monthly
    averages yet. *)
Lemma calculate_averages_fresh (obj obj' : MonthlyServiceAverages.t float) :
  MonthlyServiceAverages._monthly_service_averages obj = [] ->
  MonthlyServiceAverages._calculate_averages obj = Ok obj' ->
  MonthlyServiceAverages._subscription_details obj'
  = MonthlyServiceAverages._subscription_details obj
  /\ (MonthlyServiceAverages._monthly_service_averages obj' = []
      \/ exists start end_ start_date end_date,
           SubscriptionDetailsForAggregation.start
             (MonthlyServiceAverages._subscription_details obj) = Some start
           /\ SubscriptionDetailsForAggregation.end_
                (MonthlyServiceAverages._subscription_details obj)
              = Some end_
           /\ fromtimestamp start = Ok start_date
           /\ fromtimestamp end_ = Ok end_date
           /\ (forall m,
                 In m (MonthlyServiceAverages._monthly_service_averages obj') ->
                 complete_month (replace_midnight start_date)
                   (replace_midnight end_date)
                   (MonthlyServiceAverage.sample_date m))
           /\ StronglySorted earlier
                (MonthlyServiceAverages._monthly_service_averages obj')).
Proof.
  intros Hfresh. unfold MonthlyServiceAverages._calculate_averages.
  destruct (MonthlyServiceAverages._daily_services obj) as [| d0 daily] eqn:Hd.
  { intros [= <-]. auto. }
  destruct (SubscriptionDetailsForAggregation.start
              (MonthlyServiceAverages._subscription_details obj))
    as [start |] eqn:Hs; [| intros [= <-]; auto].
  destruct (SubscriptionDetailsForAggregation.end_
              (MonthlyServiceAverages._subscription_details obj))
    as [end_ |] eqn:He; [| intros [= <-]; auto].
  destruct (fromtimestamp start) as [start_date | e] eqn:Hsd; cbn [bind];
    [| discriminate].
  destruct (add_one_month (replace_midnight start_date))
    as [month_end | e] eqn:Hme; cbn [bind]; [| discriminate].
  destruct (fromtimestamp end_) as [end_date | e] eqn:Hed; cbn [bind];
    [| discriminate].
  destruct (MonthlyServiceAverages.monthly_services_loop (d0 :: daily)
              (replace_midnight start_date) month_end
              (replace_midnight end_date) [])
    as [monthly | e] eqn:Hloop; cbn [bind]; [| discriminate].
  destruct (mapM MonthlyServiceAverages.monthly_average monthly)
    as [averages | e] eqn:Havg; cbn [bind]; [| discriminate].
  intros [= <-]. cbn [MonthlyServiceAverages._subscription_details
                      MonthlyServiceAverages._monthly_service_averages].
  split; [reflexivity |]. right.
  exists start, end_, start_date, end_date.
  repeat (split; [first [reflexivity | assumption] |]).
  rewrite Hfresh. cbn [app].
  assert (Hempty : forall k, In k (dict_keys (@nil (datetime * Counter))) ->
            complete_month (replace_midnight start_date)
              (replace_midnight end_date) k
            /\ dt_le k (replace_midnight start_date))
    by (intros k []).
  destruct (monthly_services_loop_invariant (replace_midnight start_date)
              (replace_midnight end_date) _ _ _ _ _ Hloop Hme
              (dt_le_refl _) Hempty (SSorted_nil dt_lt))
    as [Hcomplete Hsorted].
  apply averages_dates in Havg.
  split.
  - intros m Hm. apply Hcomplete. rewrite <- Havg. now apply in_map.
  - apply sorted_by_date. now rewrite Havg.
Qed.

(** C3: in an aggregation with subscription start and end present, every
    month that is averaged starts no earlier than the (midnight of the)
    subscription start, ends before [today] and no later than the
    (midnight of the) subscription end, hence starts before the
    subscription end.  A window whose end reaches or passes [today], and
    a window that starts at or after the subscription end, is not
    averaged. *)
Theorem only_complete_months_averaged
  (details : SubscriptionDetailsForAggregation.t)
  (short_samples : list (Z * Z)) (start end_ : Z)
  (obj obj' : MonthlyServiceAverages.t float) (m : Average) :
  SubscriptionDetailsForAggregation.start details = Some start ->
  SubscriptionDetailsForAggregation.end_ details = Some end_ ->
  MonthlyServiceAverages.__init__ details short_samples = Ok obj ->
  MonthlyServiceAverages._calculate_averages obj = Ok obj' ->
  In m (MonthlyServiceAverages._monthly_service_averages obj') ->
  exists start_date end_date month_end,
    fromtimestamp start = Ok start_date
    /\ fromtimestamp end_ = Ok end_date
    /\ add_one_month (MonthlyServiceAverage.sample_date m) = Ok month_end
    /\ dt_lt month_end today
    /\ dt_le month_end (replace_midnight end_date)
    /\ dt_lt (MonthlyServiceAverage.sample_date m)
         (replace_midnight end_date)
    /\ dt_le (replace_midnight start_date)
         (MonthlyServiceAverage.sample_date m).
Proof.
  intros Hstart Hend Hinit Hcalc Hm.
  apply init_attributes in Hinit as [Hdetails [_ Hfresh]].
  destruct (calculate_averages_fresh _ _ Hfresh Hcalc)
    as [_ [Hnil | [s [e [start_date [end_date
          [Hs [He [Hsd [Hed [Hcomplete _]]]]]]]]]]].
  - rewrite Hnil in Hm. contradiction.
  - rewrite Hdetails, Hstart in Hs. injection Hs as <-.
    rewrite Hdetails, Hend in He. injection He as <-.
    destruct (Hcomplete m Hm) as [Hge [month_end [Hnext [Htoday Hle]]]].
    exists start_date, end_date, month_end.
    repeat (split; [assumption |]).
    split; [| assumption].
    apply dt_lt_le_trans with month_end; [| assumption].
    now apply add_one_month_lt.
Qed.

Lemma first_exceeding_some (real_limit : Z) (averages : list Average)
  (m : Average) :
  MonthlyServiceAverages.first_exceeding real_limit averages = Some m ->
  exists before after,
    averages = (before ++ m :: after)%list
    /\ MonthlyServiceAverages.number_ge_int
         (MonthlyServiceAverage.num_services m) real_limit = true
    /\ forall m', In m' before ->
         MonthlyServiceAverages.number_ge_int
           (MonthlyServiceAverage.num_services m') real_limit = false.
Proof.
  induction averages as [| a averages IH]; simpl; [discriminate |].
  destruct (MonthlyServiceAverages.number_ge_int
              (MonthlyServiceAverage.num_services a) real_limit) eqn:Ha.
  - intros [= <-]. exists [], averages. simpl. repeat split; auto.
    intros m' [].
  - intros H. destruct (IH H) as [before [after [-> [Hm Hbefore]]]].
    exists (a :: before), after. repeat split; auto.
    intros m' [<- | Hin]; auto.
Qed.

Lemma first_exceeding_none (real_limit : Z) (averages : list Average) :
  MonthlyServiceAverages.first_exceeding real_limit averages = None ->
  forall m, In m averages ->
    MonthlyServiceAverages.number_ge_int
      (MonthlyServiceAverage.num_services m) real_limit = false.
Proof.
  induction averages as [| a averages IH]; simpl; [intros _ m [] |].
  destruct (MonthlyServiceAverages.number_ge_int
              (MonthlyServiceAverage.num_services a) real_limit) eqn:Ha;
    [discriminate |].
  intros H m [<- | Hin]; auto.
Qed.

Lemma sorted_earlier_in_prefix (before after : list Average) (m m' : Average) :
  StronglySorted earlier (before ++ m :: after)%list ->
  In m' (before ++ m :: after)%list -> earlier m' m -> In m' before.
Proof.
  induction before as [| b before IH]; simpl; intros Hsorted Hin Hlt.
  - apply StronglySorted_inv in Hsorted as [_ Hhd].
    destruct Hin as [<- | Hin].
    + now apply dt_lt_irrefl in Hlt.
    + rewrite Forall_forall in Hhd. specialize (Hhd _ Hin).
      unfold earlier in *. exfalso.
      apply (dt_lt_irrefl (MonthlyServiceAverage.sample_date m)).
      now apply dt_lt_trans with (MonthlyServiceAverage.sample_date m').
  - apply StronglySorted_inv in Hsorted as [Htl _].
    destruct Hin as [<- | Hin]; [now left | right]. now apply IH.
Qed.

(** Each run of [_calculate_averages] appends the months it computes to
    the months already held by the instance; a second run computes the
    same months from the unchanged attributes and appends them again. *)
Lemma calculate_averages_accumulates
  (obj obj1 obj2 : MonthlyServiceAverages.t float) :
  MonthlyServiceAverages._calculate_averages obj = Ok obj1 ->
  MonthlyServiceAverages._calculate_averages obj1 = Ok obj2 ->
  exists months,
    MonthlyServiceAverages._monthly_service_averages obj1
    = (MonthlyServiceAverages._monthly_service_averages obj ++ months)%list
    /\ MonthlyServiceAverages._monthly_service_averages obj2
       = (MonthlyServiceAverages._monthly_service_averages obj1
          ++ months)%list.
Proof.
  unfold MonthlyServiceAverages._calculate_averages.
  destruct obj as [details daily monthly].
  cbn [MonthlyServiceAverages._daily_services
       MonthlyServiceAverages._subscription_details
       MonthlyServiceAverages._monthly_service_averages].
  destruct daily as [| d0 daily].
  { intros H1. injection H1 as <-. simpl. intros H2. injection H2 as <-.
    exists []. simpl. now rewrite app_nil_r. }
  destruct (SubscriptionDetailsForAggregation.start details) as [start |]
    eqn:Hs.
  2:{ intros H1. injection H1 as <-.
      cbn [MonthlyServiceAverages._daily_services
           MonthlyServiceAverages._subscription_details].
      rewrite Hs. intros H2. injection H2 as <-.
      exists []. simpl. now rewrite app_nil_r. }
  destruct (SubscriptionDetailsForAggregation.end_ details) as [end_ |]
    eqn:He.
  2:{ intros H1. injection H1 as <-.
      cbn [MonthlyServiceAverages._daily_services
           MonthlyServiceAverages._subscription_details].
      rewrite Hs, He. intros H2. injection H2 as <-.
      exists []. simpl. now rewrite app_nil_r. }
  destruct (fromtimestamp start) as [start_date | e] eqn:Hsd; cbn [bind];
    [| discriminate].
  destruct (add_one_month (replace_midnight start_date))
    as [month_end | e] eqn:Hme; cbn [bind]; [| discriminate].
  destruct (fromtimestamp end_) as [end_date | e] eqn:Hed; cbn [bind];
    [| discriminate].
  destruct (MonthlyServiceAverages.monthly_services_loop (d0 :: daily)
              (replace_midnight start_date) month_end
              (replace_midnight end_date) [])
    as [monthly_services | e] eqn:Hloop; cbn [bind]; [| discriminate].
  destruct (mapM MonthlyServiceAverages.monthly_average monthly_services)
    as [averages | e] eqn:Havg; cbn [bind]; [| discriminate].
  intros H1. injection H1 as <-.
  cbn [MonthlyServiceAverages._daily_services
       MonthlyServiceAverages._subscription_details
       MonthlyServiceAverages._monthly_service_averages].
  rewrite Hs, He, Hsd. cbn [bind]. rewrite Hme. cbn [bind].
  rewrite Hed. cbn [bind]. rewrite Hloop. cbn [bind]. rewrite Havg.
  cbn [bind]. intros H2. injection H2 as <-.
  exists averages. split; reflexivity.
Qed.

End AverageProperties.

Section ExceededFirst.
Context {float uuid : Type} {R : PyRuntime float uuid} {L : LocalTime float}.

(** C2, amended: in an aggregation, [_get_subscription_exceeded_first]
    returns none when the limit is absent or unlimited.  For a numeric
    limit [n], and for a tagged limit such as the free-tier marker
    [("free", 3)] whose number is [n], it returns the month whose average
    is at least [n] while every chronologically earlier month is below
    [n], and none when every month is below [n]. *)
Theorem exceeded_first_earliest_month
  (details : SubscriptionDetailsForAggregation.t)
  (short_samples : list (Z * Z))
  (obj obj' : MonthlyServiceAverages.t float) :
  MonthlyServiceAverages.__init__ details short_samples = Ok obj ->
  MonthlyServiceAverages._calculate_averages obj = Ok obj' ->
  match SubscriptionDetailsForAggregation.limit details with
  | None | Some SubscriptionDetailsForAggregation.Unlimited =>
      MonthlyServiceAverages._get_subscription_exceeded_first obj' = None
  | Some (SubscriptionDetailsForAggregation.Int n)
  | Some (SubscriptionDetailsForAggregation.Tagged _ n) =>
      (exists m,
         In m (MonthlyServiceAverages._monthly_service_averages obj')
         /\ MonthlyServiceAverages.number_ge_int
              (MonthlyServiceAverage.num_services m) n = true
         /\ (forall m',
               In m' (MonthlyServiceAverages._monthly_service_averages obj') ->
               earlier m' m ->
               MonthlyServiceAverages.number_ge_int
                 (MonthlyServiceAverage.num_services m') n = false)
         /\ MonthlyServiceAverages._get_subscription_exceeded_first obj'
            = Some (MonthlyServiceAverage.for_report m))
      \/ ((forall m,
             In m (MonthlyServiceAverages._monthly_service_averages obj') ->
             MonthlyServiceAverages.number_ge_int
               (MonthlyServiceAverage.num_services m) n = false)
          /\ MonthlyServiceAverages._get_subscription_exceeded_first obj'
             = None)
  end.
Proof.
  intros Hinit Hcalc.
  apply init_attributes in Hinit as [Hdetails [_ Hfresh]].
  destruct (calculate_averages_fresh _ _ Hfresh Hcalc) as [Hsame Hmonths].
  rewrite Hdetails in Hsame.
  assert (Hsorted : StronglySorted earlier
            (MonthlyServiceAverages._monthly_service_averages obj')).
  { destruct Hmonths as [-> | [s [e [sd [ed [_ [_ [_ [_ [_ H]]]]]]]]]];
      [constructor | assumption]. }
  assert (Hnum : forall n,
    SubscriptionDetailsForAggregation.real_limit details = Some n ->
    (exists m,
       In m (MonthlyServiceAverages._monthly_service_averages obj')
       /\ MonthlyServiceAverages.number_ge_int
            (MonthlyServiceAverage.num_services m) n = true
       /\ (forall m',
             In m' (MonthlyServiceAverages._monthly_service_averages obj') ->
             earlier m' m ->
             MonthlyServiceAverages.number_ge_int
               (MonthlyServiceAverage.num_services m') n = false)
       /\ MonthlyServiceAverages._get_subscription_exceeded_first obj'
          = Some (MonthlyServiceAverage.for_report m))
    \/ ((forall m,
           In m (MonthlyServiceAverages._monthly_service_averages obj') ->
           MonthlyServiceAverages.number_ge_int
             (MonthlyServiceAverage.num_services m) n = false)
        /\ MonthlyServiceAverages._get_subscription_exceeded_first obj'
           = None)).
  { intros n Hn.
    unfold MonthlyServiceAverages._get_subscription_exceeded_first.
    rewrite Hsame, Hn.
    destruct (MonthlyServiceAverages.first_exceeding n
                (MonthlyServiceAverages._monthly_service_averages obj'))
      as [m |] eqn:Hfirst.
    - left. exists m.
      destruct (first_exceeding_some _ _ _ Hfirst)
        as [before [after [Heq [Hm Hbefore]]]].
      rewrite Heq in Hsorted |- *.
      split; [apply in_or_app; right; now left |].
      split; [assumption |]. split; [| reflexivity].
      intros m' Hin Hlt. apply Hbefore.
      now apply (sorted_earlier_in_prefix before after m m').
    - right. split; [| reflexivity].
      now apply first_exceeding_none. }
  unfold SubscriptionDetailsForAggregation.real_limit in Hnum.
  destruct (SubscriptionDetailsForAggregation.limit details) as [[| tag n | n] |]
    eqn:Hlimit.
  - unfold MonthlyServiceAverages._get_subscription_exceeded_first,
      SubscriptionDetailsForAggregation.real_limit.
    now rewrite Hsame, Hlimit.
  - now apply Hnum.
  - now apply Hnum.
  - unfold MonthlyServiceAverages._get_subscription_exceeded_first,
      SubscriptionDetailsForAggregation.real_limit.
    now rewrite Hsame, Hlimit.
Qed.

End ExceededFirst.

(** ** Evaluations on the example inputs *)

(** C2 as stated fails for the free-tier marker: with the limit
    [("free", 3)] the first month whose average is at least 3 is
    returned. *)
Lemma exceeded_first_free_tier_counterexample :
  SubscriptionDetailsForAggregation.is_free
    (subscription_2024 (Some SubscriptionDetailsForAggregation.free)) = true
  /\ exists obj obj',
       MonthlyServiceAverages.__init__ (L := clock_2024_12_15)
         (subscription_2024 (Some SubscriptionDetailsForAggregation.free))
         gap_samples = Ok obj
       /\ MonthlyServiceAverages._calculate_averages (R := QRuntime)
            (L := clock_2024_12_15) obj = Ok obj'
       /\ MonthlyServiceAverages._get_subscription_exceeded_first
            (L := clock_2024_12_15) obj'
          = Some (MonthlyServiceAverage.for_report (L := clock_2024_12_15)
                    (month_average 2024 1 1 5))
       /\ MonthlyServiceAverages._get_subscription_exceeded_first
            (L := clock_2024_12_15) obj' <> None.
Proof.
  split; [reflexivity |].
  eexists. eexists.
  split; [vm_compute; reflexivity |].
  split; [vm_compute; reflexivity |].
  split; [vm_compute; reflexivity |].
  vm_compute. discriminate.
Qed.

Lemma exceeded_first_earliest_month_witness :
  exists m,
    MonthlyServiceAverages.number_ge_int (R := QRuntime)
      (MonthlyServiceAverage.num_services m) 10 = true
    /\ MonthlyServiceAverages._get_subscription_exceeded_first
         (L := clock_2024_12_15)
         (MonthlyServiceAverages.Build
            (subscription_2024 (Some (SubscriptionDetailsForAggregation.Int 10)))
            [ day_count 2024 1 5 5; day_count 2024 4 10 100;
              day_count 2024 4 11 100; day_count 2024 4 12 20 ]
            [ month_average 2024 1 1 5; month_average 2024 4 1 20 ])
       = Some (MonthlyServiceAverage.for_report (L := clock_2024_12_15) m).
Proof.
  assert (Hinit :
    MonthlyServiceAverages.__init__ (L := clock_2024_12_15)
      (subscription_2024 (Some (SubscriptionDetailsForAggregation.Int 10)))
      gap_samples
    = Ok (MonthlyServiceAverages.Build
            (subscription_2024 (Some (SubscriptionDetailsForAggregation.Int 10)))
            [ day_count 2024 1 5 5; day_count 2024 4 10 100;
              day_count 2024 4 11 100; day_count 2024 4 12 20 ] []))
    by (vm_compute; reflexivity).
  assert (Hcalc :
    MonthlyServiceAverages._calculate_averages (R := QRuntime)
      (L := clock_2024_12_15)
      (MonthlyServiceAverages.Build
         (subscription_2024 (Some (SubscriptionDetailsForAggregation.Int 10)))
         [ day_count 2024 1 5 5; day_count 2024 4 10 100;
           day_count 2024 4 11 100; day_count 2024 4 12 20 ] [])
    = Ok (MonthlyServiceAverages.Build
            (subscription_2024 (Some (SubscriptionDetailsForAggregation.Int 10)))
            [ day_count 2024 1 5 5; day_count 2024 4 10 100;
              day_count 2024 4 11 100; day_count 2024 4 12 20 ]
            [ month_average 2024 1 1 5; month_average 2024 4 1 20 ]))
    by (vm_compute; reflexivity).
  pose proof (exceeded_first_earliest_month _ _ _ _ Hinit Hcalc) as H.
  cbn [subscription_2024 SubscriptionDetailsForAggregation.limit] in H.
  destruct H as [[m [_ [Hge [_ Hres]]]] | [_ Hnone]].
  - exists m. split; assumption.
  - vm_compute in Hnone. discriminate Hnone.
Defined.

Lemma only_complete_months_averaged_witness :
  exists start_date end_date month_end,
    fromtimestamp (L := clock_2024_12_15) (midnight 2024 1 1) = Ok start_date
    /\ fromtimestamp (L := clock_2024_12_15) (midnight 2025 1 1)
       = Ok end_date
    /\ add_one_month (datetime_ymd 2024 4 1) = Ok month_end
    /\ dt_lt month_end (today (LocalTime := clock_2024_12_15))
    /\ dt_le month_end (replace_midnight end_date)
    /\ dt_lt (datetime_ymd 2024 4 1) (replace_midnight end_date)
    /\ dt_le (replace_midnight start_date) (datetime_ymd 2024 4 1).
Proof.
  apply (only_complete_months_averaged (R := QRuntime)
           (L := clock_2024_12_15) (subscription_2024 None) gap_samples
           (midnight 2024 1 1) (midnight 2025 1 1)
           (MonthlyServiceAverages.Build (subscription_2024 None)
              [ day_count 2024 1 5 5; day_count 2024 4 10 100;
                day_count 2024 4 11 100; day_count 2024 4 12 20 ] [])
           (MonthlyServiceAverages.Build (subscription_2024 None)
              [ day_count 2024 1 5 5; day_count 2024 4 10 100;
                day_count 2024 4 11 100; day_count 2024 4 12 20 ]
              [ month_average 2024 1 1 5; month_average 2024 4 1 20 ])
           (month_average 2024 4 1 20)).
  - reflexivity.
  - reflexivity.
  - vm_compute. reflexivity.
  - vm_compute. reflexivity.
  - simpl. right. left. reflexivity.
Defined.

(** C1 fails on the code.  The subscription runs from 2024-01-01 to
    2025-01-01 and today is 2024-12-15; there is a daily bucket on
    2024-01-05 and then on 2024-04-10, 2024-04-11 and 2024-04-12.  The
    window [2024-04-01, 2024-05-01) is complete and is averaged, and the
    three April days lie in it, but the scan moves the window by one month
    per day: on 04-10 it is at February, on 04-11 at March, and only
    04-12 is counted.  April is reported with average 20 (one day) where
    its three days average 220/3. *)
Theorem gap_days_are_dropped :
  exists obj obj',
    MonthlyServiceAverages.__init__ (L := clock_2024_12_15)
      (subscription_2024 None) gap_samples = Ok obj
    /\ MonthlyServiceAverages._daily_services obj
       = [ day_count 2024 1 5 5; day_count 2024 4 10 100;
           day_count 2024 4 11 100; day_count 2024 4 12 20 ]
    /\ MonthlyServiceAverages._calculate_averages (R := QRuntime)
         (L := clock_2024_12_15) obj = Ok obj'
    /\ MonthlyServiceAverages._monthly_service_averages obj'
       = [ month_average 2024 1 1 5; month_average 2024 4 1 20 ]
    /\ complete_month (L := clock_2024_12_15) (datetime_ymd 2024 1 1)
         (datetime_ymd 2025 1 1) (datetime_ymd 2024 4 1)
    /\ add_one_month (datetime_ymd 2024 4 1) = Ok (datetime_ymd 2024 5 1)
    /\ Forall
         (fun d => dt_le (datetime_ymd 2024 4 1) d
                   /\ dt_lt d (datetime_ymd 2024 5 1))
         [ datetime_ymd 2024 4 10; datetime_ymd 2024 4 11;
           datetime_ymd 2024 4 12 ]
    /\ ~ (20 == (100 + 100 + 20) / 3)%Q.
Proof.
  eexists. eexists.
  split; [vm_compute; reflexivity |].
  split; [reflexivity |].
  split; [vm_compute; reflexivity |].
  split; [reflexivity |].
  split.
  { split; [vm_compute; discriminate |].
    exists (datetime_ymd 2024 5 1).
    split; [reflexivity |].
    split; [reflexivity | vm_compute; discriminate]. }
  split; [reflexivity |].
  split.
  { repeat constructor; vm_compute; discriminate. }
  vm_compute. discriminate.
Qed.

(** C8 fails on the code: [_calculate_averages] appends to
    [_monthly_service_averages] and nothing empties that list, so a
    second [get_aggregation] on the same instance reports every month
    twice. *)
Theorem second_aggregation_repeats_months :
  exists obj first obj1 second obj2,
    MonthlyServiceAverages.__init__ (L := clock_2024_12_15)
      (subscription_2024 None) gap_samples = Ok obj
    /\ MonthlyServiceAverages.get_aggregation (R := QRuntime)
         (L := clock_2024_12_15) obj = Ok (first, obj1)
    /\ MonthlyServiceAverages.get_aggregation (R := QRuntime)
         (L := clock_2024_12_15) obj1 = Ok (second, obj2)
    /\ monthly_service_averages first
       = map (MonthlyServiceAverage.for_report (L := clock_2024_12_15))
           [ month_average 2024 1 1 5; month_average 2024 4 1 20 ]
    /\ monthly_service_averages second
       = map (MonthlyServiceAverage.for_report (L := clock_2024_12_15))
           [ month_average 2024 1 1 5; month_average 2024 4 1 20;
             month_average 2024 1 1 5; month_average 2024 4 1 20 ]
    /\ first <> second.
Proof.
  do 5 eexists.
  split; [vm_compute; reflexivity |].
  split; [vm_compute; reflexivity |].
  split; [vm_compute; reflexivity |].
  split; [vm_compute; reflexivity |].
  split; [vm_compute; reflexivity |].
  intros Heq. apply (f_equal (fun r => List.length (monthly_service_averages r))) in Heq.
  vm_compute in Heq. discriminate Heq.
Qed.

(** ** Sorting and truncating the daily buckets *)

Section SortedItems.
Context {V : Type}.

Lemma StronglySorted_map {A B : Type} (R : B -> B -> Prop) (f : A -> B)
  (l : list A) :
  StronglySorted (fun a b => R (f a) (f b)) l ->
  StronglySorted R (map f l).
Proof.
  induction 1 as [| a l Htl IH Hhd]; simpl; constructor; [assumption |].
  rewrite Forall_forall in *. intros b Hb.
  apply in_map_iff in Hb as [x [<- Hx]]. now apply Hhd.
Qed.

Lemma insert_item_in (x p : datetime * V) (l : list (datetime * V)) :
  In p (MonthlyServiceAverages.insert_item x l) <-> p = x \/ In p l.
Proof.
  induction l as [| y l IH]; simpl.
  - intuition congruence.
  - destruct (dt_leb (fst x) (fst y)); simpl.
    + intuition congruence.
    + rewrite IH. intuition congruence.
Qed.

Lemma insert_item_sorted (x : datetime * V) (l : list (datetime * V)) :
  StronglySorted key_lt l ->
  ~ In (fst x) (map fst l) ->
  StronglySorted key_lt (MonthlyServiceAverages.insert_item x l).
Proof.
  induction l as [| y l IH]; simpl; intros Hsorted Hnotin.
  - repeat constructor.
  - apply StronglySorted_inv in Hsorted as [Htl Hhd].
    destruct (dt_leb (fst x) (fst y)) eqn:Hxy.
    + assert (Hlt : dt_lt (fst x) (fst y)).
      { apply dt_leb_le in Hxy. apply dt_le_lt_or_eq in Hxy as [H | H];
          [assumption |]. elim Hnotin. now left. }
      constructor; [now constructor |].
      constructor; [assumption |].
      rewrite Forall_forall in *. intros z Hz.
      unfold key_lt in *. apply dt_lt_trans with (fst y); auto.
    + apply dt_not_le_lt in Hxy.
      constructor.
      * apply IH; [assumption |]. intros H. apply Hnotin. now right.
      * rewrite Forall_forall in *. intros z Hz.
        apply insert_item_in in Hz as [-> | Hz]; [assumption | auto].
Qed.

Lemma sorted_items_in (d : dict datetime V) (p : datetime * V) :
  In p (MonthlyServiceAverages.sorted_items d) <-> In p d.
Proof.
  unfold MonthlyServiceAverages.sorted_items.
  induction d as [| x d IH]; simpl; [tauto |].
  rewrite insert_item_in, IH. intuition congruence.
Qed.

Lemma sorted_items_sorted (d : dict datetime V) :
  NoDup (dict_keys d) ->
  StronglySorted key_lt (MonthlyServiceAverages.sorted_items d).
Proof.
  unfold MonthlyServiceAverages.sorted_items, dict_keys.
  induction d as [| x d IH]; simpl; intros Hnd; [constructor |].
  apply NoDup_cons_iff in Hnd as [Hnotin Hnd].
  apply insert_item_sorted; [exact (IH Hnd) |].
  intros Hin. apply Hnotin.
  apply in_map_iff in Hin as [p [Hp Hin]].
  apply (sorted_items_in d p) in Hin.
  rewrite <- Hp. now apply in_map.
Qed.

Lemma sorted_items_keys (d : dict datetime V) (k : datetime) :
  In k (map fst (MonthlyServiceAverages.sorted_items d))
  <-> In k (dict_keys d).
Proof.
  unfold dict_keys. rewrite !in_map_iff.
  split; intros [p [Hp Hin]]; exists p; split; auto;
    now apply sorted_items_in.
Qed.

End SortedItems.

Lemma last_n_map {A B : Type} (f : A -> B) (n : nat) (l : list A) :
  map f (MonthlyServiceAverages.last_n n l)
  = MonthlyServiceAverages.last_n n (map f l).
Proof.
  unfold MonthlyServiceAverages.last_n.
  now rewrite skipn_map, length_map.
Qed.

Lemma last_n_in {A : Type} (n : nat) (l : list A) (x : A) :
  In x (MonthlyServiceAverages.last_n n l) -> In x l.
Proof.
  unfold MonthlyServiceAverages.last_n. intros H.
  rewrite <- (firstn_skipn (List.length l - n) l).
  apply in_or_app. now right.
Qed.

Lemma last_n_length {A : Type} (n : nat) (l : list A) :
  List.length (MonthlyServiceAverages.last_n n l)
  = Nat.min n (List.length l).
Proof.
  unfold MonthlyServiceAverages.last_n. rewrite length_skipn. lia.
Qed.

(** ** Daily bucketing *)

Section DailyProperties.
Context {float : Type} {L : LocalTime float}.

Lemma sample_day_ok (t : Z) (dt : datetime) :
  fromtimestamp t = Ok dt ->
  sample_day t = Some (datetime_ymd (year dt) (month dt) (day dt)).
Proof.
  unfold sample_day. now intros ->.
Qed.

(** The total of a day in a bucket dictionary. *)
Local Abbreviation bucket_total daily d :=
  (counter_get (dict_get_default dt_eqb daily d []) "num_services").

Lemma daily_services_loop_spec (short_samples : list (Z * Z)) :
  forall daily : dict datetime Counter,
    convertible short_samples ->
    exists res,
      MonthlyServiceAverages.daily_services_loop short_samples daily = Ok res
      /\ (forall d,
            In d (dict_keys res)
            <-> In d (dict_keys daily)
                \/ exists t n, In (t, n) short_samples
                               /\ sample_day t = Some d)
      /\ (NoDup (dict_keys daily) -> NoDup (dict_keys res))
      /\ (forall d,
            bucket_total res d
            = bucket_total daily d + day_total d short_samples).
Proof.
  induction short_samples as [| [t n] rest IH]; intros daily Hconv.
  - exists daily. simpl. repeat split; auto.
    + intros [H | [t [n [[] _]]]]. exact H.
    + intros d. lia.
  - apply Forall_cons_iff in Hconv as [[dt Hdt] Hconv].
    simpl in Hdt. cbn [MonthlyServiceAverages.daily_services_loop].
    rewrite Hdt. cbn [bind].
    pose proof (sample_day_ok t dt Hdt) as Hday.
    set (key := datetime_ymd (year dt) (month dt) (day dt)) in *.
    set (daily' := dict_setdefault_update dt_eqb daily key []
                     (fun counter => counter_update counter "num_services" n)).
    destruct (IH daily' Hconv) as [res [Hres [Hkeys [Hnodup Htotal]]]].
    exists res. split; [exact Hres |]. split; [| split].
    + intros d. rewrite Hkeys. unfold daily'.
      rewrite (setdefault_update_keys_in dt_eqb dt_eqb_eq).
      split.
      * intros [[H | ->] | [t' [n' [Hin Hd]]]].
        -- now left.
        -- right. exists t, n. split; [now left | assumption].
        -- right. exists t', n'. split; [now right | assumption].
      * intros [H | [t' [n' [[[= <- <-] | Hin] Hd]]]].
        -- left. now left.
        -- left. right. congruence.
        -- right. now exists t', n'.
    + intros Hnd. apply Hnodup. unfold daily'.
      now apply (setdefault_update_keys_nodup dt_eqb dt_eqb_eq).
    + intros d. rewrite Htotal.
      cbn [day_total]. rewrite Hday.
      destruct (dt_eqb key d) eqn:Hkd.
      * apply dt_eqb_eq in Hkd. subst d.
        unfold daily', dict_get_default at 1.
        rewrite (setdefault_update_get dt_eqb dt_eqb_eq).
        rewrite counter_get_update. lia.
      * apply dt_eqb_neq in Hkd.
        unfold daily', dict_get_default at 1.
        rewrite (setdefault_update_get_other dt_eqb dt_eqb_eq) by assumption.
        fold (dict_get_default dt_eqb daily d []). lia.
Qed.

(** A sample time outside the range of [datetime.fromtimestamp] makes
    the bucketing raise. *)
Lemma daily_services_loop_out_of_range (short_samples : list (Z * Z)) :
  forall daily : dict datetime Counter,
    ~ convertible short_samples ->
    exists e,
      MonthlyServiceAverages.daily_services_loop short_samples daily
      = Raise e.
Proof.
  induction short_samples as [| [t n] rest IH]; intros daily Hnot.
  - elim Hnot. constructor.
  - cbn [MonthlyServiceAverages.daily_services_loop].
    destruct (fromtimestamp t) as [dt | e] eqn:Hdt; cbn [bind].
    + apply IH. intros Hrest. apply Hnot. constructor; [| assumption].
      now exists dt.
    + now exists e.
Qed.

(** C6: when every sample time is convertible, daily bucketing returns
    one entry per calendar day (the midnight that starts it), holding the
    sum of the counts of the samples of that day; of the distinct days of
    the input, taken in ascending order, it keeps the last 400, in that
    order.  500 distinct days give the 400 most recent. *)
Theorem daily_bucketing_spec (short_samples : list (Z * Z)) :
  convertible short_samples ->
  exists daily days,
    MonthlyServiceAverages._calculate_daily_services short_samples = Ok daily
    /\ StronglySorted dt_lt days
    /\ (forall d,
          In d days
          <-> exists t n, In (t, n) short_samples /\ sample_day t = Some d)
    /\ map MonthlyServiceAverage.sample_date daily
       = MonthlyServiceAverages.last_n 400 days
    /\ (forall a,
          In a daily ->
          MonthlyServiceAverage.num_services a
          = NInt (day_total (MonthlyServiceAverage.sample_date a)
                    short_samples))
    /\ List.length daily = Nat.min 400 (List.length days)
    /\ (List.length days = 500%nat ->
        map MonthlyServiceAverage.sample_date daily = skipn 100 days
        /\ List.length daily = 400%nat).
Proof.
  intros Hconv.
  destruct (daily_services_loop_spec short_samples [] Hconv)
    as [res [Hres [Hkeys [Hnodup Htotal]]]].
  specialize (Hnodup (NoDup_nil _)).
  unfold MonthlyServiceAverages._calculate_daily_services.
  rewrite Hres. cbn [bind].
  eexists. exists (map fst (MonthlyServiceAverages.sorted_items res)).
  split; [reflexivity |].
  assert (Hdates :
    map MonthlyServiceAverage.sample_date
      (map (fun '(sample_date, counter) =>
              MonthlyServiceAverage.Build (float := float) sample_date
                (NInt (counter_get counter "num_services")))
         (MonthlyServiceAverages.last_n 400
            (MonthlyServiceAverages.sorted_items res)))
    = MonthlyServiceAverages.last_n 400
        (map fst (MonthlyServiceAverages.sorted_items res))).
  { rewrite <- last_n_map, map_map. apply map_ext. now intros [k c]. }
  assert (Hlen :
    List.length
      (map (fun '(sample_date, counter) =>
              MonthlyServiceAverage.Build (float := float) sample_date
                (NInt (counter_get counter "num_services")))
         (MonthlyServiceAverages.last_n 400
            (MonthlyServiceAverages.sorted_items res)))
    = Nat.min 400
        (List.length (map fst (MonthlyServiceAverages.sorted_items res)))).
  { now rewrite !length_map, last_n_length. }
  split; [| split; [| split; [| split; [| split]]]].
  - apply StronglySorted_map. now apply sorted_items_sorted.
  - intros d. rewrite sorted_items_keys, Hkeys. simpl. tauto.
  - exact Hdates.
  - intros a Ha. apply in_map_iff in Ha as [[k c] [<- Hin]].
    apply last_n_in in Hin.
    apply (proj1 (sorted_items_in res (k, c))) in Hin.
    cbn [MonthlyServiceAverage.sample_date MonthlyServiceAverage.num_services].
    f_equal. rewrite <- (Z.add_0_l (day_total k short_samples)).
    change 0 with (bucket_total (@nil (datetime * Counter)) k).
    rewrite <- Htotal. unfold dict_get_default.
    now rewrite (dict_get_in dt_eqb dt_eqb_eq res k c Hnodup Hin).
  - exact Hlen.
  - intros H500. split.
    + rewrite Hdates. unfold MonthlyServiceAverages.last_n.
      now rewrite H500.
    + rewrite Hlen, H500. reflexivity.
Qed.

End DailyProperties.

Lemma two_day_samples_convertible :
  convertible (L := clock_2024_12_15) two_day_samples.
Proof.
  repeat constructor; eexists; vm_compute; reflexivity.
Defined.

Lemma daily_bucketing_spec_witness :
  convertible (L := clock_2024_12_15) two_day_samples
  /\ exists daily days,
       MonthlyServiceAverages._calculate_daily_services
         (L := clock_2024_12_15) two_day_samples = Ok daily
       /\ StronglySorted dt_lt days
       /\ (forall d,
             In d days
             <-> exists t n, In (t, n) two_day_samples
                             /\ sample_day (L := clock_2024_12_15) t = Some d)
       /\ map MonthlyServiceAverage.sample_date daily
          = MonthlyServiceAverages.last_n 400 days
       /\ (forall a,
             In a daily ->
             MonthlyServiceAverage.num_services a
             = NInt (day_total (L := clock_2024_12_15)
                       (MonthlyServiceAverage.sample_date a) two_day_samples))
       /\ List.length daily = Nat.min 400 (List.length days)
       /\ (List.length days = 500%nat ->
           map MonthlyServiceAverage.sample_date daily = skipn 100 days
           /\ List.length daily = 400%nat).
Proof.
  split; [exact two_day_samples_convertible |].
  exact (daily_bucketing_spec (L := clock_2024_12_15) two_day_samples
           two_day_samples_convertible).
Defined.

(** Samples [(day1, 5), (day1, 3), (day2, 10)] give
    [[(day1, 8), (day2, 10)]]. *)
Example two_day_buckets :
  MonthlyServiceAverages._calculate_daily_services (L := clock_2024_12_15)
    two_day_samples
  = Ok [day_count 2024 1 5 8; day_count 2024 1 6 10].
Proof. vm_compute. reflexivity. Qed.

(** 500 distinct days: the first 100 are dropped, the 400 most recent
    kept in ascending order. *)
Example five_hundred_days_keep_400 :
  exists daily,
    MonthlyServiceAverages._calculate_daily_services (L := clock_2024_12_15)
      five_hundred_days = Ok daily
    /\ List.length daily = 400%nat
    /\ hd_error daily = Some (day_count 2023 4 11 100)
    /\ hd_error (rev daily) = Some (day_count 2024 5 14 499).
Proof.
  eexists. split; [vm_compute; reflexivity |].
  repeat split; vm_compute; reflexivity.
Qed.

(* ================================================================= *)
(** * Further properties *)

(** ** Subscription limits: classification and round trips *)

Section LimitClassification.
Context {float uuid : Type} {R : PyRuntime float uuid}.

(** The type tag names survive a round trip, and nothing else parses. *)
Theorem limit_type_parse_name (s : string)
  (t : SubscriptionDetailsLimitType.t) :
  (SubscriptionDetailsLimitType.parse s = Ok t
   <-> SubscriptionDetailsLimitType.name t = s)
  /\ ((forall t', SubscriptionDetailsLimitType.name t' <> s) ->
      SubscriptionDetailsLimitType.parse s = Raise ValueError).
Proof.
  unfold SubscriptionDetailsLimitType.parse. split.
  - split.
    + destruct (String.eqb_spec s "fixed") as [-> | H1];
        [now intros [= <-] |].
      destruct (String.eqb_spec s "unlimited") as [-> | H2];
        [now intros [= <-] |].
      destruct (String.eqb_spec s "custom") as [-> | H3];
        [now intros [= <-] | discriminate].
    + intros <-. now destruct t.
  - intros Hnone.
    destruct (String.eqb_spec s "fixed") as [-> | H1];
      [now elim (Hnone SubscriptionDetailsLimitType.fixed) |].
    destruct (String.eqb_spec s "unlimited") as [-> | H2];
      [now elim (Hnone SubscriptionDetailsLimitType.unlimited) |].
    destruct (String.eqb_spec s "custom") as [-> | H3];
      [now elim (Hnone SubscriptionDetailsLimitType.custom) | reflexivity].
Qed.

(** [_parse] on an integer value, in one equation. *)
Lemma _parse_int_value (raw_type : pyobj float) (n : Z) :
  SubscriptionDetailsLimit._parse raw_type (PInt n)
  = Ok (if py_eq_str raw_type "2000000+" || py_eq_str raw_type "unlimited"
           || (n =? -1)
        then SubscriptionDetailsLimit.Build
               SubscriptionDetailsLimitType.unlimited (-1)
        else if str_in (int_str n) _SUBSCRIPTION_LIMITS_FIXED
        then SubscriptionDetailsLimit.Build
               SubscriptionDetailsLimitType.fixed n
        else SubscriptionDetailsLimit.Build
               SubscriptionDetailsLimitType.custom n).
Proof.
  unfold SubscriptionDetailsLimit._parse.
  destruct (py_eq_str raw_type "2000000+" || py_eq_str raw_type "unlimited");
    cbn [bind py_int py_str orb]; [reflexivity |].
  destruct (n =? -1); cbn [bind]; [reflexivity |].
  destruct (str_in (int_str n) _SUBSCRIPTION_LIMITS_FIXED); reflexivity.
Qed.

Lemma str_in_fixed_tier (n : Z) :
  str_in (int_str n) _SUBSCRIPTION_LIMITS_FIXED = true
  <-> In n fixed_tier_values.
Proof.
  rewrite str_in_In. apply fixed_tier_values_spec.
Qed.

(** [str] of an [int] is never one of the two tags of an unlimited
    limit. *)
Lemma int_str_not_unlimited_tag (n : Z) :
  py_eq_str (float := float) (PStr (int_str n)) "2000000+"
  || py_eq_str (float := float) (PStr (int_str n)) "unlimited" = false.
Proof.
  cbn [py_eq_str].
  destruct (String.eqb_spec (int_str n) "2000000+") as [H | _].
  { apply (f_equal NilZero.int_of_string) in H.
    rewrite int_of_string_int_str in H. discriminate H. }
  destruct (String.eqb_spec (int_str n) "unlimited") as [H | _];
    [| reflexivity].
  apply (f_equal NilZero.int_of_string) in H.
  rewrite int_of_string_int_str in H. discriminate H.
Qed.

(** An integer limit is classified by its value alone.  In the pair form
    the tag matters only when it is ["2000000+"] or ["unlimited"]: the
    tags ["fixed"] and ["custom"] are not read, so [("custom", 3000)] is
    a fixed limit and [("fixed", 4500)] a custom one.  A bare integer
    never fails to parse. *)
Theorem int_limit_classified_by_value (raw_type : pyobj float) (n : Z) :
  let unlimited_tag :=
    py_eq_str raw_type "2000000+" || py_eq_str raw_type "unlimited" in
  let unlimited :=
    SubscriptionDetailsLimit.Build SubscriptionDetailsLimitType.unlimited (-1)
  in
  let by_value :=
    if n =? -1 then unlimited
    else if existsb (Z.eqb n) fixed_tier_values
    then SubscriptionDetailsLimit.Build SubscriptionDetailsLimitType.fixed n
    else SubscriptionDetailsLimit.Build SubscriptionDetailsLimitType.custom n
  in
  SubscriptionDetailsLimit.parse (PTuple [raw_type; PInt n])
  = Ok (if unlimited_tag then unlimited else by_value)
  /\ SubscriptionDetailsLimit.parse (PList [raw_type; PInt n])
     = Ok (if unlimited_tag then unlimited else by_value)
  /\ SubscriptionDetailsLimit.parse (PInt n) = Ok by_value.
Proof.
  intros unlimited_tag unlimited by_value.
  assert (Htier : str_in (int_str n) _SUBSCRIPTION_LIMITS_FIXED
                  = existsb (Z.eqb n) fixed_tier_values).
  { destruct (existsb (Z.eqb n) fixed_tier_values) eqn:He.
    - apply str_in_fixed_tier. apply existsb_exists in He as [x [Hx Heq]].
      apply Z.eqb_eq in Heq. now subst.
    - apply str_in_not_In. rewrite fixed_tier_values_spec. intros Hin.
      assert (H : existsb (Z.eqb n) fixed_tier_values = true).
      { apply existsb_exists. exists n. split; [assumption | apply Z.eqb_refl]. }
      congruence. }
  assert (Hpair : SubscriptionDetailsLimit._parse raw_type (PInt n)
                  = Ok (if unlimited_tag then unlimited else by_value)).
  { rewrite _parse_int_value. fold unlimited_tag. fold unlimited.
    rewrite Htier. unfold by_value.
    destruct unlimited_tag; cbn [orb]; [reflexivity |].
    destruct (n =? -1); reflexivity. }
  split; [exact Hpair |]. split; [exact Hpair |].
  cbn [SubscriptionDetailsLimit.parse py_str].
  rewrite _parse_int_value, int_str_not_unlimited_tag, Htier.
  cbn [orb]. reflexivity.
Qed.

(** Whatever is parsed, the result is of type unlimited exactly when its
    value is -1. *)
Theorem parsed_limit_unlimited_iff (raw_limit : pyobj float)
  (l : SubscriptionDetailsLimit.t) :
  SubscriptionDetailsLimit.parse raw_limit = Ok l ->
  (SubscriptionDetailsLimit.type_ l = SubscriptionDetailsLimitType.unlimited
   <-> SubscriptionDetailsLimit.value l = -1).
Proof.
  assert (H : forall a b,
    SubscriptionDetailsLimit._parse a b = Ok l ->
    (SubscriptionDetailsLimit.type_ l = SubscriptionDetailsLimitType.unlimited
     <-> SubscriptionDetailsLimit.value l = -1)).
  { intros a b. unfold SubscriptionDetailsLimit._parse.
    destruct (py_eq_str a "2000000+" || py_eq_str a "unlimited");
      cbn [bind].
    { intros [= <-]. simpl. tauto. }
    destruct (py_int b) as [n | e]; cbn [bind]; [| discriminate].
    destruct (Z.eqb_spec n (-1)) as [-> | Hn].
    { intros [= <-]. simpl. tauto. }
    destruct (str_in (py_str b) _SUBSCRIPTION_LIMITS_FIXED);
      intros [= <-]; simpl; split; congruence. }
  destruct raw_limit as [| b | n | x | s | l0 | l0 | d];
    cbn [SubscriptionDetailsLimit.parse]; try discriminate; try apply H.
  - destruct l0 as [| a [| b [| c l0]]]; try discriminate. apply H.
  - destruct l0 as [| a [| b [| c l0]]]; try discriminate. apply H.
Qed.

(** The report form of a limit parses back to the limit. *)
Lemma report_form_parses (l : SubscriptionDetailsLimit.t) :
  limit_variant l ->
  SubscriptionDetailsLimit.parse (SubscriptionDetailsLimit.for_report l)
  = Ok l.
Proof.
  destruct l as [ty v]. unfold limit_variant.
  cbn [SubscriptionDetailsLimit.type_ SubscriptionDetailsLimit.value].
  unfold SubscriptionDetailsLimit.for_report.
  cbn [SubscriptionDetailsLimit.type_ SubscriptionDetailsLimit.value
       SubscriptionDetailsLimit.parse].
  rewrite _parse_int_value.
  destruct ty; cbn [SubscriptionDetailsLimitType.name py_eq_str String.eqb
                    Ascii.eqb Bool.eqb orb]; intros H.
  - assert (Hv : (v =? -1) = false).
    { apply Z.eqb_neq. intros ->. apply fixed_tier_values_spec in H.
      simpl in H. repeat (destruct H as [H | H]; [discriminate H |]).
      contradiction. }
    rewrite Hv. apply str_in_In in H. now rewrite H.
  - now subst v.
  - destruct H as [Hpos Hout].
    assert (Hv : (v =? -1) = false) by (apply Z.eqb_neq; lia).
    rewrite Hv. apply str_in_not_In in Hout. now rewrite Hout.
Qed.

(** The configuration form of a limit, read by [parse]. *)
Lemma config_form_parses (l : SubscriptionDetailsLimit.t) :
  limit_variant l ->
  str_int (int_str (SubscriptionDetailsLimit.value l))
  = Ok (SubscriptionDetailsLimit.value l) ->
  SubscriptionDetailsLimit.parse (SubscriptionDetailsLimit.for_config l)
  = Ok l.
Proof.
  destruct l as [ty v]. unfold limit_variant.
  cbn [SubscriptionDetailsLimit.type_ SubscriptionDetailsLimit.value].
  unfold SubscriptionDetailsLimit.for_config.
  cbn [SubscriptionDetailsLimit.type_ SubscriptionDetailsLimit.value].
  destruct ty; intros H Hint.
  - cbn [SubscriptionDetailsLimit.parse py_str].
    unfold SubscriptionDetailsLimit._parse.
    rewrite int_str_not_unlimited_tag. cbn [py_int py_str bind].
    rewrite Hint. cbn [bind].
    assert (Hv : (v =? -1) = false).
    { apply Z.eqb_neq. intros ->. apply fixed_tier_values_spec in H.
      simpl in H. repeat (destruct H as [H | H]; [discriminate H |]).
      contradiction. }
    rewrite Hv. apply str_in_In in H. now rewrite H.
  - subst v. reflexivity.
  - cbn [SubscriptionDetailsLimit.parse]. rewrite _parse_int_value.
    destruct H as [Hpos Hout].
    assert (Hv : (v =? -1) = false) by (apply Z.eqb_neq; lia).
    cbn [py_eq_str String.eqb Ascii.eqb Bool.eqb orb].
    rewrite Hv. apply str_in_not_In in Hout. now rewrite Hout.
Qed.

(** The configuration form of a limit parses back to the limit, when
    [int] reads back the decimal string that [str] wrote for the value. *)
Theorem parse_for_config_roundtrip (l : SubscriptionDetailsLimit.t) :
  limit_variant l ->
  str_int (int_str (SubscriptionDetailsLimit.value l))
  = Ok (SubscriptionDetailsLimit.value l) ->
  SubscriptionDetailsLimit.parse (SubscriptionDetailsLimit.for_config l)
  = Ok l.
Proof.
  exact (config_form_parses l).
Qed.

(** The report form of subscription details parses back to the details. *)
Theorem subscription_details_report_roundtrip (d : SubscriptionDetails) :
  limit_variant (limit d) ->
  _parse_subscription_details (SubscriptionDetails_for_report d) = Ok d.
Proof.
  intros H. destruct d as [s e l].
  unfold SubscriptionDetails_for_report, _parse_subscription_details.
  cbn [start end_ limit] in *.
  unfold py_item, dict_item.
  cbn [dict_get String.eqb Ascii.eqb Bool.eqb bind py_int].
  rewrite (report_form_parses l H). reflexivity.
Qed.

(** The configuration form of subscription details parses back to the
    details, flat or as the second element of the legacy pair, when [int]
    reads back the decimal string that [str] wrote for the limit. *)
Theorem subscription_details_config_roundtrip (d : SubscriptionDetails)
  (source : pyobj float) :
  limit_variant (limit d) ->
  str_int (int_str (SubscriptionDetailsLimit.value (limit d)))
  = Ok (SubscriptionDetailsLimit.value (limit d)) ->
  _parse_subscription_details (SubscriptionDetails_for_config d) = Ok d
  /\ _parse_subscription_details
       (PTuple [source; SubscriptionDetails_for_config d]) = Ok d
  /\ _parse_subscription_details
       (PList [source; SubscriptionDetails_for_config d]) = Ok d.
Proof.
  intros H Hint. destruct d as [s e l].
  unfold SubscriptionDetails_for_config, _parse_subscription_details.
  cbn [start end_ limit] in *.
  unfold py_item, dict_item.
  cbn [dict_get String.eqb Ascii.eqb Bool.eqb bind py_int].
  rewrite (config_form_parses l H Hint). repeat split.
Qed.

End LimitClassification.

(** ** Subscription details: refused inputs *)

Section DetailsErrors.
Context {float uuid : Type} {R : PyRuntime float uuid}.

(** [_parse_subscription_details] raises [TypeError] on an input that is
    neither a mapping nor a list or tuple of two elements, and on a pair
    whose second element is no mapping; on a mapping without
    [subscription_start] it raises [KeyError]. *)
Theorem subscription_details_refused :
  (forall l : list (pyobj float),
     List.length l <> 2%nat ->
     _parse_subscription_details (PList l) = Raise TypeError
     /\ _parse_subscription_details (PTuple l) = Raise TypeError)
  /\ (forall raw : pyobj float,
        (forall l, raw <> PList l) -> (forall l, raw <> PTuple l) ->
        (forall d, raw <> PDict d) ->
        _parse_subscription_details raw = Raise TypeError)
  /\ (forall source details : pyobj float,
        (forall d, details <> PDict d) ->
        _parse_subscription_details (PList [source; details])
        = Raise TypeError
        /\ _parse_subscription_details (PTuple [source; details])
           = Raise TypeError)
  /\ (forall (source : pyobj float) (d : dict string (pyobj float)),
        py_get d "subscription_start" = None ->
        _parse_subscription_details (PDict d) = Raise KeyError
        /\ _parse_subscription_details (PTuple [source; PDict d])
           = Raise KeyError).
Proof.
  split; [| split; [| split]].
  - intros l Hlen.
    destruct l as [| a [| b [| c l]]]; simpl in Hlen; try lia;
      split; reflexivity.
  - intros raw Hl Ht Hd. destruct raw; try reflexivity.
    + now elim (Hl l).
    + now elim (Ht l).
    + now elim (Hd d).
  - intros source details Hd.
    destruct details; try (split; reflexivity). now elim (Hd d).
  - intros source d Hget. unfold py_get in Hget.
    unfold _parse_subscription_details, py_item, dict_item.
    rewrite Hget. split; reflexivity.
Qed.

End DetailsErrors.

(** ** Extension flags *)

Section ExtensionProperties.
Context {float uuid : Type} {R : PyRuntime float uuid}.

(** [parse] reads back what [for_report] wrote, and so does
    [parse_from_sample] when the report is the legacy [extensions] entry
    of a sample without [extension_ntop]: on such a sample it agrees with
    [parse] on the entry.  A mapping without [ntop] gives [False], and
    what is no mapping is refused with [TypeError]. *)
Theorem extensions_report_roundtrip (e : LicenseUsageExtensions.t float) :
  LicenseUsageExtensions.parse (LicenseUsageExtensions.for_report e) = Ok e
  /\ (forall (raw x : dict string (pyobj float)),
        py_get raw "extension_ntop" = None ->
        py_get raw "extensions" = Some (PDict x) ->
        LicenseUsageExtensions.parse_from_sample (PDict raw)
        = LicenseUsageExtensions.parse (PDict x))
  /\ (forall raw : dict string (pyobj float),
        py_get raw "extension_ntop" = None ->
        py_get raw "extensions"
        = Some (LicenseUsageExtensions.for_report e) ->
        LicenseUsageExtensions.parse_from_sample (PDict raw) = Ok e)
  /\ (forall x : dict string (pyobj float),
        py_get x "ntop" = None ->
        LicenseUsageExtensions.parse (PDict x)
        = Ok (LicenseUsageExtensions.Build (PBool false)))
  /\ (forall raw : pyobj float,
        (forall x, raw <> PDict x) ->
        LicenseUsageExtensions.parse raw = Raise TypeError).
Proof.
  assert (Hlegacy : forall (raw x : dict string (pyobj float)),
    py_get raw "extension_ntop" = None ->
    py_get raw "extensions" = Some (PDict x) ->
    LicenseUsageExtensions.parse_from_sample (PDict raw)
    = LicenseUsageExtensions.parse (PDict x)).
  { intros raw x Hflag Hext.
    unfold LicenseUsageExtensions.parse_from_sample,
      LicenseUsageExtensions.parse.
    rewrite (py_get_default_some _ _ _ _ Hext). cbn [bind].
    now rewrite (py_get_default_none _ _ _ Hflag). }
  split; [now destruct e |]. split; [exact Hlegacy |].
  split; [| split].
  - intros raw Hflag Hext.
    unfold LicenseUsageExtensions.for_report in Hext.
    rewrite (Hlegacy raw _ Hflag Hext). now destruct e.
  - intros x Hx. unfold LicenseUsageExtensions.parse.
    now rewrite (py_get_default_none _ _ _ Hx).
  - intros raw Hraw. destruct raw; try reflexivity. now elim (Hraw d).
Qed.

(** The flag of a sample: the flattened [extension_ntop] entry wins over
    the legacy [extensions["ntop"]], which wins over the default [False].
    The legacy entry is read before the flattened one is looked up, so an
    [extensions] entry that is no mapping raises [AttributeError] even
    when [extension_ntop] is present. *)
Theorem extension_flag_precedence (raw : dict string (pyobj float)) :
  (forall o,
     py_get raw "extensions" = Some o -> (forall e, o <> PDict e) ->
     LicenseUsageExtensions.parse_from_sample (PDict raw)
     = Raise AttributeError)
  /\ (forall flag,
        py_get raw "extensions" = None
        \/ (exists e, py_get raw "extensions" = Some (PDict e)) ->
        py_get raw "extension_ntop" = Some flag ->
        LicenseUsageExtensions.parse_from_sample (PDict raw)
        = Ok (LicenseUsageExtensions.Build flag))
  /\ (forall e flag,
        py_get raw "extension_ntop" = None ->
        py_get raw "extensions" = Some (PDict e) ->
        py_get e "ntop" = Some flag ->
        LicenseUsageExtensions.parse_from_sample (PDict raw)
        = Ok (LicenseUsageExtensions.Build flag))
  /\ (py_get raw "extension_ntop" = None ->
      py_get raw "extensions" = None
      \/ (exists e, py_get raw "extensions" = Some (PDict e)
                    /\ py_get e "ntop" = None) ->
      LicenseUsageExtensions.parse_from_sample (PDict raw)
      = Ok (LicenseUsageExtensions.Build (PBool false))).
Proof.
  unfold LicenseUsageExtensions.parse_from_sample.
  split; [| split; [| split]].
  - intros o Hget Hnd.
    rewrite (py_get_default_some _ _ _ _ Hget).
    destruct o; try reflexivity. now elim (Hnd d).
  - intros flag Hext Hflag.
    destruct Hext as [Hnone | [e Hsome]].
    + rewrite (py_get_default_none _ _ _ Hnone). cbn [bind].
      now rewrite (py_get_default_some _ _ _ _ Hflag).
    + rewrite (py_get_default_some _ _ _ _ Hsome). cbn [bind].
      now rewrite (py_get_default_some _ _ _ _ Hflag).
  - intros e flag Hnone Hsome Hntop.
    rewrite (py_get_default_some _ _ _ _ Hsome). cbn [bind].
    rewrite (py_get_default_none _ _ _ Hnone).
    now rewrite (py_get_default_some _ _ _ _ Hntop).
  - intros Hnone [Hext | [e [Hsome Hntop]]].
    + rewrite (py_get_default_none _ _ _ Hext). cbn [bind].
      now rewrite (py_get_default_none _ _ _ Hnone).
    + rewrite (py_get_default_some _ _ _ _ Hsome). cbn [bind].
      rewrite (py_get_default_none _ _ _ Hnone).
      now rewrite (py_get_default_none _ _ _ Hntop).
Qed.

End ExtensionProperties.

(** ** What every sample parser does *)

Section SampleProperties.
Context {float uuid : Type} {R : PyRuntime float uuid}.

(** Opens a successful run of a parser: every test passed and every read
    returned. *)
Ltac open_parse H :=
  repeat match type of H with
  | (if ?b then Raise _ else _) = Ok _ =>
      let E := fresh "Etest" in
      destruct b eqn:E; [discriminate H |]
  | bind ?r _ = Ok _ =>
      let E := fresh "Eread" in
      let x := fresh "x" in
      destruct r as [x | ?] eqn:E; cbn [bind] in H; [| discriminate H]
  end.

Lemma py_item_get (d : dict string (pyobj float)) (key : string)
  (o : pyobj float) :
  py_item d key = Ok o <-> py_get d key = Some o.
Proof.
  unfold py_item, dict_item, py_get.
  destruct (dict_get String.eqb d key); split; congruence.
Qed.

(** The facts shared by the nine parsers, read off a successful run. *)
Lemma parse_sample_inversion (v : string) (p : Parser float uuid)
  (caller_id : option uuid) (fallback : string)
  (raw : dict string (pyobj float)) (s : LicenseUsageSample float uuid) :
  make_parser v = Some p ->
  parse_sample p caller_id fallback (PDict raw) = Ok s ->
  site_hash s = py_get_default raw "site_hash" (PStr fallback)
  /\ py_bool (site_hash s) = true
  /\ (exists raw_platform,
        py_get raw "platform" = Some raw_platform
        /\ _parse_platform raw_platform = Ok (platform s))
  /\ LicenseUsageExtensions.parse_from_sample (PDict raw)
     = Ok (LicenseUsageExtensions.Build (extension_ntop s))
  /\ (py_get raw "version" = Some (version s)
      /\ py_get raw "edition" = Some (edition s)
      /\ py_get raw "is_cma" = Some (is_cma s)
      /\ py_get raw "sample_time" = Some (sample_time s)
      /\ py_get raw "timezone" = Some (timezone s)
      /\ py_get raw "num_hosts" = Some (num_hosts s)
      /\ py_get raw "num_services" = Some (num_services s))
  /\ (In v ["1.0"; "1.1"; "1.2"; "1.3"; "1.4"] -> instance_id s = caller_id)
  /\ (In v ["1.5"; "2.0"; "2.1"; "3.0"] ->
      exists raw_id id,
        py_get raw "instance_id" = Some raw_id
        /\ py_bool raw_id = true
        /\ UUID raw_id = Ok id /\ instance_id s = Some id)
  /\ (v = "1.0" ->
      num_hosts_excluded s = PInt 0 /\ num_services_excluded s = PInt 0)
  /\ (v <> "1.0" ->
      py_get raw "num_hosts_excluded" = Some (num_hosts_excluded s)
      /\ py_get raw "num_services_excluded" = Some (num_services_excluded s))
  /\ (In v ["1.0"; "1.1"; "1.2"; "1.3"] -> num_hosts_shadow s = PInt 0)
  /\ (In v ["1.4"; "1.5"] ->
      py_get raw "num_shadow_hosts" = Some (num_hosts_shadow s))
  /\ (In v ["1.0"; "1.1"; "1.2"; "1.3"; "1.4"; "1.5"] ->
      num_hosts_cloud s = PInt 0 /\ num_services_cloud s = PInt 0
      /\ num_services_shadow s = PInt 0)
  /\ (In v ["2.0"; "2.1"; "3.0"] ->
      py_get raw "num_hosts_cloud" = Some (num_hosts_cloud s)
      /\ py_get raw "num_hosts_shadow" = Some (num_hosts_shadow s)
      /\ py_get raw "num_services_cloud" = Some (num_services_cloud s)
      /\ py_get raw "num_services_shadow" = Some (num_services_shadow s))
  /\ (v <> "3.0" ->
      num_synthetic_tests s = PInt 0
      /\ num_synthetic_tests_excluded s = PInt 0)
  /\ (v = "3.0" ->
      py_get raw "num_synthetic_tests" = Some (num_synthetic_tests s)
      /\ py_get raw "num_synthetic_tests_excluded"
         = Some (num_synthetic_tests_excluded s)).
Proof.
  intros Hp Hparse. apply make_parser_cases in Hp.
  assert (Hid : forall o : uuid,
    negb (py_bool (py_get_default raw "instance_id" PNone)) = false ->
    UUID (py_get_default raw "instance_id" PNone) = Ok o ->
    exists raw_id id,
      py_get raw "instance_id" = Some raw_id /\ py_bool raw_id = true
      /\ UUID raw_id = Ok id /\ Some o = Some id).
  { intros o Htest Hu. unfold py_get_default, dict_get_default in *.
    unfold py_get.
    destruct (dict_get String.eqb raw "instance_id") as [raw_id |].
    - exists raw_id, o. apply negb_false_iff in Htest. auto.
    - discriminate Htest. }
  repeat (destruct Hp as [[-> ->] | Hp]); [.. | destruct Hp as [-> ->]];
    cbn [parse_sample ParserV1_0 ParserV1_1 ParserV1_2 ParserV1_3 ParserV1_4
         ParserV1_5 ParserV2_0 ParserV2_1 ParserV3_0] in Hparse;
    unfold ParserV1_0_parse_sample, _parse_sample_v1_1,
      ParserV1_4_parse_sample, ParserV1_5_parse_sample, _parse_sample_v2_0,
      ParserV3_0_parse_sample in Hparse;
    cbv zeta in Hparse;
    open_parse Hparse;
    injection Hparse as <-;
    cbn [site_hash platform extension_ntop version edition is_cma sample_time
         timezone num_hosts num_services instance_id num_hosts_excluded
         num_services_excluded num_hosts_shadow num_hosts_cloud
         num_services_cloud num_services_shadow num_synthetic_tests
         num_synthetic_tests_excluded];
    repeat match goal with
    | H : py_item _ _ = Ok _ |- _ => apply py_item_get in H
    | H : negb (py_bool (py_get_default raw "site_hash" _)) = false |- _ =>
        apply negb_false_iff in H
    end;
    repeat match goal with
    | |- _ /\ _ => split
    | |- _ -> _ => intros ?
    end;
    try assumption; try reflexivity;
    try match goal with
    | H : In _ _ |- _ =>
        simpl in H; repeat (destruct H as [H | H]; try discriminate H);
        try contradiction
    | H : _ = _ |- _ => discriminate H
    | H : ?x <> ?x |- _ => now elim H
    end;
    try reflexivity; try assumption;
    try (eexists; split; eassumption);
    try (destruct x; reflexivity);
    try (eapply Hid; first [eassumption | reflexivity]).
Qed.

End SampleProperties.

(** ** Slices of strings *)

Lemma substring_0_length (n : nat) (s : string) :
  String.length (substring 0 n s) = Nat.min n (String.length s).
Proof.
  revert s. induction n as [| n IH]; intros [| c s]; simpl; try reflexivity.
  now rewrite IH.
Qed.

Lemma substring_0_prefix (n : nat) (s : string) :
  prefix (substring 0 n s) s = true.
Proof.
  revert s. induction n as [| n IH]; intros [| c s]; simpl; try reflexivity.
  destruct (ascii_dec c c) as [_ | Hne]; [apply IH | now elim Hne].
Qed.

Lemma substring_0_short (n : nat) (s : string) :
  (String.length s <= n)%nat -> substring 0 n s = s.
Proof.
  revert s. induction n as [| n IH]; intros [| c s]; simpl; intros H;
    try reflexivity; try lia.
  f_equal. apply IH. lia.
Qed.

Section SampleTheorems.
Context {float uuid : Type} {R : PyRuntime float uuid}.

(** Every parser stores the platform string cut to its first 50
    characters: a prefix of the record's platform, of length
    [min 50 (len platform)], and the platform itself when that has at
    most 50 characters. *)
Theorem platform_truncated (v : string) (p : Parser float uuid)
  (caller_id : option uuid) (fallback : string)
  (raw : dict string (pyobj float)) (s : LicenseUsageSample float uuid)
  (raw_platform : string) :
  make_parser v = Some p ->
  parse_sample p caller_id fallback (PDict raw) = Ok s ->
  py_get raw "platform" = Some (PStr raw_platform) ->
  exists stored,
    platform s = PStr stored
    /\ String.length stored = Nat.min 50 (String.length raw_platform)
    /\ prefix stored raw_platform = true
    /\ ((String.length raw_platform <= 50)%nat -> stored = raw_platform).
Proof.
  intros Hp Hparse Hget.
  destruct (parse_sample_inversion v p caller_id fallback raw s Hp Hparse)
    as [_ [_ [[pl [Hpl Hcut]] _]]].
  rewrite Hget in Hpl. injection Hpl as <-.
  cbn [_parse_platform] in Hcut. injection Hcut as Hcut.
  exists (substring 0 50 raw_platform).
  split; [now symmetry |].
  split; [apply substring_0_length |].
  split; [apply substring_0_prefix | apply substring_0_short].
Qed.

(** The site hash of a parsed sample is the record's [site_hash] when
    that key is present and the caller's otherwise, and it is never
    empty (falsy). *)
Theorem site_hash_source (v : string) (p : Parser float uuid)
  (caller_id : option uuid) (fallback : string)
  (raw : dict string (pyobj float)) (s : LicenseUsageSample float uuid) :
  make_parser v = Some p ->
  parse_sample p caller_id fallback (PDict raw) = Ok s ->
  site_hash s
  = match py_get raw "site_hash" with
    | Some recorded => recorded
    | None => PStr fallback
    end
  /\ py_bool (site_hash s) = true
  /\ site_hash s <> PStr "".
Proof.
  intros Hp Hparse.
  destruct (parse_sample_inversion v p caller_id fallback raw s Hp Hparse)
    as [Hsite [Htruthy _]].
  split; [exact Hsite |]. split; [exact Htruthy |].
  intros Hempty. rewrite Hempty in Htruthy. discriminate Htruthy.
Qed.

(** What a version lacks is zero in the parsed sample: the synthetic test
    counters before 3.0, the cloud counters and the shadow services
    before 2.0, the shadow hosts before 1.4, the excluded counters in
    1.0.  Versions 1.4 and 1.5 read the shadow hosts from the key
    [num_shadow_hosts]; from 2.0 on the key is [num_hosts_shadow]. *)
Theorem version_defaults (v : string) (p : Parser float uuid)
  (caller_id : option uuid) (fallback : string)
  (raw : dict string (pyobj float)) (s : LicenseUsageSample float uuid) :
  make_parser v = Some p ->
  parse_sample p caller_id fallback (PDict raw) = Ok s ->
  (v <> "3.0" ->
   num_synthetic_tests s = PInt 0 /\ num_synthetic_tests_excluded s = PInt 0)
  /\ (In v ["1.0"; "1.1"; "1.2"; "1.3"; "1.4"; "1.5"] ->
      num_hosts_cloud s = PInt 0 /\ num_services_cloud s = PInt 0
      /\ num_services_shadow s = PInt 0)
  /\ (In v ["1.0"; "1.1"; "1.2"; "1.3"] -> num_hosts_shadow s = PInt 0)
  /\ (v = "1.0" ->
      num_hosts_excluded s = PInt 0 /\ num_services_excluded s = PInt 0)
  /\ (In v ["1.4"; "1.5"] ->
      py_get raw "num_shadow_hosts" = Some (num_hosts_shadow s))
  /\ (In v ["2.0"; "2.1"; "3.0"] ->
      py_get raw "num_hosts_shadow" = Some (num_hosts_shadow s)).
Proof.
  intros Hp Hparse.
  destruct (parse_sample_inversion v p caller_id fallback raw s Hp Hparse)
    as [_ [_ [_ [_ [_ [_ [_ [H10 [_ [H13 [H145 [Hcloud [H2 [Hsyn _]]]]]]]]]]]]]].
  repeat split; try tauto; intros H; now apply H2.
Qed.

(** A sample that is no mapping is refused with [TypeError] by every
    parser. *)
Theorem non_mapping_sample_refused (v : string) (p : Parser float uuid)
  (caller_id : option uuid) (fallback : string) (raw : pyobj float) :
  make_parser v = Some p ->
  (forall d, raw <> PDict d) ->
  parse_sample p caller_id fallback raw = Raise TypeError.
Proof.
  intros Hp Hnd. apply make_parser_cases in Hp.
  repeat (destruct Hp as [[-> ->] | Hp]); [.. | destruct Hp as [-> ->]];
    destruct raw; try reflexivity; now elim (Hnd d).
Qed.

(** [make_parser] has a parser exactly for the nine versions, so every
    version that [parse_protocol_version] returns has one; all nine
    parsers parse subscription details with the shared function. *)
Theorem resolved_version_has_parser :
  (forall v : string,
     In v protocol_versions
     <-> exists p : Parser float uuid, make_parser v = Some p)
  /\ (forall (raw : pyobj float) (v : string),
        parse_protocol_version raw = Ok v ->
        exists p : Parser float uuid, make_parser v = Some p)
  /\ (forall (v : string) (p : Parser float uuid),
        make_parser v = Some p ->
        parse_subscription_details p = _parse_subscription_details).
Proof.
  assert (Hiff : forall v : string,
    In v protocol_versions
    <-> exists p : Parser float uuid, make_parser v = Some p).
  { intros v. split.
    - intros Hin. apply protocol_version_cases in Hin.
      repeat (destruct Hin as [-> | Hin]); [.. | subst v];
        eexists; reflexivity.
    - intros [p Hp]. apply make_parser_cases in Hp.
      unfold protocol_versions. simpl.
      repeat (destruct Hp as [[-> _] | Hp]); [.. | destruct Hp as [-> _]];
        tauto. }
  split; [exact Hiff |]. split.
  - intros raw v Hv. apply Hiff.
    destruct raw; simpl in Hv; try discriminate.
    destruct (py_get_default d "VERSION" PNone); try discriminate.
    unfold protocol_versions.
    repeat match type of Hv with
    | (if String.eqb ?s ?lit then _ else _) = _ =>
        destruct (String.eqb s lit);
        [injection Hv as <-; simpl; tauto |]
    end.
    discriminate.
  - intros v p Hp. apply make_parser_cases in Hp.
    repeat (destruct Hp as [[_ ->] | Hp]); [.. | destruct Hp as [_ ->]];
      reflexivity.
Qed.

End SampleTheorems.

(** ** Subscription details for the aggregation *)

(** The constructor refuses exactly a plain integer limit that is not
    positive; every other combination is stored as given.  A constructed
    integer limit is therefore positive, and a free-tier limit always has
    a real limit. *)
Theorem aggregation_details_construction (start end_ : option Z)
  (limit : option SubscriptionDetailsForAggregation.limit_t) :
  (forall n,
     limit = Some (SubscriptionDetailsForAggregation.Int n) -> n <= 0 ->
     SubscriptionDetailsForAggregation.make start end_ limit
     = Raise ValueError)
  /\ ((forall n,
         limit = Some (SubscriptionDetailsForAggregation.Int n) -> 0 < n) ->
      SubscriptionDetailsForAggregation.make start end_ limit
      = Ok (SubscriptionDetailsForAggregation.Build start end_ limit))
  /\ (forall d,
        SubscriptionDetailsForAggregation.make start end_ limit = Ok d ->
        d = SubscriptionDetailsForAggregation.Build start end_ limit
        /\ (forall n,
              SubscriptionDetailsForAggregation.limit d
              = Some (SubscriptionDetailsForAggregation.Int n) ->
              0 < n
              /\ SubscriptionDetailsForAggregation.real_limit d = Some n)
        /\ (SubscriptionDetailsForAggregation.is_free d = true ->
            exists n,
              SubscriptionDetailsForAggregation.real_limit d = Some n)).
Proof.
  unfold SubscriptionDetailsForAggregation.make.
  split; [| split].
  - intros n -> Hn. destruct (Z.leb_spec n 0); [reflexivity | lia].
  - intros Hpos. destruct limit as [[| tag n | n] |]; try reflexivity.
    specialize (Hpos n eq_refl).
    destruct (Z.leb_spec n 0); [lia | reflexivity].
  - intros d Hd.
    assert (Hbuild :
      d = SubscriptionDetailsForAggregation.Build start end_ limit
      /\ forall n, limit = Some (SubscriptionDetailsForAggregation.Int n) ->
                   0 < n).
    { destruct limit as [[| tag n | n] |]; try (injection Hd as <-);
        try (split; [reflexivity | intros ? [=]]).
      destruct (Z.leb_spec n 0); [discriminate Hd |].
      injection Hd as <-. split; [reflexivity |]. now intros ? [= <-]. }
    destruct Hbuild as [-> Hpos]. split; [reflexivity |]. split.
    + cbn [SubscriptionDetailsForAggregation.limit]. intros n ->.
      split; [now apply Hpos | reflexivity].
    + unfold SubscriptionDetailsForAggregation.is_free,
        SubscriptionDetailsForAggregation.real_limit.
      cbn [SubscriptionDetailsForAggregation.limit].
      destruct limit as [[| tag n | n] |]; try discriminate.
      intros _. now exists n.
Qed.

(** ** Aggregation without monthly averages *)

Section EarlyReturn.
Context {float uuid : Type} {R : PyRuntime float uuid} {L : LocalTime float}.

(** [_calculate_averages] keeps the subscription details and the daily
    services of the instance. *)
Lemma calculate_averages_keeps_inputs (obj obj' : MonthlyServiceAverages.t float) :
  MonthlyServiceAverages._calculate_averages obj = Ok obj' ->
  MonthlyServiceAverages._subscription_details obj'
  = MonthlyServiceAverages._subscription_details obj
  /\ MonthlyServiceAverages._daily_services obj'
     = MonthlyServiceAverages._daily_services obj.
Proof.
  unfold MonthlyServiceAverages._calculate_averages.
  destruct (MonthlyServiceAverages._daily_services obj) as [| d0 daily] eqn:Hd.
  { intros [= <-]. auto. }
  destruct (SubscriptionDetailsForAggregation.start
              (MonthlyServiceAverages._subscription_details obj))
    as [start |]; [| intros [= <-]; auto].
  destruct (SubscriptionDetailsForAggregation.end_
              (MonthlyServiceAverages._subscription_details obj))
    as [end_ |]; [| intros [= <-]; auto].
  destruct (fromtimestamp start) as [start_date | e]; cbn [bind];
    [| discriminate].
  destruct (add_one_month (replace_midnight start_date)) as [month_end | e];
    cbn [bind]; [| discriminate].
  destruct (fromtimestamp end_) as [end_date | e]; cbn [bind];
    [| discriminate].
  destruct (MonthlyServiceAverages.monthly_services_loop (d0 :: daily)
              (replace_midnight start_date) month_end
              (replace_midnight end_date) []) as [monthly | e];
    cbn [bind]; [| discriminate].
  destruct (mapM MonthlyServiceAverages.monthly_average monthly)
    as [averages | e]; cbn [bind]; [| discriminate].
  intros [= <-]. auto.
Qed.

(** Without a subscription start, without a subscription end, or without
    samples, the aggregation of a new instance succeeds, whatever the
    other timestamp is: the report has the daily services, no monthly
    averages and none of the three summaries, and the instance is left as
    it was. *)
Theorem aggregation_without_window
  (details : SubscriptionDetailsForAggregation.t)
  (short_samples : list (Z * Z)) (obj : MonthlyServiceAverages.t float) :
  MonthlyServiceAverages.__init__ details short_samples = Ok obj ->
  SubscriptionDetailsForAggregation.start details = None
  \/ SubscriptionDetailsForAggregation.end_ details = None
  \/ short_samples = [] ->
  exists report,
    MonthlyServiceAverages.get_aggregation obj = Ok (report, obj)
    /\ subscription_details report
       = SubscriptionDetailsForAggregation.for_report details
    /\ daily_services report
       = map MonthlyServiceAverage.for_report
           (MonthlyServiceAverages._daily_services obj)
    /\ monthly_service_averages report = []
    /\ last_service_report report = None
    /\ highest_service_report report = None
    /\ subscription_exceeded_first report = None.
Proof.
  intros Hinit Hcase.
  assert (Hdaily : short_samples = [] ->
                   MonthlyServiceAverages._daily_services obj = []).
  { intros ->. unfold MonthlyServiceAverages.__init__ in Hinit.
    cbn in Hinit. now injection Hinit as <-. }
  apply init_attributes in Hinit as [Hdetails [_ Hfresh]].
  assert (Hsame : MonthlyServiceAverages._calculate_averages obj = Ok obj).
  { unfold MonthlyServiceAverages._calculate_averages.
    destruct (MonthlyServiceAverages._daily_services obj) eqn:Hd;
      [reflexivity |].
    rewrite Hdetails.
    destruct Hcase as [-> | [-> | Hnil]].
    - reflexivity.
    - now destruct (SubscriptionDetailsForAggregation.start details).
    - specialize (Hdaily Hnil). congruence. }
  unfold MonthlyServiceAverages.get_aggregation.
  rewrite Hsame. cbn [bind]. eexists. split; [reflexivity |].
  cbn [subscription_details daily_services monthly_service_averages
       last_service_report highest_service_report
       subscription_exceeded_first].
  unfold MonthlyServiceAverages._get_last_service_report,
    MonthlyServiceAverages._get_highest_service_report,
    MonthlyServiceAverages._get_subscription_exceeded_first.
  rewrite Hfresh, Hdetails. cbn [map].
  repeat split.
  now destruct (SubscriptionDetailsForAggregation.real_limit details).
Qed.

End EarlyReturn.

(** ** The three summaries *)

Section Summaries.
Context {float uuid : Type} {R : PyRuntime float uuid} {L : LocalTime float}.

Local Abbreviation Average := (MonthlyServiceAverage.t float).

Lemma last_cons_head {A : Type} (l : list A) (a b : A) :
  List.last (b :: l) a = List.last l b.
Proof.
  revert a b. induction l as [| c l IH]; intros a b; [reflexivity |].
  change (List.last (b :: c :: l) a) with (List.last (c :: l) a).
  rewrite (IH a c). symmetry. apply IH.
Qed.

Lemma last_of_sorted (l : list Average) (a : Average) :
  StronglySorted earlier (a :: l) ->
  In (List.last l a) (a :: l)
  /\ forall m, In m (a :: l) -> m = List.last l a \/ earlier m (List.last l a).
Proof.
  revert a. induction l as [| b l IH]; intros a Hsorted.
  - simpl. split; [now left |]. intros m [<- | []]. now left.
  - apply StronglySorted_inv in Hsorted as [Htl Hhd].
    destruct (IH b Htl) as [Hin Hmax].
    rewrite last_cons_head.
    split; [now right |].
    intros m [<- | Hm]; [| now apply Hmax].
    right. rewrite Forall_forall in Hhd. now apply Hhd.
Qed.

(** The last service report of an aggregation is the most recent month:
    every other averaged month is chronologically earlier.  There is none
    exactly when no month was averaged. *)
Theorem last_report_is_most_recent
  (details : SubscriptionDetailsForAggregation.t)
  (short_samples : list (Z * Z))
  (obj obj' : MonthlyServiceAverages.t float) :
  MonthlyServiceAverages.__init__ details short_samples = Ok obj ->
  MonthlyServiceAverages._calculate_averages obj = Ok obj' ->
  (MonthlyServiceAverages._monthly_service_averages obj' = []
   /\ MonthlyServiceAverages._get_last_service_report obj' = None)
  \/ exists m,
       In m (MonthlyServiceAverages._monthly_service_averages obj')
       /\ MonthlyServiceAverages._get_last_service_report obj'
          = Some (MonthlyServiceAverage.for_report m)
       /\ forall m',
            In m' (MonthlyServiceAverages._monthly_service_averages obj') ->
            m' = m \/ earlier m' m.
Proof.
  intros Hinit Hcalc.
  apply init_attributes in Hinit as [_ [_ Hfresh]].
  destruct (calculate_averages_fresh _ _ Hfresh Hcalc) as [_ Hmonths].
  unfold MonthlyServiceAverages._get_last_service_report.
  destruct (MonthlyServiceAverages._monthly_service_averages obj')
    as [| a l] eqn:Hl; [now left | right].
  assert (Hsorted : StronglySorted earlier (a :: l)).
  { destruct Hmonths as [Hnil | [s [e [sd [ed [_ [_ [_ [_ [_ H]]]]]]]]]];
      [discriminate Hnil | assumption]. }
  destruct (last_of_sorted l a Hsorted) as [Hin Hmax].
  exists (List.last l a). auto.
Qed.

Lemma max_by_num_services_spec :
  number_gt_strict_weak_order ->
  forall (l : list Average) (current : Average),
  exists before after,
    (current :: l
     = before ++ MonthlyServiceAverages.max_by_num_services current l
         :: after)%list
    /\ (forall x, In x before ->
          MonthlyServiceAverages.number_gt
            (MonthlyServiceAverage.num_services
               (MonthlyServiceAverages.max_by_num_services current l))
            (MonthlyServiceAverage.num_services x) = true)
    /\ (forall x, In x (current :: l) ->
          MonthlyServiceAverages.number_gt
            (MonthlyServiceAverage.num_services x)
            (MonthlyServiceAverage.num_services
               (MonthlyServiceAverages.max_by_num_services current l))
          = false).
Proof.
  intros [Hirr [Htrans Hneg]].
  assert (Hasym : forall x y : number float,
    MonthlyServiceAverages.number_gt x y = true ->
    MonthlyServiceAverages.number_gt y x = false).
  { intros x y Hxy.
    destruct (MonthlyServiceAverages.number_gt y x) eqn:Hyx; [| reflexivity].
    rewrite <- (Hirr x). symmetry. now apply Htrans with y. }
  induction l as [| a l IH]; intros current.
  - exists [], []. simpl. repeat split.
    + intros x [].
    + intros x [<- | []]. apply Hirr.
  - cbn [MonthlyServiceAverages.max_by_num_services].
    destruct (MonthlyServiceAverages.number_gt
                (MonthlyServiceAverage.num_services a)
                (MonthlyServiceAverage.num_services current)) eqn:Hgt.
    + destruct (IH a) as [before [after [Heq [Hbefore Hall]]]].
      set (m := MonthlyServiceAverages.max_by_num_services a l) in *.
      assert (Hm : MonthlyServiceAverages.number_gt
                     (MonthlyServiceAverage.num_services m)
                     (MonthlyServiceAverage.num_services current) = true).
      { destruct (MonthlyServiceAverages.number_gt
                    (MonthlyServiceAverage.num_services m)
                    (MonthlyServiceAverage.num_services current)) eqn:Hmc;
          [reflexivity |].
        assert (Ham : MonthlyServiceAverages.number_gt
                        (MonthlyServiceAverage.num_services a)
                        (MonthlyServiceAverage.num_services m) = false)
          by (apply Hall; now left).
        rewrite (Hneg _ _ _ Ham Hmc) in Hgt. discriminate Hgt. }
      exists (current :: before), after. split; [| split].
      * simpl. now rewrite Heq.
      * intros x [<- | Hx]; [assumption | now apply Hbefore].
      * intros x [<- | Hx]; [now apply Hasym | now apply Hall].
    + destruct (IH current) as [before [after [Heq [Hbefore Hall]]]].
      set (m := MonthlyServiceAverages.max_by_num_services current l) in *.
      destruct before as [| b before].
      * simpl in Heq. injection Heq as Hm Hafter.
        exists [], (a :: after). split; [| split].
        -- simpl. now rewrite <- Hm, Hafter.
        -- intros x [].
        -- intros x [<- | [<- | Hx]].
           ++ apply Hall. now left.
           ++ now rewrite <- Hm.
           ++ apply Hall. now right.
      * simpl in Heq. injection Heq as Hb Hl. subst b.
        assert (Hmc : MonthlyServiceAverages.number_gt
                        (MonthlyServiceAverage.num_services m)
                        (MonthlyServiceAverage.num_services current) = true)
          by (apply Hbefore; now left).
        assert (Hma : MonthlyServiceAverages.number_gt
                        (MonthlyServiceAverage.num_services m)
                        (MonthlyServiceAverage.num_services a) = true).
        { destruct (MonthlyServiceAverages.number_gt
                      (MonthlyServiceAverage.num_services m)
                      (MonthlyServiceAverage.num_services a)) eqn:Hma';
            [reflexivity |].
          rewrite (Hneg _ _ _ Hma' Hgt) in Hmc. discriminate Hmc. }
        exists (current :: a :: before), after. split; [| split].
        -- simpl. now rewrite Hl.
        -- intros x [<- | [<- | Hx]]; auto.
           apply Hbefore. now right.
        -- intros x [<- | [<- | Hx]].
           ++ apply Hall. now left.
           ++ now apply Hasym.
           ++ apply Hall. now right.
Qed.

(** When [>] on the averages is a strict weak order (no NaN), the highest
    service report is a month that no month exceeds, and among such
    months the first one: it is strictly greater than every month before
    it.  There is none exactly when no month was averaged. *)
Theorem highest_report_is_first_maximum (self : MonthlyServiceAverages.t float) :
  number_gt_strict_weak_order ->
  (MonthlyServiceAverages._monthly_service_averages self = []
   /\ MonthlyServiceAverages._get_highest_service_report self = None)
  \/ exists before m after,
       MonthlyServiceAverages._monthly_service_averages self
       = (before ++ m :: after)%list
       /\ MonthlyServiceAverages._get_highest_service_report self
          = Some (MonthlyServiceAverage.for_report m)
       /\ (forall x,
             In x (MonthlyServiceAverages._monthly_service_averages self) ->
             MonthlyServiceAverages.number_gt
               (MonthlyServiceAverage.num_services x)
               (MonthlyServiceAverage.num_services m) = false)
       /\ (forall x, In x before ->
             MonthlyServiceAverages.number_gt
               (MonthlyServiceAverage.num_services m)
               (MonthlyServiceAverage.num_services x) = true).
Proof.
  intros Horder.
  unfold MonthlyServiceAverages._get_highest_service_report.
  destruct (MonthlyServiceAverages._monthly_service_averages self)
    as [| a l]; [now left | right].
  destruct (max_by_num_services_spec Horder l a)
    as [before [after [Heq [Hbefore Hall]]]].
  exists before, (MonthlyServiceAverages.max_by_num_services a l), after.
  auto.
Qed.

Lemma first_exceeding_app_self (n : Z) (l : list Average) :
  MonthlyServiceAverages.first_exceeding n (l ++ l)
  = MonthlyServiceAverages.first_exceeding n l.
Proof.
  assert (H : forall l1 l2 : list Average,
    MonthlyServiceAverages.first_exceeding n (l1 ++ l2)
    = match MonthlyServiceAverages.first_exceeding n l1 with
      | Some m => Some m
      | None => MonthlyServiceAverages.first_exceeding n l2
      end).
  { induction l1 as [| a l1 IH]; intros l2; simpl; [reflexivity |].
    destruct (MonthlyServiceAverages.number_ge_int
                (MonthlyServiceAverage.num_services a) n);
      [reflexivity | apply IH]. }
  rewrite H. now destruct (MonthlyServiceAverages.first_exceeding n l).
Qed.

Lemma last_app_self (l : list Average) (a : Average) :
  List.last ((l ++ a :: l)%list) a = List.last l a.
Proof.
  assert (H : forall (l1 l2 : list Average) (b d : Average),
    List.last ((l1 ++ b :: l2)%list) d = List.last (b :: l2) d).
  { induction l1 as [| c l1 IH]; intros l2 b d; [reflexivity |].
    cbn [app]. rewrite last_cons_head.
    rewrite <- (last_cons_head (l1 ++ b :: l2) d c) at 1.
    rewrite last_cons_head.
    destruct l1 as [| c' l1].
    - cbn [app]. now rewrite !last_cons_head.
    - cbn [app]. rewrite last_cons_head.
      rewrite <- (last_cons_head (l1 ++ b :: l2) d c').
      change (c' :: l1 ++ b :: l2)%list with ((c' :: l1) ++ b :: l2)%list.
      apply IH. }
  rewrite H. apply last_cons_head.
Qed.

(** What a second [get_aggregation] on a new instance changes: the
    monthly averages are reported twice over; the subscription details,
    the daily services, the last service report and the first exceeded
    month are those of the first report. *)
Theorem second_report_differs_in_months_only
  (details : SubscriptionDetailsForAggregation.t)
  (short_samples : list (Z * Z))
  (obj obj1 obj2 : MonthlyServiceAverages.t float)
  (first second : RawMonthlyServiceAggregation float) :
  MonthlyServiceAverages.__init__ details short_samples = Ok obj ->
  MonthlyServiceAverages.get_aggregation obj = Ok (first, obj1) ->
  MonthlyServiceAverages.get_aggregation obj1 = Ok (second, obj2) ->
  monthly_service_averages second
  = (monthly_service_averages first ++ monthly_service_averages first)%list
  /\ subscription_details second = subscription_details first
  /\ daily_services second = daily_services first
  /\ last_service_report second = last_service_report first
  /\ subscription_exceeded_first second = subscription_exceeded_first first.
Proof.
  intros Hinit H1 H2.
  apply init_attributes in Hinit as [_ [_ Hfresh]].
  unfold MonthlyServiceAverages.get_aggregation in H1, H2.
  destruct (MonthlyServiceAverages._calculate_averages obj)
    as [o1 | e] eqn:Hc1; cbn [bind] in H1; [| discriminate H1].
  injection H1 as <- <-.
  destruct (MonthlyServiceAverages._calculate_averages o1)
    as [o2 | e] eqn:Hc2; cbn [bind] in H2; [| discriminate H2].
  injection H2 as <- <-.
  destruct (calculate_averages_accumulates _ _ _ Hc1 Hc2)
    as [months [Hm1 Hm2]].
  rewrite Hfresh in Hm1. cbn [app] in Hm1. rewrite Hm1 in Hm2.
  destruct (calculate_averages_keeps_inputs _ _ Hc2) as [Hd2 Hday2].
  cbn [monthly_service_averages subscription_details daily_services
       last_service_report subscription_exceeded_first].
  unfold MonthlyServiceAverages._get_last_service_report,
    MonthlyServiceAverages._get_subscription_exceeded_first.
  rewrite Hd2, Hday2, Hm2, Hm1.
  split; [apply map_app |]. split; [reflexivity |]. split; [reflexivity |].
  split.
  - destruct months as [| a l]; [reflexivity |].
    cbn [app]. now rewrite last_app_self.
  - destruct (SubscriptionDetailsForAggregation.real_limit
                (MonthlyServiceAverages._subscription_details o1));
      [| reflexivity].
    now rewrite first_exceeding_app_self.
Qed.

End Summaries.

(** ** What the monthly scan counts *)

Section WindowSoundness.
Context {float uuid : Type} {R : PyRuntime float uuid} {L : LocalTime float}.

Local Abbreviation Average := (MonthlyServiceAverage.t float).

(** The number of days counted so far for the month that starts at [k]. *)
Local Abbreviation counted monthly k :=
  (counter_get (dict_get_default dt_eqb monthly k []) "num_daily_services").

Lemma days_in_window_cons (k : datetime) (a : Average) (daily : list Average) :
  days_in_window k (a :: daily)
  = (if in_window k a then 1 else 0) + days_in_window k daily.
Proof.
  unfold days_in_window. cbn [filter].
  destruct (in_window k a); [| lia].
  cbn [List.length]. rewrite Nat2Z.inj_succ. lia.
Qed.

Lemma days_in_window_nonneg (k : datetime) (daily : list Average) :
  0 <= days_in_window k daily.
Proof. unfold days_in_window. lia. Qed.

Lemma counted_after_update (monthly : dict datetime Counter)
  (month_start k : datetime) (n : Z) :
  counted
    (dict_setdefault_update dt_eqb monthly month_start []
       (fun counter =>
          counter_update (counter_update counter "num_daily_services" 1)
            "num_services" n)) k
  = counted monthly k + (if dt_eqb month_start k then 1 else 0).
Proof.
  destruct (dt_eqb month_start k) eqn:Hk.
  - apply dt_eqb_eq in Hk. subst k.
    unfold dict_get_default at 1.
    rewrite (setdefault_update_get dt_eqb dt_eqb_eq).
    rewrite counter_get_update_other by discriminate.
    apply counter_get_update.
  - apply dt_eqb_neq in Hk.
    unfold dict_get_default at 1.
    rewrite (setdefault_update_get_other dt_eqb dt_eqb_eq) by assumption.
    fold (dict_get_default dt_eqb monthly k []). lia.
Qed.

Lemma monthly_services_loop_counts (end_date : datetime)
  (daily : list Average) :
  forall (month_start month_end : datetime)
         (monthly res : dict datetime Counter),
    MonthlyServiceAverages.monthly_services_loop daily month_start month_end
      end_date monthly = Ok res ->
    add_one_month month_start = Ok month_end ->
    (forall k,
       counted monthly k <= counted res k
       /\ counted res k <= counted monthly k + days_in_window k daily)
    /\ (forall k, In k (dict_keys res) ->
          In k (dict_keys monthly) \/ counted monthly k + 1 <= counted res k)
    /\ (NoDup (dict_keys monthly) -> NoDup (dict_keys res)).
Proof.
  induction daily as [| daily_service rest IH];
    intros month_start month_end monthly res Hloop Hwin.
  - simpl in Hloop. injection Hloop as <-.
    split; [| split; auto].
    intros k. unfold days_in_window. simpl. lia.
  - simpl in Hloop.
    assert (Hstep : forall ms me,
      add_one_month ms = Ok me ->
      (if dt_leb today me || dt_ltb end_date me
       then Ok monthly
       else if dt_leb ms (MonthlyServiceAverage.sample_date daily_service)
               && dt_ltb (MonthlyServiceAverage.sample_date daily_service) me
       then
         n <- MonthlyServiceAverages.number_int
                (MonthlyServiceAverage.num_services daily_service) ;;
         MonthlyServiceAverages.monthly_services_loop rest ms me end_date
           (dict_setdefault_update dt_eqb monthly ms []
              (fun counter =>
                 counter_update
                   (counter_update counter "num_daily_services" 1)
                   "num_services" n))
       else
         MonthlyServiceAverages.monthly_services_loop rest ms me end_date
           monthly) = Ok res ->
      (forall k,
         counted monthly k <= counted res k
         /\ counted res k
            <= counted monthly k + days_in_window k (daily_service :: rest))
      /\ (forall k, In k (dict_keys res) ->
            In k (dict_keys monthly)
            \/ counted monthly k + 1 <= counted res k)
      /\ (NoDup (dict_keys monthly) -> NoDup (dict_keys res))).
    { intros ms me Hme Hres.
      assert (Hstop :
        Ok monthly = Ok res ->
        (forall k,
           counted monthly k <= counted res k
           /\ counted res k
              <= counted monthly k
                 + days_in_window k (daily_service :: rest))
        /\ (forall k, In k (dict_keys res) ->
              In k (dict_keys monthly)
              \/ counted monthly k + 1 <= counted res k)
        /\ (NoDup (dict_keys monthly) -> NoDup (dict_keys res))).
      { intros [= <-]. split; [| split; auto].
        intros k. pose proof (days_in_window_nonneg k (daily_service :: rest)).
        lia. }
      destruct (dt_leb today me || dt_ltb end_date me); [now apply Hstop |].
      destruct (dt_leb ms (MonthlyServiceAverage.sample_date daily_service)
                && dt_ltb (MonthlyServiceAverage.sample_date daily_service) me)
        eqn:Hin.
      - destruct (MonthlyServiceAverages.number_int
                    (MonthlyServiceAverage.num_services daily_service))
          as [n | e]; simpl in Hres; [| discriminate].
        destruct (IH _ _ _ _ Hres Hme) as [Hcount [Hkeys Hnodup]].
        assert (Hw : in_window ms daily_service = true).
        { unfold in_window. now rewrite Hme. }
        split; [| split].
        + intros k. specialize (Hcount k).
          rewrite counted_after_update in Hcount.
          rewrite days_in_window_cons.
          destruct (dt_eqb ms k) eqn:Hk.
          * apply dt_eqb_eq in Hk. subst k. rewrite Hw. lia.
          * destruct (in_window k daily_service); lia.
        + intros k Hk. specialize (Hcount k).
          rewrite counted_after_update in Hcount.
          destruct (Hkeys k Hk) as [Hold | Hnew].
          * apply (setdefault_update_keys_in dt_eqb dt_eqb_eq) in Hold
              as [Hold | ->]; [now left | right].
            rewrite dt_eqb_refl in Hcount. lia.
          * right. rewrite counted_after_update in Hnew.
            destruct (dt_eqb ms k); lia.
        + intros Hnd. apply Hnodup.
          now apply (setdefault_update_keys_nodup dt_eqb dt_eqb_eq).
      - destruct (IH _ _ _ _ Hres Hme) as [Hcount [Hkeys Hnodup]].
        split; [| split; auto].
        intros k. specialize (Hcount k). rewrite days_in_window_cons.
        destruct (in_window k daily_service); lia. }
    destruct (dt_leb month_end
                (MonthlyServiceAverage.sample_date daily_service)).
    + destruct (add_one_month month_end) as [next_end | e] eqn:Hnext;
        simpl in Hloop; [| discriminate].
      now apply (Hstep month_end next_end).
    + simpl in Hloop. now apply (Hstep month_start month_end).
Qed.

(** The scan never counts a day for a month it does not lie in, and never
    holds a month without a day: for every month it collects, the number
    of days counted is at least 1 and at most the number of daily buckets
    in the window of that month.  The divisor of the average is therefore
    never zero. *)
Theorem counted_days_lie_in_window (daily : list Average)
  (month_start month_end end_date : datetime)
  (res : dict datetime Counter) (k : datetime) (c : Counter) :
  add_one_month month_start = Ok month_end ->
  MonthlyServiceAverages.monthly_services_loop daily month_start month_end
    end_date [] = Ok res ->
  In (k, c) res ->
  1 <= counter_get c "num_daily_services"
  /\ counter_get c "num_daily_services" <= days_in_window k daily.
Proof.
  intros Hwin Hloop Hin.
  destruct (monthly_services_loop_counts end_date daily _ _ _ _ Hloop Hwin)
    as [Hcount [Hkeys Hnodup]].
  specialize (Hnodup (NoDup_nil _)).
  assert (Hget : counted res k = counter_get c "num_daily_services").
  { unfold dict_get_default.
    now rewrite (dict_get_in dt_eqb dt_eqb_eq res k c Hnodup Hin). }
  rewrite <- Hget. split.
  - destruct (Hkeys k) as [[] | Hnew].
    + unfold dict_keys. change k with (fst (k, c)). now apply in_map.
    + exact Hnew.
  - now destruct (Hcount k) as [_ H].
Qed.

(** Every window key the scan produces satisfies a property that the
    first window has and that adding a month keeps. *)
Lemma monthly_services_loop_keys (P : datetime -> Prop)
  (end_date : datetime) (daily : list Average) :
  (forall d d', P d -> add_one_month d = Ok d' -> P d') ->
  forall (month_start month_end : datetime)
         (monthly res : dict datetime Counter),
    MonthlyServiceAverages.monthly_services_loop daily month_start month_end
      end_date monthly = Ok res ->
    P month_start -> P month_end ->
    (forall k, In k (dict_keys monthly) -> P k) ->
    forall k, In k (dict_keys res) -> P k.
Proof.
  intros Hclosed.
  induction daily as [| daily_service rest IH];
    intros month_start month_end monthly res Hloop Hms Hme Hkeys.
  - simpl in Hloop. now injection Hloop as <-.
  - simpl in Hloop.
    assert (Hstep : forall ms me, P ms -> P me ->
      (if dt_leb today me || dt_ltb end_date me
       then Ok monthly
       else if dt_leb ms (MonthlyServiceAverage.sample_date daily_service)
               && dt_ltb (MonthlyServiceAverage.sample_date daily_service) me
       then
         n <- MonthlyServiceAverages.number_int
                (MonthlyServiceAverage.num_services daily_service) ;;
         MonthlyServiceAverages.monthly_services_loop rest ms me end_date
           (dict_setdefault_update dt_eqb monthly ms []
              (fun counter =>
                 counter_update
                   (counter_update counter "num_daily_services" 1)
                   "num_services" n))
       else
         MonthlyServiceAverages.monthly_services_loop rest ms me end_date
           monthly) = Ok res ->
      forall k, In k (dict_keys res) -> P k).
    { intros ms me Pms Pme Hres.
      destruct (dt_leb today me || dt_ltb end_date me).
      { now injection Hres as <-. }
      destruct (dt_leb ms (MonthlyServiceAverage.sample_date daily_service)
                && dt_ltb (MonthlyServiceAverage.sample_date daily_service) me).
      - destruct (MonthlyServiceAverages.number_int
                    (MonthlyServiceAverage.num_services daily_service))
          as [n | e]; simpl in Hres; [| discriminate].
        apply (IH _ _ _ _ Hres Pms Pme).
        intros k Hk.
        apply (setdefault_update_keys_in dt_eqb dt_eqb_eq) in Hk
          as [Hk | ->]; auto.
      - now apply (IH _ _ _ _ Hres Pms Pme). }
    destruct (dt_leb month_end
                (MonthlyServiceAverage.sample_date daily_service)).
    + destruct (add_one_month month_end) as [next_end | e] eqn:Hnext;
        simpl in Hloop; [| discriminate].
      apply (Hstep month_end next_end); auto.
      now apply (Hclosed month_end).
    + simpl in Hloop. now apply (Hstep month_start month_end).
Qed.

Lemma add_one_month_keeps_alignment (d : Z) (dt dt' : datetime) :
  midnight_up_to_day d dt -> add_one_month dt = Ok dt' ->
  midnight_up_to_day d dt'.
Proof.
  unfold midnight_up_to_day, add_one_month.
  intros [Hh [Hm [Hs [Hus Hday]]]].
  destruct (12 <? month dt + 1);
    match goal with
    | |- context [MAXYEAR <? ?y] => destruct (MAXYEAR <? y)
    end; try discriminate; intros [= <-]; simpl;
    repeat split; try assumption; lia.
Qed.

(** Every averaged month starts at a midnight, on a day of the month no
    later than the day of the subscription start: the windows are cut
    from the subscription start, month by month. *)
Theorem month_starts_aligned
  (details : SubscriptionDetailsForAggregation.t)
  (short_samples : list (Z * Z)) (start : Z) (start_date : datetime)
  (obj obj' : MonthlyServiceAverages.t float)
  (m : MonthlyServiceAverage.t float) :
  SubscriptionDetailsForAggregation.start details = Some start ->
  fromtimestamp start = Ok start_date ->
  MonthlyServiceAverages.__init__ details short_samples = Ok obj ->
  MonthlyServiceAverages._calculate_averages obj = Ok obj' ->
  In m (MonthlyServiceAverages._monthly_service_averages obj') ->
  midnight_up_to_day (day start_date) (MonthlyServiceAverage.sample_date m).
Proof.
  intros Hstart Hsd Hinit Hcalc Hm.
  apply init_attributes in Hinit as [Hdetails [_ Hfresh]].
  unfold MonthlyServiceAverages._calculate_averages in Hcalc.
  rewrite Hdetails, Hstart in Hcalc.
  destruct (MonthlyServiceAverages._daily_services obj) as [| d0 daily].
  { injection Hcalc as <-. rewrite Hfresh in Hm. contradiction. }
  destruct (SubscriptionDetailsForAggregation.end_ details) as [end_ |].
  2:{ injection Hcalc as <-. rewrite Hfresh in Hm. contradiction. }
  rewrite Hsd in Hcalc. cbn [bind] in Hcalc.
  destruct (add_one_month (replace_midnight start_date))
    as [month_end | e] eqn:Hme; cbn [bind] in Hcalc; [| discriminate].
  destruct (fromtimestamp end_) as [end_date | e]; cbn [bind] in Hcalc;
    [| discriminate].
  destruct (MonthlyServiceAverages.monthly_services_loop (d0 :: daily)
              (replace_midnight start_date) month_end
              (replace_midnight end_date) [])
    as [monthly | e] eqn:Hloop; cbn [bind] in Hcalc; [| discriminate].
  destruct (mapM MonthlyServiceAverages.monthly_average monthly)
    as [averages | e] eqn:Havg; cbn [bind] in Hcalc; [| discriminate].
  injection Hcalc as <-.
  cbn [MonthlyServiceAverages._monthly_service_averages] in Hm.
  rewrite Hfresh in Hm. cbn [app] in Hm.
  apply averages_dates in Havg.
  assert (Hfirst : midnight_up_to_day (day start_date)
                     (replace_midnight start_date)).
  { unfold midnight_up_to_day, replace_midnight. simpl.
    repeat split; first [reflexivity | lia]. }
  apply (monthly_services_loop_keys (midnight_up_to_day (day start_date))
           (replace_midnight end_date) (d0 :: daily)
           (add_one_month_keeps_alignment (day start_date))
           _ _ _ _ Hloop Hfirst
           (add_one_month_keeps_alignment _ _ _ Hfirst Hme)).
  - intros k [].
  - rewrite <- Havg. now apply in_map.
Qed.

End WindowSoundness.

(** ** Reporting a sample and parsing it again *)

Section SampleRoundTrip.
Context {float uuid : Type} {R : PyRuntime float uuid}.
Variable uuid_str : uuid -> string.

(** The parser of version 3.0 reads back the report of a sample that has
    an instance id, a non-empty site hash and a platform string of at
    most 50 characters, when [UUID] reads back the non-empty string that
    [str] wrote for the instance id. *)
Theorem sample_report_roundtrip (s : LicenseUsageSample float uuid)
  (u : uuid) (stored_platform : string)
  (caller_id : option uuid) (fallback : string) :
  instance_id s = Some u ->
  uuid_str u <> "" ->
  UUID_of_str (uuid_str u) = Ok u ->
  py_bool (site_hash s) = true ->
  platform s = PStr stored_platform ->
  (String.length stored_platform <= 50)%nat ->
  parse_sample ParserV3_0 caller_id fallback
    (LicenseUsageSample_for_report uuid_str s)
  = Ok s.
Proof.
  destruct s. cbn [instance_id site_hash platform].
  intros -> Hne Huuid Hsite -> Hlen.
  unfold LicenseUsageSample_for_report.
  cbn [instance_id site_hash version edition platform is_cma sample_time
       timezone num_hosts num_hosts_cloud num_hosts_shadow num_hosts_excluded
       num_services num_services_cloud num_services_shadow
       num_services_excluded num_synthetic_tests num_synthetic_tests_excluded
       extension_ntop].
  cbn [parse_sample ParserV3_0]. unfold ParserV3_0_parse_sample.
  unfold LicenseUsageExtensions.parse_from_sample, py_get_default,
    dict_get_default, py_item, dict_item.
  cbn [dict_get String.eqb Ascii.eqb Bool.eqb py_bool negb].
  destruct (String.eqb_spec (uuid_str u) "") as [Heq | _];
    [contradiction |].
  cbn [negb]. rewrite Hsite. cbn [negb bind UUID].
  rewrite Huuid. cbn [bind _parse_platform].
  rewrite (substring_0_short 50 stored_platform Hlen).
  reflexivity.
Qed.

(** The report of a sample without instance id, as the parsers before
    version 1.5 may return it, is refused with [ValueError] by the
    parsers from version 1.5 on. *)
Theorem report_without_instance_id_refused (v : string)
  (p : Parser float uuid) (s : LicenseUsageSample float uuid)
  (caller_id : option uuid) (fallback : string) :
  In v ["1.5"; "2.0"; "2.1"; "3.0"] ->
  make_parser v = Some p ->
  instance_id s = None ->
  parse_sample p caller_id fallback (LicenseUsageSample_for_report uuid_str s)
  = Raise ValueError.
Proof.
  intros Hv Hp Hnone. destruct s. cbn [instance_id] in Hnone. subst.
  simpl in Hv.
  repeat (destruct Hv as [<- | Hv]); try contradiction;
    injection Hp as <-; reflexivity.
Qed.

End SampleRoundTrip.

(** ** Daily bucketing does not depend on the order of the samples *)

Section BucketingOrder.
Context {float : Type} {L : LocalTime float}.

Local Abbreviation Average := (MonthlyServiceAverage.t float).

Lemma fromtimestamp_raises_value_error (t : Z) (e : exn) :
  fromtimestamp t = Raise e -> e = ValueError.
Proof.
  unfold fromtimestamp.
  destruct (civil_from_days ((t + utcoffset t) / 86400)) as [[y m] d].
  destruct ((y <? MINYEAR) || (MAXYEAR <? y)); [| discriminate].
  now intros [= <-].
Qed.

Lemma daily_services_loop_outcome (short_samples : list (Z * Z)) :
  forall daily : dict datetime Counter,
    (forall res,
       MonthlyServiceAverages.daily_services_loop short_samples daily = Ok res ->
       convertible short_samples)
    /\ (forall e,
          MonthlyServiceAverages.daily_services_loop short_samples daily
          = Raise e ->
          e = ValueError /\ ~ convertible short_samples).
Proof.
  induction short_samples as [| [t n] rest IH]; intros daily.
  - split; [intros; constructor | discriminate].
  - cbn [MonthlyServiceAverages.daily_services_loop].
    destruct (fromtimestamp t) as [dt | e0] eqn:Hdt; cbn [bind].
    + match goal with
      | |- context [MonthlyServiceAverages.daily_services_loop rest ?acc] =>
          destruct (IH acc) as [IHok IHraise]
      end.
      split.
      * intros res Hres. constructor; [now exists dt |].
        now apply (IHok res).
      * intros e He. destruct (IHraise e He) as [-> Hnot].
        split; [reflexivity |]. intros Hconv.
        apply Forall_cons_iff in Hconv. tauto.
    + split; [discriminate |].
      intros e [= <-]. split; [now apply fromtimestamp_raises_value_error with t |].
      intros Hconv. apply Forall_cons_iff in Hconv as [[dt Hok] _].
      simpl in Hok. congruence.
Qed.



(** The result of the bucketing, described by the days of the input. *)
Lemma daily_bucketing_characterised (short_samples : list (Z * Z))
  (daily : list Average) :
  MonthlyServiceAverages._calculate_daily_services short_samples = Ok daily ->
  exists days,
    StronglySorted dt_lt days
    /\ (forall d,
          In d days
          <-> exists t n, In (t, n) short_samples /\ sample_day t = Some d)
    /\ map MonthlyServiceAverage.sample_date daily
       = MonthlyServiceAverages.last_n 400 days
    /\ (forall a,
          In a daily ->
          MonthlyServiceAverage.num_services a
          = NInt (day_total (MonthlyServiceAverage.sample_date a)
                    short_samples)).
Proof.
  unfold MonthlyServiceAverages._calculate_daily_services.
  destruct (MonthlyServiceAverages.daily_services_loop short_samples [])
    as [res | e] eqn:Hres; cbn [bind]; [| discriminate].
  intros [= <-].
  pose proof (proj1 (daily_services_loop_outcome short_samples []) res Hres)
    as Hconv.
  destruct (daily_services_loop_spec short_samples [] Hconv)
    as [res' [Hres' [Hkeys [Hnodup Htotal]]]].
  rewrite Hres in Hres'. injection Hres' as <-.
  specialize (Hnodup (NoDup_nil _)).
  exists (map fst (MonthlyServiceAverages.sorted_items res)).
  split; [| split; [| split]].
  - apply StronglySorted_map. now apply sorted_items_sorted.
  - intros d. rewrite sorted_items_keys, Hkeys. simpl. tauto.
  - rewrite <- last_n_map, map_map. apply map_ext. now intros [k c].
  - intros a Ha. apply in_map_iff in Ha as [[k c] [<- Hin]].
    apply last_n_in in Hin.
    apply (proj1 (sorted_items_in res (k, c))) in Hin.
    cbn [MonthlyServiceAverage.sample_date MonthlyServiceAverage.num_services].
    f_equal. specialize (Htotal k).
    unfold dict_get_default in Htotal.
    rewrite (dict_get_in dt_eqb dt_eqb_eq res k c Hnodup Hin) in Htotal.
    cbn [dict_get] in Htotal. unfold counter_get, dict_get_default in *.
    cbn [dict_get] in Htotal. lia.
Qed.



End BucketingOrder.

(** ** The evaluation runtime satisfies the preconditions *)

Lemma decimal_int_int_str (n : Z) : decimal_int (int_str n) = Ok n.
Proof.
  unfold decimal_int. rewrite int_of_string_int_str.
  now rewrite DecimalZ.of_to.
Qed.

Lemma QRuntime_number_gt (x y : number Q) :
  MonthlyServiceAverages.number_gt (R := QRuntime) x y
  = negb (Qle_bool (number_value x) (number_value y)).
Proof.
  destruct x as [m | x], y as [n | y]; try reflexivity.
  cbn [MonthlyServiceAverages.number_gt number_value].
  unfold Qle_bool, inject_Z. cbn [Qnum Qden].
  rewrite !Z.mul_1_r. apply Z.ltb_antisym.
Qed.

Lemma QRuntime_number_gt_order : number_gt_strict_weak_order (R := QRuntime).
Proof.
  unfold number_gt_strict_weak_order. split; [| split].
  - intros x. rewrite QRuntime_number_gt.
    apply negb_false_iff, Qle_bool_iff, Qle_refl.
  - intros x y z. rewrite !QRuntime_number_gt, !negb_true_iff.
    intros Hxy Hyz.
    destruct (Qle_bool (number_value x) (number_value z)) eqn:Hxz;
      [| reflexivity].
    apply Qle_bool_iff in Hxz.
    assert (Hzy : ~ (number_value y <= number_value z)%Q).
    { intros H. apply Qle_bool_iff in H. congruence. }
    assert (Hyx : ~ (number_value x <= number_value y)%Q).
    { intros H. apply Qle_bool_iff in H. congruence. }
    apply Qnot_le_lt in Hzy, Hyx.
    exfalso. apply (Qlt_irrefl (number_value x)).
    apply Qle_lt_trans with (number_value z); [assumption |].
    now apply Qlt_trans with (number_value y).
  - intros x y z. rewrite !QRuntime_number_gt, !negb_false_iff.
    rewrite !Qle_bool_iff. apply Qle_trans.
Qed.

(** ** Instances of the further properties *)

Lemma parsed_limit_unlimited_iff_witness :
  SubscriptionDetailsLimit.type_
    (SubscriptionDetailsLimit.Build SubscriptionDetailsLimitType.unlimited (-1))
  = SubscriptionDetailsLimitType.unlimited
  <-> SubscriptionDetailsLimit.value
        (SubscriptionDetailsLimit.Build SubscriptionDetailsLimitType.unlimited
           (-1)) = -1.
Proof.
  apply (parsed_limit_unlimited_iff (R := QRuntime)
           (PTuple [PStr "unlimited"; PInt 7])).
  reflexivity.
Defined.

Lemma parse_for_config_roundtrip_witness :
  SubscriptionDetailsLimit.parse (R := QRuntime)
    (SubscriptionDetailsLimit.for_config
       (SubscriptionDetailsLimit.Build SubscriptionDetailsLimitType.fixed 3000))
  = Ok (SubscriptionDetailsLimit.Build SubscriptionDetailsLimitType.fixed 3000).
Proof.
  apply (parse_for_config_roundtrip (R := QRuntime)).
  - vm_compute. left. reflexivity.
  - apply decimal_int_int_str.
Defined.

Lemma subscription_details_report_roundtrip_witness :
  _parse_subscription_details (R := QRuntime)
    (SubscriptionDetails_for_report
       {| start := 1704067200; end_ := 1735689600;
          limit := SubscriptionDetailsLimit.Build
                     SubscriptionDetailsLimitType.fixed 3000 |})
  = Ok {| start := 1704067200; end_ := 1735689600;
          limit := SubscriptionDetailsLimit.Build
                     SubscriptionDetailsLimitType.fixed 3000 |}.
Proof.
  apply (subscription_details_report_roundtrip (R := QRuntime)).
  vm_compute. left. reflexivity.
Defined.

Lemma platform_truncated_witness :
  exists s stored,
    parse_sample (ParserV1_4 (R := QRuntime)) None "a3f1c0"
      (PDict sample_v1_4_long_platform) = Ok s
    /\ platform s = PStr stored
    /\ String.length stored = 50%nat.
Proof.
  destruct (parse_sample (ParserV1_4 (R := QRuntime)) None "a3f1c0"
              (PDict sample_v1_4_long_platform)) as [s | e] eqn:Hparse.
  - destruct (platform_truncated "1.4" _ None "a3f1c0"
                sample_v1_4_long_platform s _ eq_refl Hparse eq_refl)
      as [stored [Hstored [Hlen _]]].
    exists s, stored. split; [reflexivity |]. split; assumption.
  - vm_compute in Hparse. discriminate Hparse.
Defined.

Lemma site_hash_source_witness :
  exists s,
    parse_sample (ParserV1_4 (R := QRuntime)) None "a3f1c0"
      (PDict sample_v1_4) = Ok s
    /\ site_hash s = PStr "a3f1c0".
Proof.
  destruct (parse_sample (ParserV1_4 (R := QRuntime)) None "a3f1c0"
              (PDict sample_v1_4)) as [s | e] eqn:Hparse.
  - destruct (site_hash_source "1.4" _ None "a3f1c0" sample_v1_4 s
                eq_refl Hparse) as [Hsite _].
    exists s. split; [reflexivity | exact Hsite].
  - vm_compute in Hparse. discriminate Hparse.
Defined.

Lemma version_defaults_witness :
  exists s,
    parse_sample (ParserV1_4 (R := QRuntime)) None "a3f1c0"
      (PDict sample_v1_4) = Ok s
    /\ num_synthetic_tests s = PInt 0
    /\ num_hosts_cloud s = PInt 0
    /\ Some (num_hosts_shadow s) = Some (PInt 1).
Proof.
  destruct (parse_sample (ParserV1_4 (R := QRuntime)) None "a3f1c0"
              (PDict sample_v1_4)) as [s | e] eqn:Hparse.
  - destruct (version_defaults "1.4" _ None "a3f1c0" sample_v1_4 s
                eq_refl Hparse) as [Hsyn [Hcloud [_ [_ [Hshadow _]]]]].
    exists s. split; [reflexivity |].
    split; [apply Hsyn; discriminate |].
    split; [apply Hcloud; simpl; tauto |].
    symmetry. apply Hshadow. simpl. tauto.
  - vm_compute in Hparse. discriminate Hparse.
Defined.

Lemma non_mapping_sample_refused_witness :
  parse_sample (ParserV3_0 (R := QRuntime)) None "a3f1c0" (PList [])
  = Raise TypeError.
Proof.
  apply (non_mapping_sample_refused "3.0"); [reflexivity | discriminate].
Defined.

Lemma sample_report_roundtrip_witness :
  parse_sample (ParserV3_0 (R := QRuntime)) None ""
    (LicenseUsageSample_for_report (fun u => u) parsed_sample_v3_0)
  = Ok parsed_sample_v3_0.
Proof.
  apply (sample_report_roundtrip (R := QRuntime) (fun u => u)
           parsed_sample_v3_0 "937495cb78f740d49b5ff2c5a81e66b8"
           "Ubuntu 22.04 LTS").
  - reflexivity.
  - discriminate.
  - vm_compute. reflexivity.
  - reflexivity.
  - reflexivity.
  - simpl. lia.
Defined.

Lemma report_without_instance_id_refused_witness :
  exists s,
    parse_sample (ParserV1_4 (R := QRuntime)) None "a3f1c0"
      (PDict sample_v1_4) = Ok s
    /\ parse_sample (ParserV3_0 (R := QRuntime)) None "a3f1c0"
         (LicenseUsageSample_for_report (fun u => u) s)
       = Raise ValueError.
Proof.
  destruct (parse_sample (ParserV1_4 (R := QRuntime)) None "a3f1c0"
              (PDict sample_v1_4)) as [s | e] eqn:Hparse.
  - exists s. split; [reflexivity |].
    apply (report_without_instance_id_refused (fun u => u) "3.0");
      [simpl; tauto | reflexivity |].
    destruct (parse_sample_inversion "1.4" _ None "a3f1c0" sample_v1_4 s
                eq_refl Hparse) as [_ [_ [_ [_ [_ [Hid _]]]]]].
    apply Hid. simpl. tauto.
  - vm_compute in Hparse. discriminate Hparse.
Defined.

Lemma gap_instance_init :
  MonthlyServiceAverages.__init__ (L := clock_2024_12_15)
    (subscription_2024 None) gap_samples = Ok gap_instance.
Proof. vm_compute. reflexivity. Defined.

Lemma gap_instance_calculated :
  MonthlyServiceAverages._calculate_averages (R := QRuntime)
    (L := clock_2024_12_15) gap_instance = Ok gap_instance_aggregated.
Proof. vm_compute. reflexivity. Defined.

Lemma aggregation_without_window_witness :
  exists obj report,
    MonthlyServiceAverages.__init__ (L := clock_2024_12_15)
      subscription_without_start gap_samples = Ok obj
    /\ MonthlyServiceAverages.get_aggregation (R := QRuntime)
         (L := clock_2024_12_15) obj = Ok (report, obj)
    /\ List.length (daily_services report) = 4%nat
    /\ monthly_service_averages report = []
    /\ last_service_report report = None.
Proof.
  destruct (MonthlyServiceAverages.__init__ (L := clock_2024_12_15)
              subscription_without_start gap_samples) as [obj | e] eqn:Hinit.
  - destruct (aggregation_without_window (R := QRuntime)
                (L := clock_2024_12_15) subscription_without_start
                gap_samples obj Hinit (or_introl eq_refl))
      as [report [Hagg [_ [Hdaily [Hmonthly [Hlast _]]]]]].
    exists obj, report. split; [reflexivity |]. split; [exact Hagg |].
    split; [| split; assumption].
    rewrite Hdaily, length_map.
    vm_compute in Hinit. injection Hinit as <-. reflexivity.
  - vm_compute in Hinit. discriminate Hinit.
Defined.

Lemma last_report_is_most_recent_witness :
  exists m,
    In m (MonthlyServiceAverages._monthly_service_averages
            gap_instance_aggregated)
    /\ MonthlyServiceAverages._get_last_service_report
         (L := clock_2024_12_15) gap_instance_aggregated
       = Some (MonthlyServiceAverage.for_report (L := clock_2024_12_15) m).
Proof.
  destruct (last_report_is_most_recent (R := QRuntime)
              (L := clock_2024_12_15) (subscription_2024 None) gap_samples
              gap_instance gap_instance_aggregated gap_instance_init
              gap_instance_calculated)
    as [[Hnil _] | [m [Hin [Hlast _]]]].
  - discriminate Hnil.
  - exists m. split; assumption.
Defined.

Lemma highest_report_is_first_maximum_witness :
  exists m,
    MonthlyServiceAverages._get_highest_service_report (R := QRuntime)
      (L := clock_2024_12_15) gap_instance_aggregated
    = Some (MonthlyServiceAverage.for_report (L := clock_2024_12_15) m)
    /\ forall x,
         In x (MonthlyServiceAverages._monthly_service_averages
                 gap_instance_aggregated) ->
         MonthlyServiceAverages.number_gt (R := QRuntime)
           (MonthlyServiceAverage.num_services x)
           (MonthlyServiceAverage.num_services m) = false.
Proof.
  destruct (highest_report_is_first_maximum (R := QRuntime)
              (L := clock_2024_12_15) gap_instance_aggregated
              QRuntime_number_gt_order)
    as [[Hnil _] | [before [m [after [_ [Hhigh [Hall _]]]]]]].
  - discriminate Hnil.
  - exists m. split; assumption.
Defined.

Lemma second_report_differs_in_months_only_witness :
  exists first obj1 second obj2,
    MonthlyServiceAverages.get_aggregation (R := QRuntime)
      (L := clock_2024_12_15) gap_instance = Ok (first, obj1)
    /\ MonthlyServiceAverages.get_aggregation (R := QRuntime)
         (L := clock_2024_12_15) obj1 = Ok (second, obj2)
    /\ monthly_service_averages second
       = (monthly_service_averages first ++ monthly_service_averages first)%list
    /\ daily_services second = daily_services first
    /\ last_service_report second = last_service_report first.
Proof.
  destruct (MonthlyServiceAverages.get_aggregation (R := QRuntime)
              (L := clock_2024_12_15) gap_instance)
    as [[first obj1] | e] eqn:H1; [| vm_compute in H1; discriminate H1].
  destruct (MonthlyServiceAverages.get_aggregation (R := QRuntime)
              (L := clock_2024_12_15) obj1)
    as [[second obj2] | e] eqn:H2.
  - destruct (second_report_differs_in_months_only (R := QRuntime)
                (L := clock_2024_12_15) (subscription_2024 None) gap_samples
                gap_instance obj1 obj2 first second gap_instance_init H1 H2)
      as [Hmonths [_ [Hdaily [Hlast _]]]].
    exists first, obj1, second, obj2. auto.
  - vm_compute in H1. injection H1 as <- <-.
    vm_compute in H2. discriminate H2.
Defined.

Lemma counted_days_lie_in_window_witness :
  exists res c,
    MonthlyServiceAverages.monthly_services_loop (R := QRuntime)
      (L := clock_2024_12_15)
      (MonthlyServiceAverages._daily_services gap_instance)
      (datetime_ymd 2024 1 1) (datetime_ymd 2024 2 1) (datetime_ymd 2025 1 1)
      [] = Ok res
    /\ In (datetime_ymd 2024 4 1, c) res
    /\ 1 <= counter_get c "num_daily_services"
    /\ counter_get c "num_daily_services"
       <= days_in_window (datetime_ymd 2024 4 1)
            (MonthlyServiceAverages._daily_services gap_instance).
Proof.
  destruct (MonthlyServiceAverages.monthly_services_loop (R := QRuntime)
              (L := clock_2024_12_15)
              (MonthlyServiceAverages._daily_services gap_instance)
              (datetime_ymd 2024 1 1) (datetime_ymd 2024 2 1)
              (datetime_ymd 2025 1 1) []) as [res | e] eqn:Hloop.
  - assert (Hin : In (datetime_ymd 2024 4 1,
                      [("num_daily_services", 1); ("num_services", 20)])
                    res).
    { vm_compute in Hloop. injection Hloop as <-. right. left. reflexivity. }
    exists res, [("num_daily_services", 1); ("num_services", 20)].
    split; [reflexivity |]. split; [exact Hin |].
    assert (Hwin : add_one_month (datetime_ymd 2024 1 1)
                   = Ok (datetime_ymd 2024 2 1)) by reflexivity.
    exact (counted_days_lie_in_window (R := QRuntime) (L := clock_2024_12_15)
             _ _ _ _ res _ _ Hwin Hloop Hin).
  - vm_compute in Hloop. discriminate Hloop.
Defined.

Lemma month_starts_aligned_witness :
  midnight_up_to_day 1 (datetime_ymd 2024 4 1).
Proof.
  assert (Hstart : fromtimestamp (L := clock_2024_12_15) (midnight 2024 1 1)
                   = Ok (datetime_ymd 2024 1 1))
    by (vm_compute; reflexivity).
  apply (month_starts_aligned (R := QRuntime) (L := clock_2024_12_15)
           (subscription_2024 None) gap_samples (midnight 2024 1 1)
           (datetime_ymd 2024 1 1) gap_instance gap_instance_aggregated
           (month_average 2024 4 1 20) eq_refl Hstart gap_instance_init
           gap_instance_calculated).
  right. left. reflexivity.
Defined.


(** ** Months without a gap are averaged exactly *)

Section GapFree.
Context {float uuid : Type} {R : PyRuntime float uuid} {L : LocalTime float}.

Local Abbreviation Average := (MonthlyServiceAverage.t float).

Lemma in_window_false_after (k k_end : datetime) (a : Average) :
  add_one_month k = Ok k_end ->
  dt_le k_end (MonthlyServiceAverage.sample_date a) ->
  in_window k a = false.
Proof.
  intros Hk Hle. unfold in_window. rewrite Hk.
  apply dt_not_lt_le in Hle. rewrite Hle. apply andb_false_r.
Qed.

Lemma in_window_false_before (k : datetime) (a : Average) :
  dt_lt (MonthlyServiceAverage.sample_date a) k -> in_window k a = false.
Proof.
  intros Hlt. unfold in_window.
  destruct (add_one_month k); [| reflexivity].
  apply dt_not_le_lt in Hlt. now rewrite Hlt.
Qed.

Lemma window_total_zero (weight : Average -> Z) (k : datetime)
  (daily : list Average) :
  (forall a, In a daily -> in_window k a = false) ->
  window_total weight k daily = 0.
Proof.
  induction daily as [| a daily IH]; intros H; [reflexivity |].
  cbn [window_total]. rewrite (H a) by now left.
  rewrite IH; [reflexivity |]. intros x Hx. apply H. now right.
Qed.

Lemma days_in_window_total (k : datetime) (daily : list Average) :
  days_in_window k daily = window_total (fun _ => 1) k daily.
Proof.
  induction daily as [| a daily IH]; [reflexivity |].
  unfold days_in_window in *. cbn [filter window_total].
  destruct (in_window k a); [| exact IH].
  cbn [List.length]. rewrite Nat2Z.inj_succ. lia.
Qed.

(** A key of the result was there before, or is the current window, or a
    later one. *)
Lemma monthly_services_loop_key_range (end_date : datetime)
  (daily : list Average) :
  forall (month_start month_end : datetime)
         (monthly res : dict datetime Counter),
    MonthlyServiceAverages.monthly_services_loop daily month_start month_end
      end_date monthly = Ok res ->
    add_one_month month_start = Ok month_end ->
    forall k, In k (dict_keys res) ->
      In k (dict_keys monthly) \/ k = month_start \/ dt_le month_end k.
Proof.
  induction daily as [| daily_service rest IH];
    intros month_start month_end monthly res Hloop Hwin k Hk.
  - simpl in Hloop. injection Hloop as <-. now left.
  - simpl in Hloop.
    assert (Hstep : forall ms me,
      add_one_month ms = Ok me ->
      (if dt_leb today me || dt_ltb end_date me
       then Ok monthly
       else if dt_leb ms (MonthlyServiceAverage.sample_date daily_service)
               && dt_ltb (MonthlyServiceAverage.sample_date daily_service) me
       then
         n <- MonthlyServiceAverages.number_int
                (MonthlyServiceAverage.num_services daily_service) ;;
         MonthlyServiceAverages.monthly_services_loop rest ms me end_date
           (dict_setdefault_update dt_eqb monthly ms []
              (fun counter =>
                 counter_update
                   (counter_update counter "num_daily_services" 1)
                   "num_services" n))
       else
         MonthlyServiceAverages.monthly_services_loop rest ms me end_date
           monthly) = Ok res ->
      In k (dict_keys monthly) \/ k = ms \/ dt_le me k).
    { intros ms me Hme Hres.
      destruct (dt_leb today me || dt_ltb end_date me).
      { injection Hres as <-. now left. }
      destruct (dt_leb ms (MonthlyServiceAverage.sample_date daily_service)
                && dt_ltb (MonthlyServiceAverage.sample_date daily_service) me).
      - destruct (MonthlyServiceAverages.number_int
                    (MonthlyServiceAverage.num_services daily_service))
          as [n | e]; simpl in Hres; [| discriminate].
        destruct (IH _ _ _ _ Hres Hme k Hk) as [Hin | Hrest]; [| now right].
        apply (setdefault_update_keys_in dt_eqb dt_eqb_eq) in Hin
          as [Hin | ->]; auto.
      - exact (IH _ _ _ _ Hres Hme k Hk). }
    destruct (dt_leb month_end
                (MonthlyServiceAverage.sample_date daily_service)).
    + destruct (add_one_month month_end) as [next_end | e] eqn:Hnext;
        simpl in Hloop; [| discriminate].
      destruct (Hstep month_end next_end Hnext Hloop) as [H | [-> | H]].
      * now left.
      * right. right. apply dt_le_refl.
      * right. right. apply dt_le_trans with next_end; [| assumption].
        apply dt_lt_le. now apply add_one_month_lt.
    + simpl in Hloop. now apply (Hstep month_start month_end).
Qed.

Section Measure.
(** A count kept in the counter of a month, and what a daily bucket adds
    to it. *)
Variable sel : Counter -> Z.
Variable weight : Average -> Z.
Hypothesis sel_update :
  forall (c : Counter) (a : Average) (n : Z),
    MonthlyServiceAverages.number_int (MonthlyServiceAverage.num_services a)
    = Ok n ->
    sel (counter_update (counter_update c "num_daily_services" 1)
           "num_services" n)
    = sel c + weight a.

Local Abbreviation measured monthly k :=
  (sel (dict_get_default dt_eqb monthly k [])).

Lemma measured_after_update (monthly : dict datetime Counter)
  (month_start k : datetime) (a : Average) (n : Z) :
  MonthlyServiceAverages.number_int (MonthlyServiceAverage.num_services a)
  = Ok n ->
  measured
    (dict_setdefault_update dt_eqb monthly month_start []
       (fun counter =>
          counter_update (counter_update counter "num_daily_services" 1)
            "num_services" n)) k
  = measured monthly k + (if dt_eqb month_start k then weight a else 0).
Proof.
  intros Hn. destruct (dt_eqb month_start k) eqn:Hk.
  - apply dt_eqb_eq in Hk. subst k.
    unfold dict_get_default at 1.
    rewrite (setdefault_update_get dt_eqb dt_eqb_eq).
    now apply sel_update.
  - apply dt_eqb_neq in Hk.
    unfold dict_get_default at 1.
    rewrite (setdefault_update_get_other dt_eqb dt_eqb_eq) by assumption.
    fold (dict_get_default dt_eqb monthly k []). lia.
Qed.

(** The months collected so far: the current one, which is complete, or
    months that ended at or before the start of the current window. *)
Local Abbreviation collected end_date monthly ms me :=
  (forall k, In k (dict_keys monthly) ->
     (k = ms /\ dt_leb today me || dt_ltb end_date me = false)
     \/ exists k_end, add_one_month k = Ok k_end /\ dt_le k_end ms).

Lemma monthly_services_loop_exact (end_date : datetime)
  (daily : list Average) :
  forall (month_start month_end : datetime)
         (monthly res : dict datetime Counter),
    MonthlyServiceAverages.monthly_services_loop daily month_start month_end
      end_date monthly = Ok res ->
    add_one_month month_start = Ok month_end ->
    StronglySorted earlier daily ->
    scan_keeps_up daily month_start month_end ->
    collected end_date monthly month_start month_end ->
    forall k, In k (dict_keys res) ->
      measured res k = measured monthly k + window_total weight k daily.
Proof.
  induction daily as [| d rest IH];
    intros month_start month_end monthly res Hloop Hwin Hsorted Hkeeps
      Hcoll k Hk.
  - simpl in Hloop. injection Hloop as <-. simpl. lia.
  - apply StronglySorted_inv in Hsorted as [Hrest Hlater].
    rewrite Forall_forall in Hlater.
    simpl in Hloop. cbn [scan_keeps_up] in Hkeeps.
    assert (Hstep : forall ms me,
      add_one_month ms = Ok me ->
      dt_le ms (MonthlyServiceAverage.sample_date d) ->
      dt_lt (MonthlyServiceAverage.sample_date d) me ->
      scan_keeps_up rest ms me ->
      collected end_date monthly ms me ->
      (if dt_leb today me || dt_ltb end_date me
       then Ok monthly
       else if dt_leb ms (MonthlyServiceAverage.sample_date d)
               && dt_ltb (MonthlyServiceAverage.sample_date d) me
       then
         n <- MonthlyServiceAverages.number_int
                (MonthlyServiceAverage.num_services d) ;;
         MonthlyServiceAverages.monthly_services_loop rest ms me end_date
           (dict_setdefault_update dt_eqb monthly ms []
              (fun counter =>
                 counter_update
                   (counter_update counter "num_daily_services" 1)
                   "num_services" n))
       else
         MonthlyServiceAverages.monthly_services_loop rest ms me end_date
           monthly) = Ok res ->
      measured res k
      = measured monthly k + window_total weight k (d :: rest)).
    { intros ms me Hme Hge Hlt Hkeeps' Hcoll' Hres.
      assert (Hold : forall k', In k' (dict_keys monthly) -> k' <> ms ->
                forall a, In a (d :: rest) -> in_window k' a = false).
      { intros k' Hin Hne a Ha.
        destruct (Hcoll' k' Hin) as [[Heq _] | [k_end [Hke Hle]]];
          [contradiction |].
        apply (in_window_false_after k' k_end a Hke).
        apply dt_le_trans with ms; [assumption |].
        apply dt_le_trans with (MonthlyServiceAverage.sample_date d);
          [assumption |].
        destruct Ha as [<- | Ha]; [apply dt_le_refl |].
        apply dt_lt_le. now apply Hlater. }
      destruct (dt_leb today me || dt_ltb end_date me) eqn:Hcheck.
      { injection Hres as <-.
        rewrite window_total_zero; [lia |].
        intros a Ha. apply (Hold k Hk); [| assumption].
        intros ->. destruct (Hcoll' ms Hk) as [[_ Hc] | [k_end [Hke Hle]]].
        - discriminate Hc.
        - rewrite Hme in Hke. injection Hke as <-.
          apply (dt_lt_irrefl ms).
          apply dt_lt_le_trans with me; [now apply add_one_month_lt |].
          assumption. }
      assert (Hin : dt_leb ms (MonthlyServiceAverage.sample_date d)
                    && dt_ltb (MonthlyServiceAverage.sample_date d) me = true).
      { apply andb_true_iff. split;
          [now apply dt_leb_le | now apply dt_ltb_lt]. }
      rewrite Hin in Hres.
      destruct (MonthlyServiceAverages.number_int
                  (MonthlyServiceAverage.num_services d))
        as [n | e] eqn:Hn; simpl in Hres; [| discriminate].
      rewrite (IH _ _ _ _ Hres Hme Hrest Hkeeps'); [| | exact Hk].
      2:{ intros k' Hk'.
          apply (setdefault_update_keys_in dt_eqb dt_eqb_eq) in Hk'
            as [Hk' | ->]; [| now left].
          destruct (Hcoll' k' Hk') as [[-> Hc] | Hpast]; auto. }
      rewrite (measured_after_update _ _ _ d n Hn).
      cbn [window_total].
      destruct (dt_eqb ms k) eqn:Hmk.
      - apply dt_eqb_eq in Hmk. subst k.
        assert (Hw : in_window ms d = true)
          by (unfold in_window; now rewrite Hme).
        rewrite Hw. lia.
      - apply dt_eqb_neq in Hmk.
        assert (Hw : in_window k d = false).
        { destruct (monthly_services_loop_key_range _ _ _ _ _ _ Hres Hme k Hk)
            as [Hkin | [-> | Hlate]].
          - apply (setdefault_update_keys_in dt_eqb dt_eqb_eq) in Hkin
              as [Hkin | ->]; [| contradiction].
            apply (Hold k Hkin); [congruence | now left].
          - contradiction.
          - apply in_window_false_before.
            now apply dt_lt_le_trans with me. }
        rewrite Hw. lia. }
    destruct (dt_leb month_end (MonthlyServiceAverage.sample_date d))
      eqn:Hadv.
    + destruct (add_one_month month_end) as [next_end | e] eqn:Hnext;
        simpl in Hloop; [| discriminate].
      destruct Hkeeps as [Hlt Hkeeps].
      apply (Hstep month_end next_end Hnext); try assumption.
      * now apply dt_leb_le.
      * intros k' Hk'. right.
        destruct (Hcoll k' Hk') as [[-> _] | [k_end [Hke Hle]]].
        -- exists month_end. split; [assumption | apply dt_le_refl].
        -- exists k_end. split; [assumption |].
           apply dt_le_trans with month_start; [assumption |].
           apply dt_lt_le. now apply add_one_month_lt.
    + simpl in Hloop. destruct Hkeeps as [Hge Hkeeps].
      apply (Hstep month_start month_end); try assumption.
      now apply dt_not_le_lt.
Qed.

End Measure.

(** The two counters of a collected month, when the scan keeps up. *)
Lemma window_counters_exact (daily : list Average)
  (month_start month_end end_date : datetime)
  (res : dict datetime Counter) (k : datetime) (c : Counter) :
  add_one_month month_start = Ok month_end ->
  StronglySorted earlier daily ->
  scan_keeps_up daily month_start month_end ->
  MonthlyServiceAverages.monthly_services_loop daily month_start month_end
    end_date [] = Ok res ->
  In (k, c) res ->
  counter_get c "num_daily_services" = days_in_window k daily
  /\ counter_get c "num_services" = services_in_window k daily.
Proof.
  intros Hwin Hsorted Hkeeps Hloop Hin.
  destruct (monthly_services_loop_counts end_date daily _ _ _ _ Hloop Hwin)
    as [_ [_ Hnodup]].
  specialize (Hnodup (NoDup_nil _)).
  assert (Hk : In k (dict_keys res)).
  { unfold dict_keys. change k with (fst (k, c)). now apply in_map. }
  assert (Hget : dict_get_default dt_eqb res k [] = c).
  { unfold dict_get_default.
    now rewrite (dict_get_in dt_eqb dt_eqb_eq res k c Hnodup Hin). }
  assert (Hnone : forall k0 : datetime,
    In k0 (dict_keys (@nil (datetime * Counter))) ->
    (k0 = month_start
     /\ dt_leb today month_end || dt_ltb end_date month_end = false)
    \/ exists k_end, add_one_month k0 = Ok k_end /\ dt_le k_end month_start)
    by (intros k0 []).
  split.
  - pose proof (monthly_services_loop_exact
                  (fun c0 => counter_get c0 "num_daily_services")
                  (fun _ => 1)) as Hexact.
    rewrite days_in_window_total.
    rewrite <- Hget at 1.
    rewrite (Hexact) with (end_date := end_date) (daily := daily)
      (month_start := month_start) (month_end := month_end)
      (monthly := @nil (datetime * Counter)); try assumption.
    + reflexivity.
    + intros c0 a n _.
      rewrite counter_get_update_other by discriminate.
      apply counter_get_update.
  - pose proof (monthly_services_loop_exact
                  (fun c0 => counter_get c0 "num_services")
                  daily_count) as Hexact.
    unfold services_in_window.
    rewrite <- Hget at 1.
    rewrite (Hexact) with (end_date := end_date) (daily := daily)
      (month_start := month_start) (month_end := month_end)
      (monthly := @nil (datetime * Counter)); try assumption.
    + reflexivity.
    + intros c0 a n Hn. rewrite counter_get_update.
      rewrite counter_get_update_other by discriminate.
      unfold daily_count. now rewrite Hn.
Qed.

(** When the scan keeps up with the ascending daily buckets, every month
    it collects is exact: the number of days counted is the number of
    daily buckets in the window of the month, and the services counted
    are the sum of their counts. *)
Theorem months_without_gap_are_exact (daily : list Average)
  (month_start month_end end_date : datetime)
  (res : dict datetime Counter) (k : datetime) (c : Counter) :
  add_one_month month_start = Ok month_end ->
  StronglySorted earlier daily ->
  scan_keeps_up daily month_start month_end ->
  MonthlyServiceAverages.monthly_services_loop daily month_start month_end
    end_date [] = Ok res ->
  In (k, c) res ->
  counter_get c "num_daily_services" = days_in_window k daily
  /\ counter_get c "num_services" = services_in_window k daily.
Proof.
  exact (window_counters_exact daily month_start month_end end_date res k c).
Qed.

Lemma mapM_in {A B : Type} (f : A -> result B) (l : list A) :
  forall (l' : list B) (b : B),
    mapM f l = Ok l' -> In b l' -> exists a, In a l /\ f a = Ok b.
Proof.
  induction l as [| x l IH]; intros l' b; cbn [mapM].
  - intros [= <-] [].
  - destruct (f x) as [y | e] eqn:Hy; cbn [bind]; [| discriminate].
    destruct (mapM f l) as [ys | e]; cbn [bind]; [| discriminate].
    intros [= <-] [<- | Hb].
    + exists x. split; [now left | assumption].
    + destruct (IH ys b eq_refl Hb) as [a [Ha Hfa]].
      exists a. split; [now right | assumption].
Qed.

Lemma last_n_sorted {A : Type} (lt : A -> A -> Prop) (n : nat) (l : list A) :
  StronglySorted lt l -> StronglySorted lt (MonthlyServiceAverages.last_n n l).
Proof.
  unfold MonthlyServiceAverages.last_n.
  generalize (List.length l - n)%nat as j. intros j. revert l.
  induction j as [| j IH]; intros l Hl; [exact Hl |].
  destruct l as [| a l]; [exact Hl |].
  cbn [skipn]. apply IH. now apply StronglySorted_inv in Hl.
Qed.

(** The daily services of a new instance are in ascending order of their
    days. *)
Lemma init_daily_sorted (details : SubscriptionDetailsForAggregation.t)
  (short_samples : list (Z * Z)) (obj : MonthlyServiceAverages.t float) :
  MonthlyServiceAverages.__init__ details short_samples = Ok obj ->
  StronglySorted earlier (MonthlyServiceAverages._daily_services obj).
Proof.
  intros Hinit.
  destruct (init_attributes _ _ _ Hinit) as [_ [Hdaily _]].
  destruct (daily_bucketing_characterised _ _ Hdaily)
    as [days [Hsorted [_ [Hdates _]]]].
  apply sorted_by_date. rewrite Hdates. now apply last_n_sorted.
Qed.

(** The average reported for a month is the mean of the daily services of
    that month: when the scan keeps up with the daily services of a new
    instance, every month of the aggregation has at least one day and
    carries [1.0 * s / n], where [n] is the number of daily services in
    the window of the month and [s] the sum of their counts. *)
Theorem reported_average_is_window_mean
  (details : SubscriptionDetailsForAggregation.t)
  (short_samples : list (Z * Z)) (start : Z)
  (start_date month_end : datetime)
  (obj obj' : MonthlyServiceAverages.t float)
  (m : MonthlyServiceAverage.t float) :
  SubscriptionDetailsForAggregation.start details = Some start ->
  fromtimestamp start = Ok start_date ->
  add_one_month (replace_midnight start_date) = Ok month_end ->
  MonthlyServiceAverages.__init__ details short_samples = Ok obj ->
  scan_keeps_up (MonthlyServiceAverages._daily_services obj)
    (replace_midnight start_date) month_end ->
  MonthlyServiceAverages._calculate_averages obj = Ok obj' ->
  In m (MonthlyServiceAverages._monthly_service_averages obj') ->
  1 <= days_in_window (MonthlyServiceAverage.sample_date m)
         (MonthlyServiceAverages._daily_services obj)
  /\ exists num den avg,
       float_of_int
         (services_in_window (MonthlyServiceAverage.sample_date m)
            (MonthlyServiceAverages._daily_services obj)) = Ok num
       /\ float_of_int
            (days_in_window (MonthlyServiceAverage.sample_date m)
               (MonthlyServiceAverages._daily_services obj)) = Ok den
       /\ float_div (float_mul float_one num) den = Ok avg
       /\ MonthlyServiceAverage.num_services m = NFloat avg.
Proof.
  intros Hs Hsd Hme Hinit Hkeeps Hcalc Hm.
  pose proof (init_daily_sorted _ _ _ Hinit) as Hsorted.
  destruct (init_attributes _ _ _ Hinit) as [Hdet [_ Hfresh]].
  unfold MonthlyServiceAverages._calculate_averages in Hcalc.
  rewrite Hdet, Hs in Hcalc.
  destruct (MonthlyServiceAverages._daily_services obj) as [| d0 daily] eqn:Hd.
  { injection Hcalc as <-. rewrite Hfresh in Hm. destruct Hm. }
  destruct (SubscriptionDetailsForAggregation.end_ details) as [end_ |].
  2: { injection Hcalc as <-. rewrite Hfresh in Hm. destruct Hm. }
  rewrite Hsd in Hcalc. cbn [bind] in Hcalc.
  rewrite Hme in Hcalc. cbn [bind] in Hcalc.
  destruct (fromtimestamp end_) as [end_date | e]; cbn [bind] in Hcalc;
    [| discriminate].
  destruct (MonthlyServiceAverages.monthly_services_loop (d0 :: daily)
              (replace_midnight start_date) month_end
              (replace_midnight end_date) [])
    as [monthly | e] eqn:Hloop; cbn [bind] in Hcalc; [| discriminate].
  destruct (mapM MonthlyServiceAverages.monthly_average monthly)
    as [averages | e] eqn:Havg; cbn [bind] in Hcalc; [| discriminate].
  injection Hcalc as <-.
  cbn [MonthlyServiceAverages._monthly_service_averages] in Hm.
  rewrite Hfresh in Hm. cbn [app] in Hm.
  destruct (mapM_in _ _ _ _ Havg Hm) as [[k c] [Hin Hk]].
  pose proof (monthly_average_date _ _ Hk) as Hdate. cbn [fst] in Hdate.
  rewrite Hdate.
  destruct (window_counters_exact _ _ _ _ _ _ _ Hme Hsorted Hkeeps Hloop Hin)
    as [Hdays Hserv].
  destruct (monthly_services_loop_counts _ _ _ _ _ _ Hloop Hme)
    as [_ [Hkeys Hnodup]].
  specialize (Hnodup (NoDup_nil _)).
  split.
  - rewrite <- Hdays.
    assert (Hget : dict_get_default dt_eqb monthly k [] = c).
    { unfold dict_get_default.
      now rewrite (dict_get_in dt_eqb dt_eqb_eq monthly k c Hnodup Hin). }
    rewrite <- Hget.
    destruct (Hkeys k) as [[] | Hnew].
    + unfold dict_keys. change k with (fst (k, c)). now apply in_map.
    + exact Hnew.
  - unfold MonthlyServiceAverages.monthly_average in Hk.
    rewrite Hdays, Hserv in Hk.
    destruct (float_of_int (services_in_window k (d0 :: daily)))
      as [num | e]; cbn [bind] in Hk; [| discriminate].
    destruct (float_of_int (days_in_window k (d0 :: daily)))
      as [den | e]; cbn [bind] in Hk; [| discriminate].
    destruct (float_div (float_mul float_one num) den) as [avg | e] eqn:Hdiv;
      cbn [bind] in Hk; [| discriminate].
    injection Hk as <-. exists num, den, avg.
    split; [reflexivity |]. split; [reflexivity |].
    split; [exact Hdiv | reflexivity].
Qed.

End GapFree.

Lemma months_without_gap_are_exact_witness :
  exists res c,
    MonthlyServiceAverages.monthly_services_loop (R := QRuntime)
      (L := clock_2024_12_15) steady_daily
      (datetime_ymd 2024 1 1) (datetime_ymd 2024 2 1) (datetime_ymd 2025 1 1)
      [] = Ok res
    /\ In (datetime_ymd 2024 2 1, c) res
    /\ counter_get c "num_daily_services"
       = days_in_window (datetime_ymd 2024 2 1) steady_daily
    /\ counter_get c "num_services"
       = services_in_window (R := QRuntime) (datetime_ymd 2024 2 1)
           steady_daily.
Proof.
  destruct (MonthlyServiceAverages.monthly_services_loop (R := QRuntime)
              (L := clock_2024_12_15) steady_daily
              (datetime_ymd 2024 1 1) (datetime_ymd 2024 2 1)
              (datetime_ymd 2025 1 1) []) as [res | e] eqn:Hloop.
  - assert (Hin : In (datetime_ymd 2024 2 1,
                      [("num_daily_services", 2); ("num_services", 24)])
                    res).
    { vm_compute in Hloop. injection Hloop as <-. right. left. reflexivity. }
    assert (Hwin : add_one_month (datetime_ymd 2024 1 1)
                   = Ok (datetime_ymd 2024 2 1)) by reflexivity.
    assert (Hsorted : StronglySorted earlier steady_daily)
      by (repeat constructor; vm_compute; reflexivity).
    assert (Hkeeps : scan_keeps_up steady_daily (datetime_ymd 2024 1 1)
                       (datetime_ymd 2024 2 1)).
    { vm_compute. repeat split; first [reflexivity | discriminate]. }
    exists res, [("num_daily_services", 2); ("num_services", 24)].
    split; [reflexivity |]. split; [exact Hin |].
    exact (months_without_gap_are_exact (R := QRuntime)
             (L := clock_2024_12_15) _ _ _ _ res _ _ Hwin Hsorted Hkeeps
             Hloop Hin).
  - vm_compute in Hloop. discriminate Hloop.
Defined.

(** ** The reported limit *)

(** The report of the subscription details carries the start and the end
    as they are and, as limit, the real limit as a plain number: a tagged
    limit such as the free-tier marker is reported by its number alone,
    so the report of [("free", 3)] is the report of the limit 3.  An
    unlimited or absent limit has no real limit and is reported as it
    is. *)
Theorem reported_limit_is_real_limit
  (d : SubscriptionDetailsForAggregation.t) :
  SubscriptionDetailsForAggregation.raw_start
    (SubscriptionDetailsForAggregation.for_report d)
  = SubscriptionDetailsForAggregation.start d
  /\ SubscriptionDetailsForAggregation.raw_end
       (SubscriptionDetailsForAggregation.for_report d)
     = SubscriptionDetailsForAggregation.end_ d
  /\ (forall n,
        SubscriptionDetailsForAggregation.raw_limit
          (SubscriptionDetailsForAggregation.for_report d)
        = Some (SubscriptionDetailsForAggregation.RawInt n)
        <-> SubscriptionDetailsForAggregation.real_limit d = Some n)
  /\ (SubscriptionDetailsForAggregation.raw_limit
        (SubscriptionDetailsForAggregation.for_report d)
      = Some SubscriptionDetailsForAggregation.RawUnlimited
      <-> SubscriptionDetailsForAggregation.limit d
          = Some SubscriptionDetailsForAggregation.Unlimited)
  /\ (SubscriptionDetailsForAggregation.raw_limit
        (SubscriptionDetailsForAggregation.for_report d) = None
      <-> SubscriptionDetailsForAggregation.limit d = None)
  /\ (forall tag n,
        SubscriptionDetailsForAggregation.limit d
        = Some (SubscriptionDetailsForAggregation.Tagged tag n) ->
        SubscriptionDetailsForAggregation.for_report d
        = SubscriptionDetailsForAggregation.for_report
            (SubscriptionDetailsForAggregation.Build
               (SubscriptionDetailsForAggregation.start d)
               (SubscriptionDetailsForAggregation.end_ d)
               (Some (SubscriptionDetailsForAggregation.Int n)))).
Proof.
  destruct d as [s e [[| tag m | m] |]];
    unfold SubscriptionDetailsForAggregation.for_report,
      SubscriptionDetailsForAggregation.real_limit; simpl;
    repeat split; intros; try congruence; try discriminate.
Qed.

(** ** Instances of the statements made of several cases *)

Lemma limit_type_parse_name_witness :
  SubscriptionDetailsLimitType.parse "custom"
  = Ok SubscriptionDetailsLimitType.custom
  /\ SubscriptionDetailsLimitType.parse "2000000+" = Raise ValueError.
Proof.
  split.
  - apply (proj1 (limit_type_parse_name "custom"
                    SubscriptionDetailsLimitType.custom)).
    reflexivity.
  - apply (proj2 (limit_type_parse_name "2000000+"
                    SubscriptionDetailsLimitType.fixed)).
    intros t'. destruct t'; discriminate.
Defined.

Lemma subscription_details_refused_witness :
  _parse_subscription_details (R := QRuntime) (PList [PInt 1735686000])
  = Raise TypeError
  /\ _parse_subscription_details (R := QRuntime) (PStr "manual")
     = Raise TypeError
  /\ _parse_subscription_details (R := QRuntime)
       (PTuple [PStr "manual"; PInt 3000]) = Raise TypeError
  /\ _parse_subscription_details (R := QRuntime)
       (PTuple [PStr "manual";
                PDict [("subscription_end", PInt 1767222000);
                       ("subscription_limit", PInt 3000)]])
     = Raise KeyError.
Proof.
  destruct (subscription_details_refused (R := QRuntime))
    as [Hlen [Hother [Hpair Hkey]]].
  split; [| split; [| split]].
  - apply Hlen. simpl. lia.
  - apply Hother; discriminate.
  - apply Hpair. discriminate.
  - apply (Hkey (PStr "manual")). reflexivity.
Defined.

Lemma extension_flag_precedence_witness :
  LicenseUsageExtensions.parse_from_sample (float := Q)
    (PDict [("extension_ntop", PBool true); ("extensions", PList [])])
  = Raise AttributeError
  /\ LicenseUsageExtensions.parse_from_sample (float := Q)
       (PDict [("extensions", PDict [("ntop", PBool true)])])
     = Ok (LicenseUsageExtensions.Build (PBool true)).
Proof.
  split.
  - apply (proj1 (extension_flag_precedence
                    [("extension_ntop", PBool true); ("extensions", PList [])])
             (PList [])); [reflexivity | discriminate].
  - apply (proj1 (proj2 (proj2 (extension_flag_precedence
                    [("extensions", PDict [("ntop", PBool true)])])))
             [("ntop", PBool true)]); reflexivity.
Defined.

Lemma resolved_version_has_parser_witness :
  exists p : Parser Q string, make_parser "2.1" = Some p.
Proof.
  apply (proj1 (proj2 (resolved_version_has_parser (R := QRuntime)))
           (PDict [("VERSION", PStr "2.1")])).
  reflexivity.
Defined.

Lemma aggregation_details_construction_witness :
  SubscriptionDetailsForAggregation.make (Some 1704067200) (Some 1735689600)
    (Some (SubscriptionDetailsForAggregation.Int 0))
  = Raise ValueError
  /\ SubscriptionDetailsForAggregation.make (Some 1704067200)
       (Some 1735689600) (Some SubscriptionDetailsForAggregation.free)
     = Ok (SubscriptionDetailsForAggregation.Build (Some 1704067200)
             (Some 1735689600) (Some SubscriptionDetailsForAggregation.free)).
Proof.
  split.
  - apply (proj1 (aggregation_details_construction (Some 1704067200)
                    (Some 1735689600)
                    (Some (SubscriptionDetailsForAggregation.Int 0))) 0);
      [reflexivity | lia].
  - apply (proj1 (proj2 (aggregation_details_construction (Some 1704067200)
                    (Some 1735689600)
                    (Some SubscriptionDetailsForAggregation.free)))).
    intros n H. discriminate H.
Defined.

Lemma reported_limit_is_real_limit_witness :
  SubscriptionDetailsForAggregation.for_report
    (SubscriptionDetailsForAggregation.Build (Some 1704067200) None
       (Some SubscriptionDetailsForAggregation.free))
  = SubscriptionDetailsForAggregation.for_report
      (SubscriptionDetailsForAggregation.Build (Some 1704067200) None
         (Some (SubscriptionDetailsForAggregation.Int 3))).
Proof.
  apply (proj2 (proj2 (proj2 (proj2 (proj2
           (reported_limit_is_real_limit
              (SubscriptionDetailsForAggregation.Build (Some 1704067200) None
                 (Some SubscriptionDetailsForAggregation.free)))))))
           "free" 3).
  reflexivity.
Defined.

Lemma subscription_details_config_roundtrip_witness :
  _parse_subscription_details (R := QRuntime)
    (PTuple [PStr "manual";
             SubscriptionDetails_for_config
               {| start := 1704067200; end_ := 1735689600;
                  limit := SubscriptionDetailsLimit.Build
                             SubscriptionDetailsLimitType.fixed 3000 |}])
  = Ok {| start := 1704067200; end_ := 1735689600;
          limit := SubscriptionDetailsLimit.Build
                     SubscriptionDetailsLimitType.fixed 3000 |}.
Proof.
  apply (proj1 (proj2 (subscription_details_config_roundtrip (R := QRuntime)
           {| start := 1704067200; end_ := 1735689600;
              limit := SubscriptionDetailsLimit.Build
                         SubscriptionDetailsLimitType.fixed 3000 |}
           (PStr "manual")
           ltac:(vm_compute; tauto) ltac:(vm_compute; reflexivity)))).
Defined.

Lemma reported_average_is_window_mean_witness :
  exists obj' m,
    MonthlyServiceAverages._calculate_averages (R := QRuntime)
      (L := clock_2024_12_15) steady_instance = Ok obj'
    /\ In m (MonthlyServiceAverages._monthly_service_averages obj')
    /\ MonthlyServiceAverage.sample_date m = datetime_ymd 2024 2 1
    /\ 1 <= days_in_window (MonthlyServiceAverage.sample_date m)
              (MonthlyServiceAverages._daily_services steady_instance)
    /\ exists num den avg,
         float_of_int (PyRuntime := QRuntime)
           (services_in_window (R := QRuntime)
              (MonthlyServiceAverage.sample_date m)
              (MonthlyServiceAverages._daily_services steady_instance))
         = Ok num
         /\ float_of_int (PyRuntime := QRuntime)
              (days_in_window (MonthlyServiceAverage.sample_date m)
                 (MonthlyServiceAverages._daily_services steady_instance))
            = Ok den
         /\ float_div (PyRuntime := QRuntime)
              (float_mul (PyRuntime := QRuntime)
                 (float_one (PyRuntime := QRuntime)) num) den = Ok avg
         /\ MonthlyServiceAverage.num_services m = NFloat avg.
Proof.
  destruct (MonthlyServiceAverages._calculate_averages (R := QRuntime)
              (L := clock_2024_12_15) steady_instance)
    as [obj' | e] eqn:Hcalc.
  - assert (Hm : exists m,
              In m (MonthlyServiceAverages._monthly_service_averages obj')
              /\ MonthlyServiceAverage.sample_date m = datetime_ymd 2024 2 1).
    { vm_compute in Hcalc. injection Hcalc as <-. eexists.
      split; [right; left; reflexivity | reflexivity]. }
    destruct Hm as [m [Hm Hdate]].
    exists obj', m.
    split; [reflexivity |]. split; [exact Hm |]. split; [exact Hdate |].
    assert (Hdetails : SubscriptionDetailsForAggregation.start
                         (subscription_2024 None)
                       = Some (midnight 2024 1 1)) by reflexivity.
    assert (Hinit : MonthlyServiceAverages.__init__
                      (L := clock_2024_12_15) (subscription_2024 None)
                      steady_samples = Ok steady_instance)
      by (vm_compute; reflexivity).
    assert (Hstart : fromtimestamp (L := clock_2024_12_15) (midnight 2024 1 1)
                     = Ok (datetime_ymd 2024 1 1))
      by (vm_compute; reflexivity).
    assert (Hwin : add_one_month (replace_midnight (datetime_ymd 2024 1 1))
                   = Ok (datetime_ymd 2024 2 1)) by reflexivity.
    assert (Hkeeps : scan_keeps_up
                       (MonthlyServiceAverages._daily_services steady_instance)
                       (replace_midnight (datetime_ymd 2024 1 1))
                       (datetime_ymd 2024 2 1)).
    { vm_compute. repeat split; first [reflexivity | discriminate]. }
    exact (reported_average_is_window_mean (R := QRuntime)
             (L := clock_2024_12_15) (subscription_2024 None) steady_samples
             (midnight 2024 1 1) (datetime_ymd 2024 1 1)
             (datetime_ymd 2024 2 1) steady_instance obj' m
             Hdetails Hstart Hwin Hinit Hkeeps Hcalc Hm).
  - vm_compute in Hcalc. discriminate Hcalc.
Defined.

Lemma extensions_report_roundtrip_witness :
  LicenseUsageExtensions.parse_from_sample (float := Q)
    (PDict [("version", PStr "2.2.0");
            ("extensions", PDict [("ntop", PBool true)])])
  = Ok (LicenseUsageExtensions.Build (PBool true)).
Proof.
  apply (proj1 (proj2 (proj2
           (extensions_report_roundtrip
              (LicenseUsageExtensions.Build (float := Q) (PBool true)))))
           [("version", PStr "2.2.0");
            ("extensions", PDict [("ntop", PBool true)])]);
    reflexivity.
Defined.
